(** * Rental ledger of the real-estate tracker

    A shallow embedding of the lease balance and payment ledger:
    the SQLite helpers of [backend/db/index.js], the rental routes of the
    backend, and the paid status and ledger rendering of the landlord and
    renter portals.

    Conventions of the embedding.
    - Money amounts are whole numbers, as the [INTEGER] columns of the
      schema declare; a finite JavaScript number is an element of [Z].
      Fractional amounts and floating-point rounding are outside the model.
    - A value that went through [Number(...)] is a [JsNumber]: finite, or
      one of [NaN], [Infinity], [-Infinity].
    - [new Date().toISOString()] is an integer time stamp handed to the
      operation that reads the clock.  ISO strings have a fixed width, so
      the text order SQLite uses on them is the order of the stamps.
    - A table is the list of its rows in insertion order, together with
      the AUTOINCREMENT counter of the table.
    - An [async] function is a [Promise]: a state transformer on the
      database that resolves to a value or rejects with an error. *)

From Stdlib Require Import ZArith List String Ascii Bool Lia.
From Stdlib Require Import Sorting.Sorted Sorting.Permutation.
From Stdlib Require Import DecimalString.
Import ListNotations.

Open Scope string_scope.
Open Scope list_scope.
Open Scope Z_scope.

(** ** JavaScript numbers *)

Inductive JsNumber : Type :=
| Finite (z : Z)
| NaN
| Infinity
| NegInfinity.

Module Number.

(** [Number.isFinite(value)] *)
Definition isFinite (value : JsNumber) : bool :=
  match value with
  | Finite _ => true
  | _ => false
  end.

(** [Number.isInteger(value)]; every finite number of the model is whole. *)
Definition isInteger (value : JsNumber) : bool := isFinite value.

End Number.

(** [value <= n] for a whole number [n]; any comparison with [NaN] is false. *)
Definition js_le (value : JsNumber) (n : Z) : bool :=
  match value with
  | Finite z => z <=? n
  | NaN => false
  | Infinity => false
  | NegInfinity => true
  end.

(** [value < n] *)
Definition js_lt (value : JsNumber) (n : Z) : bool :=
  match value with
  | Finite z => z <? n
  | NaN => false
  | Infinity => false
  | NegInfinity => true
  end.

(** [value > n] *)
Definition js_gt (value : JsNumber) (n : Z) : bool :=
  match value with
  | Finite z => n <? z
  | NaN => false
  | Infinity => true
  | NegInfinity => false
  end.

(** The whole number bound to a [?] placeholder; the routes reach this only
    behind a [Number.isFinite] guard. *)
Definition sql_integer (value : JsNumber) : Z :=
  match value with
  | Finite z => z
  | _ => 0
  end.

(** ** Rows of the tables *)

Module User.
Record t : Type := mk {
  id : string;
  email : string;
  role : string;
  fullName : option string
}.
End User.

Module RentalProperty.
Record t : Type := mk {
  id : Z;
  landlord_id : string;
  title : string;
  address : string;
  image_url : option string;
  stage : string;
  monthly_rent : Z;
  created_at : Z
}.
End RentalProperty.

Module Lease.
Record t : Type := mk {
  id : Z;
  property_id : Z;
  renter_id : string;
  start_date : option Z;
  occupants_count : Z;
  monthly_rent : Z;
  due_day : Z;
  current_balance : Z;
  is_active : Z;
  created_at : Z
}.

Definition set_current_balance (b : Z) (l : t) : t :=
  mk (id l) (property_id l) (renter_id l) (start_date l) (occupants_count l)
     (monthly_rent l) (due_day l) b (is_active l) (created_at l).
End Lease.

Module Payment.
Record t : Type := mk {
  id : Z;
  lease_id : Z;
  amount : Z;
  paid_at : Z;
  type : string
}.
End Payment.

(** ** The database *)

Record Db : Type := mkDb {
  users : list User.t;
  rental_properties : list RentalProperty.t;
  leases : list Lease.t;
  payments : list Payment.t;
  seq_rental_properties : Z;
  seq_leases : Z;
  seq_payments : Z
}.

(** The database right after [init] on a new file: every table is empty. *)
Definition empty_db : Db := mkDb [] [] [] [] 0 0 0.

(** ** Promises over the database *)

Inductive Outcome (A : Type) : Type :=
| Resolved (a : A)
| Rejected (err : string).

Arguments Resolved {A} a.
Arguments Rejected {A} err.

Definition Promise (A : Type) : Type := Db -> Outcome A * Db.

Definition resolve {A : Type} (a : A) : Promise A :=
  fun db => (Resolved a, db).

Definition reject {A : Type} (err : string) : Promise A :=
  fun db => (Rejected err, db).

(** [await m] followed by the rest of the function body [k]. *)
Definition await {A B : Type} (m : Promise A) (k : A -> Promise B) : Promise B :=
  fun db =>
    match m db with
    | (Resolved a, db') => k a db'
    | (Rejected err, db') => (Rejected err, db')
    end.

(** [try { body } catch (err) { handler }] *)
Definition try_catch {A : Type} (body : Promise A) (handler : string -> Promise A)
  : Promise A :=
  fun db =>
    match body db with
    | (Resolved a, db') => (Resolved a, db')
    | (Rejected err, db') => handler err db'
    end.

Declare Scope promise_scope.
Delimit Scope promise_scope with promise.
Notation "x <- m ;; k" := (await m (fun x => k))
  (at level 61, m at next level, right associativity) : promise_scope.
Notation "m ;;; k" := (await m (fun _ => k))
  (at level 61, right associativity) : promise_scope.
Open Scope promise_scope.

(** A query that only reads. *)
Definition query {A : Type} (f : Db -> A) : Promise A :=
  fun db => (Resolved (f db), db).

(** A statement that only writes. *)
Definition exec (f : Db -> Db) : Promise unit :=
  fun db => (Resolved tt, f db).

(** ** Ordering of query results *)

Section OrderBy.
Context {A : Type} (key : A -> Z).

(** Insert [x] in a list that is in descending order of [key]; rows with
    the same key stay in table order. *)
Fixpoint insert_desc (x : A) (l : list A) : list A :=
  match l with
  | [] => [x]
  | y :: l' => if key y <=? key x then x :: y :: l' else y :: insert_desc x l'
  end.

(** [ORDER BY key DESC] *)
Fixpoint order_by_desc (l : list A) : list A :=
  match l with
  | [] => []
  | x :: l' => insert_desc x (order_by_desc l')
  end.

(** [ORDER BY key DESC LIMIT 1] *)
Definition first_by_desc (l : list A) : option A := hd_error (order_by_desc l).

(** [a] is listed before [b]: its key is not smaller. *)
Definition newer_first (a b : A) : Prop := key b <= key a.
End OrderBy.

(** ** Text helpers *)

(** SQLite's [lower()] folds the ASCII upper-case letters only. *)
Definition lower_ascii (c : ascii) : ascii :=
  let n := nat_of_ascii c in
  if (Nat.leb 65 n && Nat.leb n 90)%bool then ascii_of_nat (n + 32) else c.

Fixpoint lower (s : string) : string :=
  match s with
  | EmptyString => EmptyString
  | String c s' => String (lower_ascii c) (lower s')
  end.

(** [s || fallback] on a string: the empty string is falsy. *)
Definition or_else (s fallback : string) : string :=
  if String.eqb s "" then fallback else s.

(** White space that [String.prototype.trim] strips (the ASCII part). *)
Definition is_space (c : ascii) : bool :=
  let n := nat_of_ascii c in
  (Nat.leb 9 n && Nat.leb n 13 || Nat.eqb n 32)%bool.

Fixpoint trim_start (s : string) : string :=
  match s with
  | EmptyString => EmptyString
  | String c s' => if is_space c then trim_start s' else s
  end.

Fixpoint trim_end (s : string) : string :=
  match s with
  | EmptyString => EmptyString
  | String c s' =>
    let r := trim_end s' in
    if (is_space c && String.eqb r "")%bool then EmptyString else String c r
  end.

Definition trim (s : string) : string := trim_end (trim_start s).

(** ** Writing a table *)

Definition with_users (us : list User.t) (db : Db) : Db :=
  mkDb us (rental_properties db) (leases db) (payments db)
       (seq_rental_properties db) (seq_leases db) (seq_payments db).

Definition insert_rental_property (row : Z -> RentalProperty.t) (db : Db) : Db :=
  let id := seq_rental_properties db + 1 in
  mkDb (users db) (rental_properties db ++ [row id]) (leases db) (payments db)
       id (seq_leases db) (seq_payments db).

Definition insert_lease (row : Z -> Lease.t) (db : Db) : Db :=
  let id := seq_leases db + 1 in
  mkDb (users db) (rental_properties db) (leases db ++ [row id]) (payments db)
       (seq_rental_properties db) id (seq_payments db).

Definition insert_payment (row : Z -> Payment.t) (db : Db) : Db :=
  let id := seq_payments db + 1 in
  mkDb (users db) (rental_properties db) (leases db) (payments db ++ [row id])
       (seq_rental_properties db) (seq_leases db) id.

(** [UPDATE leases SET current_balance = current_balance + delta WHERE id = leaseId] *)
Definition add_to_balance (leaseId delta : Z) (db : Db) : Db :=
  mkDb (users db) (rental_properties db)
       (map (fun l => if Lease.id l =? leaseId
                      then Lease.set_current_balance (Lease.current_balance l + delta) l
                      else l)
            (leases db))
       (payments db)
       (seq_rental_properties db) (seq_leases db) (seq_payments db).

(** ** The helpers of the database module *)

(** Turn a row into the user object used in code. *)
Definition rowToUser (row : option User.t) : option User.t :=
  match row with
  | None => None
  | Some r => Some (User.mk (User.id r) (User.email r)
                            (or_else (User.role r) "renter") (User.fullName r))
  end.

Definition getUserByEmail (email : string) : Promise (option User.t) :=
  query (fun db =>
    rowToUser (find (fun u => String.eqb (lower (User.email u)) (lower email))
                    (users db))).

Definition getUserById (id : string) : Promise (option User.t) :=
  query (fun db => rowToUser (find (fun u => String.eqb (User.id u) id) (users db))).

(** The insert is refused when the primary key [id] or the unique [email]
    is already in the table. *)
Definition createUser (user : User.t) : Promise User.t :=
  fun db =>
    if existsb (fun u => String.eqb (User.id u) (User.id user)
                         || String.eqb (User.email u) (User.email user))%bool
               (users db)
    then (Rejected "SQLITE_CONSTRAINT", db)
    else (Resolved user,
          with_users (users db ++ [User.mk (User.id user) (User.email user)
                                           (or_else (User.role user) "renter")
                                           (User.fullName user)]) db).

Definition createRentalProperty (landlordId title address : string)
  (imageUrl : option string) (stage : string) (monthlyRent : Z) (now : Z)
  : Promise (option RentalProperty.t) :=
  exec (insert_rental_property (fun id =>
    RentalProperty.mk id landlordId title address imageUrl stage monthlyRent now)) ;;;
  query (fun db =>
    first_by_desc RentalProperty.id
      (filter (fun rp => String.eqb (RentalProperty.landlord_id rp) landlordId
                         && String.eqb (RentalProperty.title rp) title
                         && String.eqb (RentalProperty.address rp) address)%bool
              (rental_properties db))).

Definition listRentalPropertiesForLandlord (landlordId : string)
  : Promise (list RentalProperty.t) :=
  query (fun db =>
    order_by_desc RentalProperty.created_at
      (filter (fun rp => String.eqb (RentalProperty.landlord_id rp) landlordId)
              (rental_properties db))).

Definition getRentalPropertyById (id : Z) : Promise (option RentalProperty.t) :=
  query (fun db => find (fun rp => RentalProperty.id rp =? id) (rental_properties db)).

Definition createLease (propertyId : Z) (renterId : string) (startDate : option Z)
  (occupantsCount monthlyRent dueDay currentBalance : Z) (now : Z)
  : Promise (option Lease.t) :=
  exec (insert_lease (fun id =>
    Lease.mk id propertyId renterId startDate occupantsCount monthlyRent dueDay
             currentBalance 1 now)) ;;;
  query (fun db =>
    first_by_desc Lease.id
      (filter (fun l => Lease.property_id l =? propertyId) (leases db))).

(** The lease row with the joined columns [renter_email] and [renter_name]. *)
Definition getActiveLeaseForProperty (propertyId : Z)
  : Promise (option (Lease.t * option User.t)) :=
  query (fun db =>
    option_map
      (fun l => (l, find (fun u => String.eqb (User.id u) (Lease.renter_id l)) (users db)))
      (first_by_desc Lease.id
         (filter (fun l => (Lease.property_id l =? propertyId)
                           && (Lease.is_active l =? 1))%bool
                 (leases db)))).

Definition getLeaseById (id : Z) : Promise (option Lease.t) :=
  query (fun db => find (fun l => Lease.id l =? id) (leases db)).

(** Save a payment-like entry.  [type] can be "payment" (renter paid),
    "charge" (landlord added rent) or "credit" (landlord reduced balance).
    Only a renter payment reduces the balance here; charges and credits
    already changed it upstream. *)
Definition recordPayment (leaseId amount : Z) (type : string) (now : Z)
  : Promise (option Payment.t) :=
  exec (insert_payment (fun id => Payment.mk id leaseId amount now type)) ;;;
  (if String.eqb type "payment"
   then exec (add_to_balance leaseId (- amount))
   else resolve tt) ;;;
  query (fun db =>
    first_by_desc Payment.id
      (filter (fun p => Payment.lease_id p =? leaseId) (payments db))).

Definition listPaymentsForLease (leaseId : Z) : Promise (list Payment.t) :=
  query (fun db =>
    order_by_desc Payment.paid_at
      (filter (fun p => Payment.lease_id p =? leaseId) (payments db))).

(** Add a delta to the current balance (positive = add owed, negative = give
    credit). *)
Definition updateLeaseBalance (leaseId delta : Z) : Promise (option Lease.t) :=
  exec (add_to_balance leaseId delta) ;;;
  query (fun db => find (fun l => Lease.id l =? leaseId) (leases db)).

(** ** Demo bootstrap *)

(** [uuidLandlord] and [uuidRenter] are the values [uuidv4()] returns. *)
Definition ensureDemoUsers (uuidLandlord uuidRenter : string) : Promise unit :=
  let landlordEmail := "landlord@demo.com" in
  let renterEmail := "renter@demo.com" in
  landlord <- getUserByEmail landlordEmail ;;
  match landlord with
  | None => createUser (User.mk uuidLandlord landlordEmail "landlord"
                                (Some "Demo Landlord")) ;;; resolve tt
  | Some _ => resolve tt
  end ;;;
  renter <- getUserByEmail renterEmail ;;
  match renter with
  | None => createUser (User.mk uuidRenter renterEmail "renter"
                                (Some "Demo Renter")) ;;; resolve tt
  | Some _ => resolve tt
  end.

(** Seed a simple landlord/renter, property, and lease for demos.
    [nowProperty], [nowStart] and [nowLease] are the clock readings of
    [createRentalProperty], of the start date and of [createLease]. *)
Definition ensureDemoRentalData (uuidLandlord uuidRenter : string)
  (nowProperty nowStart nowLease : Z) : Promise unit :=
  ensureDemoUsers uuidLandlord uuidRenter ;;;
  landlord <- getUserByEmail "landlord@demo.com" ;;
  renter <- getUserByEmail "renter@demo.com" ;;
  match landlord, renter with
  | Some landlord, Some renter =>
    existingProps <- listRentalPropertiesForLandlord (User.id landlord) ;;
    prop <- match hd_error existingProps with
            | Some prop => resolve (Some prop)
            | None => createRentalProperty (User.id landlord) "Demo Duplex"
                        "500 Oak St, Demo City" None "Reviewing" 1200 nowProperty
            end ;;
    match prop with
    | None => reject "TypeError"
    | Some prop =>
      activeLease <- getActiveLeaseForProperty (RentalProperty.id prop) ;;
      match activeLease with
      | None => createLease (RentalProperty.id prop) (User.id renter)
                            (Some nowStart) 1 1200 1 1200 nowLease ;;; resolve tt
      | Some _ => resolve tt
      end
    end
  | _, _ => resolve tt
  end.

(** ** Requests and responses *)

(** What [requireAuth] finds in the [Authorization] header: no bearer
    token, a token that [jwt.verify] refuses, or a verified payload, of
    which the routes read [sub]. *)
Inductive Authorization : Type :=
| NoToken
| InvalidToken
| Bearer (sub : string).

Inductive Json : Type :=
| JError (error : string)
| JProperty (property : option RentalProperty.t)
| JLease (lease : option Lease.t)
| JPayment (payment : option Payment.t) (lease : option Lease.t)
           (payments : list Payment.t).

Record Response : Type := mkResponse {
  status : Z;
  json : Json
}.

(** [res.status(code).json({ error })] *)
Definition error_response (code : Z) (error : string) : Promise Response :=
  resolve (mkResponse code (JError error)).

Definition requireAuth (authorization : Authorization)
  (next : string -> Promise Response) : Promise Response :=
  match authorization with
  | NoToken => error_response 401 "Auth required"
  | InvalidToken => error_response 401 "Invalid token"
  | Bearer sub => next sub
  end.

(** Small helper to enforce role on a route. *)
Definition requireRole (neededRole : string) (sub : string)
  (next : Promise Response) : Promise Response :=
  try_catch
    (user <- getUserById sub ;;
     match user with
     | Some user =>
       if String.eqb (User.role user) neededRole
       then next
       else error_response 403
              (String.append "Only " (String.append neededRole "s can do this action."))
     | None =>
       error_response 403
         (String.append "Only " (String.append neededRole "s can do this action."))
     end)
    (fun _ => error_response 500 "Unable to verify role.").

(** ** The rental routes *)

Module PropertyBody.
Record t : Type := mk {
  title : option string;
  address : option string;
  imageUrl : option string;
  stage : option string;
  monthlyRent : JsNumber   (* Number(monthlyRent) *)
}.
End PropertyBody.

Module LeaseBody.
Record t : Type := mk {
  propertyId : option Z;
  renterId : option string;
  startDate : option Z;
  occupantsCount : option Z;
  monthlyRent : JsNumber;  (* Number(monthlyRent) *)
  dueDay : JsNumber;       (* Number(dueDay) *)
  currentBalance : option JsNumber  (* Number(currentBalance), when given *)
}.
End LeaseBody.

Module PaymentBody.
Record t : Type := mk {
  leaseId : Z;
  amount : JsNumber   (* Number(amount) *)
}.
End PaymentBody.

Module BalanceBody.
Record t : Type := mk {
  balance : JsNumber  (* Number(balance) *)
}.
End BalanceBody.

(** A field that is present and truthy: a non-empty string. *)
Definition truthy_string (s : option string) : option string :=
  match s with
  | Some s => if String.eqb s "" then None else Some s
  | None => None
  end.

(** A field that is present and truthy: a non-zero number. *)
Definition truthy_id (n : option Z) : option Z :=
  match n with
  | Some n => if n =? 0 then None else Some n
  | None => None
  end.

(** Landlord: add a property.  [POST /rentals/properties] *)
Definition post_rentals_properties (authorization : Authorization)
  (body : PropertyBody.t) (now : Z) : Promise Response :=
  requireAuth authorization (fun sub =>
  requireRole "landlord" sub (
  try_catch
    (match truthy_string (PropertyBody.title body),
           truthy_string (PropertyBody.address body) with
     | Some title, Some address =>
       let rentValue :=
         if Number.isFinite (PropertyBody.monthlyRent body)
         then sql_integer (PropertyBody.monthlyRent body) else 0 in
       created <- createRentalProperty sub (trim title) (trim address)
                    (PropertyBody.imageUrl body)
                    (match truthy_string (PropertyBody.stage body) with
                     | Some stage => stage
                     | None => "Reviewing"
                     end)
                    rentValue now ;;
       resolve (mkResponse 201 (JProperty created))
     | _, _ => error_response 400 "Title and address are required."
     end)
    (fun _ => error_response 500 "Could not save property."))).

(** Landlord: create a lease for one of their properties.
    [POST /rentals/leases] *)
Definition post_rentals_leases (authorization : Authorization)
  (body : LeaseBody.t) (now : Z) : Promise Response :=
  requireAuth authorization (fun sub =>
  requireRole "landlord" sub (
  try_catch
    (match truthy_id (LeaseBody.propertyId body),
           truthy_string (LeaseBody.renterId body) with
     | Some propertyId, Some renterId =>
       let rentValue := LeaseBody.monthlyRent body in
       if (negb (Number.isFinite rentValue) || js_le rentValue 0)%bool
       then error_response 400 "Monthly rent must be a positive number."
       else
       let dueValue := LeaseBody.dueDay body in
       if (negb (Number.isInteger dueValue) || js_lt dueValue 1 || js_gt dueValue 31)%bool
       then error_response 400 "Due day should be a day of the month (1-31)."
       else
       property <- getRentalPropertyById propertyId ;;
       match property with
       | Some property =>
         if negb (String.eqb (RentalProperty.landlord_id property) sub)
         then error_response 403 "You can only lease your own properties."
         else
         lease <- createLease propertyId renterId (LeaseBody.startDate body)
                    (match LeaseBody.occupantsCount body with
                     | Some n => n
                     | None => 1
                     end)
                    (sql_integer rentValue) (sql_integer dueValue)
                    (match LeaseBody.currentBalance body with
                     | Some b => if Number.isFinite b then sql_integer b else 0
                     | None => 0
                     end)
                    now ;;
         resolve (mkResponse 201 (JLease lease))
       | None => error_response 403 "You can only lease your own properties."
       end
     | _, _ => error_response 400 "Property and renter are required."
     end)
    (fun _ => error_response 500 "Could not create lease."))).

(** Renter: pay against their lease.  [POST /rentals/payments] *)
Definition post_rentals_payments (authorization : Authorization)
  (body : PaymentBody.t) (now : Z) : Promise Response :=
  requireAuth authorization (fun sub =>
  requireRole "renter" sub (
  try_catch
    (let leaseId := PaymentBody.leaseId body in
     let value := PaymentBody.amount body in
     if (negb (Number.isFinite value) || js_le value 0)%bool
     then error_response 400 "Payment amount must be positive."
     else
     lease <- getLeaseById leaseId ;;
     match lease with
     | Some lease =>
       if negb (String.eqb (Lease.renter_id lease) sub)
       then error_response 403 "You can only pay your own lease."
       else
       payment <- recordPayment leaseId (sql_integer value) "payment" now ;;
       updatedLease <- getLeaseById leaseId ;;
       payments <- listPaymentsForLease leaseId ;;
       resolve (mkResponse 201 (JPayment payment updatedLease payments))
     | None => error_response 403 "You can only pay your own lease."
     end)
    (fun _ => error_response 500 "Could not record payment."))).

(** Landlord: update a lease balance directly (add charge or credit).
    [PATCH /rentals/leases/:leaseId/balance] *)
Definition patch_rentals_leases_balance (authorization : Authorization)
  (leaseId : Z) (body : BalanceBody.t) (now : Z) : Promise Response :=
  requireAuth authorization (fun sub =>
  requireRole "landlord" sub (
  try_catch
    (let value := BalanceBody.balance body in
     if negb (Number.isFinite value)
     then error_response 400 "Balance must be a number."
     else
     lease <- getLeaseById leaseId ;;
     match lease with
     | None => error_response 404 "Lease not found."
     | Some lease =>
       property <- getRentalPropertyById (Lease.property_id lease) ;;
       match property with
       | Some property =>
         if negb (String.eqb (RentalProperty.landlord_id property) sub)
         then error_response 403 "You can only update your own leases."
         else
         updated <- updateLeaseBalance leaseId (sql_integer value) ;;
         (* Log the adjustment so the renter sees it in their ledger *)
         let entryType := if js_gt value 0 then "charge" else "credit" in
         recordPayment leaseId (sql_integer value) entryType now ;;;
         resolve (mkResponse 200 (JLease updated))
       | None => error_response 403 "You can only update your own leases."
       end
     end)
    (fun _ => error_response 500 "Could not update lease balance."))).

(** ** Server events *)

Inductive Event : Type :=
| Bootstrap (uuidLandlord uuidRenter : string) (nowProperty nowStart nowLease : Z)
| PostProperty (authorization : Authorization) (body : PropertyBody.t) (now : Z)
| PostLease (authorization : Authorization) (body : LeaseBody.t) (now : Z)
| PostPayment (authorization : Authorization) (body : PaymentBody.t) (now : Z)
| PatchBalance (authorization : Authorization) (leaseId : Z) (body : BalanceBody.t)
               (now : Z).

(** The database after the server handled one event. *)
Definition handle (e : Event) (db : Db) : Db :=
  match e with
  | Bootstrap ul ur t1 t2 t3 => snd (ensureDemoRentalData ul ur t1 t2 t3 db)
  | PostProperty a b now => snd (post_rentals_properties a b now db)
  | PostLease a b now => snd (post_rentals_leases a b now db)
  | PostPayment a b now => snd (post_rentals_payments a b now db)
  | PatchBalance a id b now => snd (patch_rentals_leases_balance a id b now db)
  end.

(** The database after the server handled the events in order. *)
Definition run (es : list Event) (db : Db) : Db :=
  fold_left (fun db e => handle e db) es db.

(** ** The ledger as a log *)

(** The effect of one entry on the balance: a payment subtracts its
    amount, a charge or a credit adds its signed amount. *)
Definition entry_effect (p : Payment.t) : Z :=
  if String.eqb (Payment.type p) "payment"
  then - Payment.amount p
  else Payment.amount p.

(** The entries of a lease, in insertion order. *)
Definition entries_of (leaseId : Z) (db : Db) : list Payment.t :=
  filter (fun p => Payment.lease_id p =? leaseId) (payments db).

(** The sum of the effects of the entries of a lease. *)
Definition ledger_sum (leaseId : Z) (db : Db) : Z :=
  fold_right (fun p acc => entry_effect p + acc) 0 (entries_of leaseId db).

(** The lease row with this id, as [getLeaseById] reads it. *)
Definition lease_of (leaseId : Z) (db : Db) : option Lease.t :=
  find (fun l => Lease.id l =? leaseId) (leases db).

(** The running balance of a lease. *)
Definition balance_of (leaseId : Z) (db : Db) : option Z :=
  option_map Lease.current_balance (lease_of leaseId db).

(** The leases of a unit that are flagged active, in insertion order. *)
Definition active_leases (propertyId : Z) (db : Db) : list Lease.t :=
  filter (fun l => (Lease.property_id l =? propertyId) && (Lease.is_active l =? 1))%bool
         (leases db).

(** Identifiers come from the AUTOINCREMENT counters: no lease and no
    entry names a lease id beyond the counter of the leases table. *)
Definition db_wf (db : Db) : Prop :=
  Forall (fun l => Lease.id l <= seq_leases db) (leases db) /\
  Forall (fun p => Payment.lease_id p <= seq_leases db) (payments db).

(** ** Landlord portal *)

Module LandlordPortal.

(** A property as the landlord portal receives it:
    [{ ...prop, activeLease: lease || null }]. *)
Record Property : Type := mkProperty {
  prop : RentalProperty.t;
  activeLease : option Lease.t
}.

(** The [paid] count of [stats], shown on the tile "Paid this month". *)
Definition stats_paid (properties : list Property) : nat :=
  List.length (filter (fun p =>
                         match activeLease p with
                    | Some lease => Lease.current_balance lease <=? 0
                    | None => false
                    end)
                 properties).

(** [prop.activeLease || leases.find((l) => l.property_id === prop.id)] *)
Definition card_lease (leases : list Lease.t) (p : Property) : option Lease.t :=
  match activeLease p with
  | Some lease => Some lease
  | None => find (fun l => Lease.property_id l =? RentalProperty.id (prop p)) leases
  end.

(** [paidThisMonth] of a unit card: paid if the balance is at or below the
    monthly due. *)
Definition paidThisMonth (lease : option Lease.t) : bool :=
  match lease with
  | Some lease =>
    let balance := Lease.current_balance lease in
    let monthlyRent := Lease.monthly_rent lease in
    balance <=? monthlyRent
  | None => false
  end.

End LandlordPortal.

(** ** Renter portal *)

Module RenterPortal.

Record Profile : Type := mkProfile {
  balance : Z;
  monthlyRent : Z;
  profile_paidThisMonth : bool
}.

(** [demoRenterProfile], the profile before a lease is loaded. *)
Definition demoRenterProfile : Profile := mkProfile 1200 1200 false.

(** The profile update after [getRenterLease] answered with [lease]. *)
Definition load_profile (prev : Profile) (lease : Lease.t) : Profile :=
  let balance := Lease.current_balance lease in
  let monthly := Lease.monthly_rent lease in
  mkProfile balance
            (if monthly =? 0 then monthlyRent prev else monthly)
            (if monthly =? 0 then balance <=? 0 else balance <=? monthly).

(** The profile update after [payLease] answered with [lease]. *)
Definition paid_profile (prev : Profile) (lease : Lease.t) : Profile :=
  let balance := Lease.current_balance lease in
  let monthly := Lease.monthly_rent lease in
  mkProfile balance
            (monthlyRent prev)
            (if monthly =? 0 then balance <=? 0 else balance <=? monthly).

(** Paid = covered at least the monthly rent. *)
Definition paidThisMonth (profile : Profile) : bool :=
  let currentBalance := balance profile in
  let monthlyRent := monthlyRent profile in
  if monthlyRent =? 0 then currentBalance <=? 0 else currentBalance <=? monthlyRent.

(** Overdue = balance still above monthly. *)
Definition balanceOverdue (profile : Profile) : bool :=
  let currentBalance := balance profile in
  let monthlyRent := monthlyRent profile in
  if monthlyRent =? 0 then 0 <? currentBalance else monthlyRent <? currentBalance.

(** An entry of the account ledger. *)
Record LedgerEntry : Type := mkLedgerEntry {
  id : Z;
  date : Z;
  amount : Z;
  method : string;
  note : string;
  type : string
}.

(** Map a backend row into the ledger, as done after [getRenterLease]. *)
Definition loaded_entry (p : Payment.t) : LedgerEntry :=
  mkLedgerEntry (Payment.id p) (Payment.paid_at p) (Payment.amount p)
    (if String.eqb (Payment.type p) "charge" then "Due amount" else "Online payment")
    (if (String.eqb (Payment.type p) "charge" || String.eqb (Payment.type p) "credit")%bool
     then "Posted by landlord" else "Paid by you")
    (or_else (Payment.type p) "payment").

(** Map a backend row into the ledger, as done after [payLease]. *)
Definition paid_entry (methodLabel : string) (p : Payment.t) : LedgerEntry :=
  mkLedgerEntry (Payment.id p) (Payment.paid_at p) (Payment.amount p)
    (if String.eqb (Payment.type p) "charge" then "Due amount" else methodLabel)
    (if (String.eqb (Payment.type p) "charge" || String.eqb (Payment.type p) "credit")%bool
     then "Posted by landlord" else "Paid by you")
    (or_else (Payment.type p) "payment").

Section Rendering.
(** [Number.prototype.toLocaleString] of the browser. *)
Variable toLocaleString : Z -> string.

Definition formatMoney (value : Z) : string :=
  String.append "$" (toLocaleString value).

Definition formatLedgerAmount (entry : LedgerEntry) : string :=
  let abs := Z.abs (amount entry) in
  let prefix := if String.eqb (type entry) "charge" then "+" else "-" in
  String.append prefix (formatMoney abs).

(** Decide the label based on what kind of entry it is. *)
Definition ledgerLabel (entry : LedgerEntry) : string :=
  if String.eqb (type entry) "charge" then "Rent issued"
  else if String.eqb (type entry) "credit" then "Credited on"
  else "Paid on".

Definition ledgerDotClass (entry : LedgerEntry) : string :=
  if String.eqb (type entry) "charge" then "dot-yellow"
  else if String.eqb (type entry) "credit" then "dot-purple"
  else "dot-green".

(** The title, the amount and the note shown for a ledger entry. *)
Definition rendered (entry : LedgerEntry) : string * string * string :=
  (ledgerLabel entry,
   formatLedgerAmount entry,
   note entry).

End Rendering.

End RenterPortal.

(** ** Notions used in the statements *)

(** The user with this id exists and has the role. *)
Definition has_role (neededRole sub : string) (db : Db) : bool :=
  match find (fun u => String.eqb (User.id u) sub) (users db) with
  | Some u => String.eqb (or_else (User.role u) "renter") neededRole
  | None => false
  end.

Definition role_refused (neededRole : string) : Response :=
  mkResponse 403
    (JError (String.append "Only " (String.append neededRole "s can do this action."))).

(** The rental unit with this id, as [getRentalPropertyById] reads it. *)
Definition property_of (id : Z) (db : Db) : option RentalProperty.t :=
  find (fun rp => RentalProperty.id rp =? id) (rental_properties db).

(** The unit backing the lease exists and belongs to [sub]. *)
Definition owns_unit_of (sub : string) (lease : Lease.t) (db : Db) : bool :=
  match property_of (Lease.property_id lease) db with
  | Some property => String.eqb (RentalProperty.landlord_id property) sub
  | None => false
  end.

(** The amount of a payment request does not pass validation: it is not
    finite, or it is zero or negative. *)
Definition invalid_amount (value : JsNumber) : bool :=
  negb (Number.isFinite value) || js_le value 0.

(** The initial balance a lease request asks for: the given number when it
    is finite, 0 otherwise or when none is given. *)
Definition initial_balance (body : LeaseBody.t) : Z :=
  match LeaseBody.currentBalance body with
  | Some b => if Number.isFinite b then sql_integer b else 0
  | None => 0
  end.

(** The row [createLease] inserts for an accepted lease request. *)
Definition new_lease_row (propertyId : Z) (renterId : string) (rent due : Z)
  (body : LeaseBody.t) (now : Z) (id : Z) : Lease.t :=
  Lease.mk id propertyId renterId (LeaseBody.startDate body)
           (match LeaseBody.occupantsCount body with Some n => n | None => 1 end)
           rent due (initial_balance body) 1 now.

(** The database after an accepted payment of [z] on [leaseId]. *)
Definition db_after_payment (leaseId z now : Z) (db : Db) : Db :=
  add_to_balance leaseId (- z)
    (insert_payment (fun id => Payment.mk id leaseId z now "payment") db).

(** The database after an accepted adjustment of [z] on [leaseId]. *)
Definition db_after_adjustment (leaseId z now : Z) (db : Db) : Db :=
  insert_payment
    (fun id => Payment.mk id leaseId z now (if 0 <? z then "charge" else "credit"))
    (add_to_balance leaseId z db).

(** The sign rule the routes keep: the amount of a payment or of a charge
    is above 0, the amount of a credit is not above 0. *)
Definition sign_kept (p : Payment.t) : Prop :=
  (Payment.type p = "payment" -> 0 < Payment.amount p) /\
  (Payment.type p = "charge" -> 0 < Payment.amount p) /\
  (Payment.type p = "credit" -> Payment.amount p <= 0).

(** A promise keeps the relation [R] between the database it starts from
    and the database it leaves. *)
Definition preserves {A : Type} (R : Db -> Db -> Prop) (m : Promise A) : Prop :=
  forall db, R db (snd (m db)).

(** [db'] has the entries of [db], and the leases of [db] followed by
    leases numbered from the counter of [db]. *)
Definition grows (db db' : Db) : Prop :=
  payments db' = payments db /\
  seq_leases db <= seq_leases db' /\
  exists extra,
    leases db' = leases db ++ extra /\
    Forall (fun l => seq_leases db < Lease.id l <= seq_leases db') extra.

(** The difference between the balance of a lease and the sum of its
    entries is the same in [db'] as in [db]. *)
Definition keeps_offset (id : Z) (db db' : Db) : Prop :=
  forall l, lease_of id db = Some l ->
  exists l', lease_of id db' = Some l' /\
             Lease.current_balance l' - ledger_sum id db' =
             Lease.current_balance l - ledger_sum id db.

(** ** The demo data *)

(** The database the bootstrap leaves on a new file. *)
Definition seeded_db (uuidLandlord uuidRenter : string)
  (nowProperty nowStart nowLease : Z) : Db :=
  mkDb [User.mk uuidLandlord "landlord@demo.com" "landlord" (Some "Demo Landlord");
        User.mk uuidRenter "renter@demo.com" "renter" (Some "Demo Renter")]
       [RentalProperty.mk 1 uuidLandlord "Demo Duplex" "500 Oak St, Demo City" None
                          "Reviewing" 1200 nowProperty]
       [Lease.mk 1 1 uuidRenter (Some nowStart) 1 1200 1 1200 1 nowLease]
       [] 1 1 0.

(** The demo database used in the examples: the bootstrap ran on a new
    file at time 1000. *)
Definition demo_db : Db := seeded_db "uuid-landlord" "uuid-renter" 1000 1000 1000.

(** The demo database with a second renter and a second landlord. *)
Definition crowded_db : Db :=
  with_users (users demo_db ++
              [User.mk "uuid-other-renter" "other.renter@demo.com" "renter" None;
               User.mk "uuid-other-landlord" "other.landlord@demo.com" "landlord" None])
             demo_db.

(** The demo renter pays [amount] on lease [leaseId]. *)
Definition demo_pay (leaseId : Z) (amount : JsNumber) (now : Z) : Event :=
  PostPayment (Bearer "uuid-renter") (PaymentBody.mk leaseId amount) now.

(** The demo landlord adjusts the balance of lease [leaseId] by [delta]. *)
Definition demo_adjust (leaseId : Z) (delta : JsNumber) (now : Z) : Event :=
  PatchBalance (Bearer "uuid-landlord") leaseId (BalanceBody.mk delta) now.

(** The demo landlord asks for a second lease on the demo unit, for the
    demo renter, with an initial balance of 300. *)
Definition second_lease_body : LeaseBody.t :=
  LeaseBody.mk (Some 1) (Some "uuid-renter") None None (Finite 900) (Finite 5)
               (Some (Finite 300)).

(** The demo unit as the landlord portal receives it. *)
Definition demo_property : LandlordPortal.Property :=
  LandlordPortal.mkProperty
    (RentalProperty.mk 1 "uuid-landlord" "Demo Duplex" "500 Oak St, Demo City" None
                       "Reviewing" 1200 1000)
    (Some (Lease.mk 1 1 "uuid-renter" (Some 1000) 1 1200 1 1200 1 1000)).

(** ** Reading helpers and routes of the backend *)

(** A row of [listLeasesForLandlord]: the lease with the joined columns
    [property_title], [property_address], [renter_email], [renter_name]. *)
Module LandlordLease.
Record t : Type := mk {
  lease : Lease.t;
  property_title : string;
  property_address : string;
  renter_email : option string;
  renter_name : option string
}.
End LandlordLease.

(** A row of [listLeasesForRenter]: the lease with the joined columns
    [property_title] and [property_address]. *)
Module RenterLease.
Record t : Type := mk {
  lease : Lease.t;
  property_title : string;
  property_address : string
}.
End RenterLease.

(** [LEFT JOIN users u ON u.id = renterId]: the matching users, or one
    row of NULLs when there is none. *)
Definition left_join_users (renterId : string) (db : Db) : list (option User.t) :=
  match filter (fun u => String.eqb (User.id u) renterId) (users db) with
  | [] => [None]
  | us => map Some us
  end.

Definition listLeasesForLandlord (landlordId : string)
  : Promise (list LandlordLease.t) :=
  query (fun db =>
    order_by_desc (fun r => Lease.created_at (LandlordLease.lease r))
      (flat_map
         (fun l =>
            flat_map
              (fun rp =>
                 if ((RentalProperty.id rp =? Lease.property_id l)
                     && String.eqb (RentalProperty.landlord_id rp) landlordId)%bool
                 then map (fun u =>
                             LandlordLease.mk l (RentalProperty.title rp)
                               (RentalProperty.address rp)
                               (option_map User.email u)
                               (match u with
                                | Some u => User.fullName u
                                | None => None
                                end))
                          (left_join_users (Lease.renter_id l) db)
                 else [])
              (rental_properties db))
         (leases db))).

Definition listLeasesForRenter (renterId : string) : Promise (list RenterLease.t) :=
  query (fun db =>
    order_by_desc (fun r => Lease.created_at (RenterLease.lease r))
      (flat_map
         (fun l =>
            if String.eqb (Lease.renter_id l) renterId
            then map (fun rp => RenterLease.mk l (RentalProperty.title rp)
                                               (RentalProperty.address rp))
                     (filter (fun rp => RentalProperty.id rp =? Lease.property_id l)
                             (rental_properties db))
            else [])
         (leases db))).

(** The answer of a reading route: a status with its body, or a status
    with [{ error }]. *)
Inductive Reply (A : Type) : Type :=
| Answer (status : Z) (body : A)
| Refusal (status : Z) (error : string).

Arguments Answer {A} status body.
Arguments Refusal {A} status error.

(** [requireAuth] in front of a reading route. *)
Definition requireAuthFor {A : Type} (authorization : Authorization)
  (next : string -> Promise (Reply A)) : Promise (Reply A) :=
  match authorization with
  | NoToken => resolve (Refusal 401 "Auth required")
  | InvalidToken => resolve (Refusal 401 "Invalid token")
  | Bearer sub => next sub
  end.

(** [requireRole] in front of a reading route. *)
Definition requireRoleFor {A : Type} (neededRole : string) (sub : string)
  (next : Promise (Reply A)) : Promise (Reply A) :=
  try_catch
    (user <- getUserById sub ;;
     match user with
     | Some user =>
       if String.eqb (User.role user) neededRole
       then next
       else resolve (Refusal 403
              (String.append "Only " (String.append neededRole "s can do this action.")))
     | None =>
       resolve (Refusal 403
         (String.append "Only " (String.append neededRole "s can do this action.")))
     end)
    (fun _ => resolve (Refusal 500 "Unable to verify role.")).

(** [Promise.all(items.map(f))] *)
Fixpoint promise_all {A B : Type} (f : A -> Promise B) (items : list A)
  : Promise (list B) :=
  match items with
  | [] => resolve []
  | x :: rest =>
    y <- f x ;;
    ys <- promise_all f rest ;;
    resolve (y :: ys)
  end.

(** A unit with its active lease attached: [{ ...prop, activeLease }]. *)
Definition UnitWithLease : Type :=
  (RentalProperty.t * option (Lease.t * option User.t))%type.

(** Landlord: list properties they own.  [GET /rentals/properties] *)
Definition get_rentals_properties (authorization : Authorization)
  : Promise (Reply (list UnitWithLease)) :=
  requireAuthFor authorization (fun sub =>
  requireRoleFor "landlord" sub (
  try_catch
    (properties <- listRentalPropertiesForLandlord sub ;;
     (* Attach the active lease (if any) to each property *)
     withLease <- promise_all
                    (fun prop =>
                       lease <- getActiveLeaseForProperty (RentalProperty.id prop) ;;
                       resolve (prop, lease))
                    properties ;;
     resolve (Answer 200 withLease))
    (fun _ => resolve (Refusal 500 "Could not load properties.")))).

(** Landlord: see leases tied to their properties.  [GET /rentals/leases] *)
Definition get_rentals_leases (authorization : Authorization)
  : Promise (Reply (list LandlordLease.t)) :=
  requireAuthFor authorization (fun sub =>
  requireRoleFor "landlord" sub (
  try_catch
    (leases <- listLeasesForLandlord sub ;;
     resolve (Answer 200 leases))
    (fun _ => resolve (Refusal 500 "Could not load leases.")))).

(** Renter: view their latest lease.  [GET /rentals/my-lease] *)
Definition get_rentals_my_lease (authorization : Authorization)
  : Promise (Reply (RenterLease.t * list Payment.t)) :=
  requireAuthFor authorization (fun sub =>
  requireRoleFor "renter" sub (
  try_catch
    (leases <- listLeasesForRenter sub ;;
     match hd_error leases with
     | None => resolve (Refusal 404 "No lease found for this renter.")
     | Some lease =>
       payments <- listPaymentsForLease (Lease.id (RenterLease.lease lease)) ;;
       resolve (Answer 200 (lease, payments))
     end)
    (fun _ => resolve (Refusal 500 "Could not load renter lease.")))).

(** ** What the server writes *)

(** The terms of a lease as the lease route checks them. *)
Definition lease_valid (l : Lease.t) : Prop :=
  0 < Lease.monthly_rent l /\ 1 <= Lease.due_day l <= 31 /\ Lease.is_active l = 1.

(** One write of the server: new users, a new unit, a new lease on an
    existing unit, an accepted payment or an accepted adjustment on an
    existing lease. *)
Inductive write : Db -> Db -> Prop :=
| write_users (us : list User.t) (db : Db) :
    write db (with_users us db)
| write_unit (row : Z -> RentalProperty.t) (db : Db) :
    (forall id, RentalProperty.id (row id) = id) ->
    write db (insert_rental_property row db)
| write_lease (row : Z -> Lease.t) (db : Db) :
    (forall id, Lease.id (row id) = id) ->
    lease_valid (row (seq_leases db + 1)) ->
    property_of (Lease.property_id (row (seq_leases db + 1))) db <> None ->
    write db (insert_lease row db)
| write_payment (leaseId z now : Z) (db : Db) :
    0 < z ->
    lease_of leaseId db <> None ->
    write db (db_after_payment leaseId z now db)
| write_adjustment (leaseId z now : Z) (db : Db) :
    lease_of leaseId db <> None ->
    write db (db_after_adjustment leaseId z now db).

(** Any number of writes, one after the other. *)
Inductive writes : Db -> Db -> Prop :=
| writes_none (db : Db) : writes db db
| writes_more (db1 db2 db3 : Db) :
    writes db1 db2 -> write db2 db3 -> writes db1 db3.

(** From a database satisfying [P], the promise only makes writes, and a
    value it resolves to satisfies [Q] in the database it leaves. *)
Definition triple {A : Type} (P : Db -> Prop) (m : Promise A)
  (Q : A -> Db -> Prop) : Prop :=
  forall db, P db ->
    writes db (snd (m db)) /\
    forall a, fst (m db) = Resolved a -> Q a (snd (m db)).

(** Every lease names an existing unit and every entry an existing lease. *)
Definition references_kept (db : Db) : Prop :=
  Forall (fun l => property_of (Lease.property_id l) db <> None) (leases db) /\
  Forall (fun p => lease_of (Payment.lease_id p) db <> None) (payments db).

(** The unit ids are distinct and below the counter of the table. *)
Definition units_keyed (db : Db) : Prop :=
  NoDup (map RentalProperty.id (rental_properties db)) /\
  Forall (fun rp => RentalProperty.id rp <= seq_rental_properties db)
         (rental_properties db).

(** Two lease rows that differ at most in the running balance. *)
Definition same_terms (l l' : Lease.t) : Prop :=
  Lease.set_current_balance 0 l' = Lease.set_current_balance 0 l.

(** The row [createRentalProperty] inserts for an accepted unit request. *)
Definition new_unit_row (sub title address : string) (body : PropertyBody.t)
  (now : Z) (id : Z) : RentalProperty.t :=
  RentalProperty.mk id sub (trim title) (trim address) (PropertyBody.imageUrl body)
    (match truthy_string (PropertyBody.stage body) with
     | Some stage => stage
     | None => "Reviewing"
     end)
    (if Number.isFinite (PropertyBody.monthlyRent body)
     then sql_integer (PropertyBody.monthlyRent body) else 0)
    now.

(** The units of a landlord with this title and address, which
    [createRentalProperty] reads back. *)
Definition units_like (sub title address : string) (db : Db)
  : list RentalProperty.t :=
  filter (fun rp => String.eqb (RentalProperty.landlord_id rp) sub
                    && String.eqb (RentalProperty.title rp) title
                    && String.eqb (RentalProperty.address rp) address)%bool
         (rental_properties db).

(** The answer of the server to a request; the bootstrap answers nobody. *)
Definition respond (e : Event) (db : Db) : option Response :=
  let answer (r : Outcome Response * Db) :=
    match fst r with
    | Resolved resp => Some resp
    | Rejected _ => None
    end in
  match e with
  | Bootstrap _ _ _ _ _ => None
  | PostProperty a b now => answer (post_rentals_properties a b now db)
  | PostLease a b now => answer (post_rentals_leases a b now db)
  | PostPayment a b now => answer (post_rentals_payments a b now db)
  | PatchBalance a id b now => answer (patch_rentals_leases_balance a id b now db)
  end.

(** Every character of the string is white space. *)
Fixpoint all_space (s : string) : bool :=
  match s with
  | EmptyString => true
  | String c s' => is_space c && all_space s'
  end.

(** The active lease of a unit with the joined renter, as
    [getActiveLeaseForProperty] reads it. *)
Definition active_lease_of (propertyId : Z) (db : Db)
  : option (Lease.t * option User.t) :=
  option_map
    (fun l => (l, find (fun u => String.eqb (User.id u) (Lease.renter_id l)) (users db)))
    (first_by_desc Lease.id (active_leases propertyId db)).

(** The units a landlord owns, in table order. *)
Definition units_of (sub : string) (db : Db) : list RentalProperty.t :=
  filter (fun rp => String.eqb (RentalProperty.landlord_id rp) sub)
         (rental_properties db).

(** The leases of a renter, in table order. *)
Definition leases_of_renter (sub : string) (db : Db) : list Lease.t :=
  filter (fun l => String.eqb (Lease.renter_id l) sub) (leases db).

(** A unit of the answer of [GET /rentals/properties] as the landlord
    portal holds it. *)
Definition as_portal_property (u : UnitWithLease) : LandlordPortal.Property :=
  LandlordPortal.mkProperty (fst u) (option_map fst (snd u)).

(** ** More of the two portals *)

(** [a % b] on whole numbers: the remainder has the sign of [a]. *)
Definition js_mod (a b : Z) : Z := Z.rem a b.

(** [list[i]] for a whole number [i]: [undefined] outside the list. *)
Definition js_index (list : list string) (i : Z) : option string :=
  if ((0 <=? i) && (i <? Z.of_nat (List.length list)))%bool
  then nth_error list (Z.to_nat i)
  else None.

(** [a || b] where [a] may be [undefined] and [b] is a string. *)
Definition or_string (a : option string) (b : string) : string :=
  match a with
  | Some s => if String.eqb s "" then b else s
  | None => b
  end.

(** [`${day}`] for a whole number below 10^21 in absolute value. *)
Definition decimal (day : Z) : string := NilZero.string_of_int (Z.to_int day).

(** Build nice strings for due dates and ordinals. *)
Definition formatOrdinal (day : Z) : string :=
  let suffix := ["th"; "st"; "nd"; "rd"] in
  let v := js_mod day 100 in
  String.append (decimal day)
    (or_string (js_index suffix (js_mod (v - 20) 10))
       (or_string (js_index suffix v)
          (match js_index suffix 0 with
           | Some s => s
           | None => "undefined"
           end))).

Definition dueLabel (day : Z) : string :=
  String.append (formatOrdinal (if day =? 0 then 1 else day)) " of each month".


(** The counts [total] and [occupied] of [stats] in the landlord portal. *)
Module LandlordStats.

Definition total (properties : list LandlordPortal.Property) : nat :=
  List.length properties.

Definition occupied (properties : list LandlordPortal.Property) : nat :=
  List.length (filter (fun p =>
                         match LandlordPortal.activeLease p with
                         | Some _ => true
                         | None => false
                         end)
                      properties).

End LandlordStats.

(** The amount the renter portal puts in the payment form:
    [currentBalance > 0 ? currentBalance : 0]. *)
Definition suggestedPayment (profile : RenterPortal.Profile) : Z :=
  let currentBalance := RenterPortal.balance profile in
  if 0 <? currentBalance then currentBalance else 0.


(** ** Favorites

    The saved listings of [backend/db/index.js] and the favorites routes.
    A listing is the JSON object the client sends.  Its numbers (prices,
    coordinates) are kept abstract: the code only tests whether they are
    truthy and prints the id.  [JSON.parse(JSON.stringify(listing))] gives
    the listing back, so the column [raw_json] holds the listing itself.
    A column holds the value bound to it; the conversions of SQLite's
    column affinity are not modelled. *)

(** What the code asks of a JSON number. *)
Record NumberOps (num : Type) : Type := mkNumberOps {
  is_zero : num -> bool;      (* the number is falsy *)
  zero : num;                 (* 0 *)
  show : num -> string        (* String(n) *)
}.

Arguments is_zero {num} _ _.
Arguments zero {num} _.
Arguments show {num} _ _.

Inductive JsValue (num : Type) : Type :=
| JsUndefined
| JsNull
| JsNum (n : num)
| JsStr (s : string)
| JsArr (items : list string).

Arguments JsUndefined {num}.
Arguments JsNull {num}.
Arguments JsNum {num} n.
Arguments JsStr {num} s.
Arguments JsArr {num} items.

(** A value counts as true in [!v] and [a || b]. *)
Definition truthy {num : Type} (ops : NumberOps num) (v : JsValue num) : bool :=
  match v with
  | JsUndefined => false
  | JsNull => false
  | JsNum n => negb (is_zero ops n)
  | JsStr s => negb (String.eqb s "")
  | JsArr _ => true
  end.

(** [a || b] *)
Definition js_or {num : Type} (ops : NumberOps num) (a b : JsValue num)
  : JsValue num :=
  if truthy ops a then a else b.

(** [String(v)] *)
Definition js_String {num : Type} (ops : NumberOps num) (v : JsValue num) : string :=
  match v with
  | JsUndefined => "undefined"
  | JsNull => "null"
  | JsNum n => show ops n
  | JsStr s => s
  | JsArr items => String.concat "," items
  end.

Module Listing.
Record t (num : Type) : Type := mk {
  id : JsValue num;
  address : JsValue num;
  price : JsValue num;
  city : JsValue num;
  state : JsValue num;
  zip : JsValue num;
  latitude : JsValue num;
  longitude : JsValue num;
  beds : JsValue num;
  baths : JsValue num;
  sqft : JsValue num;
  description : JsValue num;
  images : JsValue num;
  photos : JsValue num
}.
Arguments mk {num}.
Arguments id {num}.
Arguments address {num}.
Arguments price {num}.
Arguments city {num}.
Arguments state {num}.
Arguments zip {num}.
Arguments latitude {num}.
Arguments longitude {num}.
Arguments beds {num}.
Arguments baths {num}.
Arguments sqft {num}.
Arguments description {num}.
Arguments images {num}.
Arguments photos {num}.
End Listing.

(** A row of the table [properties], with the columns the code writes. *)
Module Property.
Record t (num : Type) : Type := mk {
  id : Z;
  mls_number : string;
  list_price : JsValue num;
  address_city : JsValue num;
  address_state : JsValue num;
  address_zip : JsValue num;
  address_street_name : JsValue num;
  latitude : JsValue num;
  longitude : JsValue num;
  bedrooms : JsValue num;
  bathrooms_total : JsValue num;
  sqft : JsValue num;
  raw_json : Listing.t num
}.
Arguments mk {num}.
Arguments id {num}.
Arguments mls_number {num}.
Arguments list_price {num}.
Arguments address_city {num}.
Arguments address_state {num}.
Arguments address_zip {num}.
Arguments address_street_name {num}.
Arguments latitude {num}.
Arguments longitude {num}.
Arguments bedrooms {num}.
Arguments bathrooms_total {num}.
Arguments sqft {num}.
Arguments raw_json {num}.
End Property.

(** A row of the table [user_saved_properties]. *)
Module Saved.
Record t : Type := mk {
  id : Z;
  user_id : string;
  property_id : Z;
  created_at : Z
}.
End Saved.

(** A saved listing as [getFavoritesForUser] returns it. *)
Module Favorite.
Record t (num : Type) : Type := mk {
  id : JsValue num;
  address : JsValue num;
  price : JsValue num;
  beds : JsValue num;
  baths : JsValue num;
  sqft : JsValue num;
  latitude : JsValue num;
  longitude : JsValue num;
  description : JsValue num;
  images : JsValue num
}.
Arguments mk {num}.
Arguments id {num}.
Arguments address {num}.
Arguments price {num}.
Arguments beds {num}.
Arguments baths {num}.
Arguments sqft {num}.
Arguments latitude {num}.
Arguments longitude {num}.
Arguments description {num}.
Arguments images {num}.
End Favorite.

(** The two tables of the favorites with their AUTOINCREMENT counters. *)
Record FavDb (num : Type) : Type := mkFavDb {
  properties : list (Property.t num);
  user_saved_properties : list Saved.t;
  seq_properties : Z;
  seq_user_saved_properties : Z
}.

Arguments mkFavDb {num}.
Arguments properties {num}.
Arguments user_saved_properties {num}.
Arguments seq_properties {num}.
Arguments seq_user_saved_properties {num}.

Section FavoritesCode.
Context {num : Type} (ops : NumberOps num).

(** [SELECT * FROM properties WHERE mls_number = ? LIMIT 1] *)
Definition property_by_mls (mls : string) (db : FavDb num) : option (Property.t num) :=
  find (fun p => String.eqb (Property.mls_number p) mls) (properties db).

(** Save a listing record (minimal fields) if it does not exist, return
    its row id. *)
Definition upsertPropertyFromListing (listing : option (Listing.t num))
  (db : FavDb num) : option Z * FavDb num :=
  match listing with
  | None => (None, db)
  | Some listing =>
    if negb (truthy ops (Listing.id listing)) then (None, db)
    else
      (* Use MLS/listing id as the unique key *)
      let mls := js_String ops (Listing.id listing) in
      match property_by_mls mls db with
      | Some existing => (Some (Property.id existing), db)
      | None =>
        let address := js_or ops (Listing.address listing) (JsStr "") in
        let id := seq_properties db + 1 in
        let db' :=
          mkFavDb
            (properties db ++
             [Property.mk id mls
                (js_or ops (Listing.price listing) JsNull)
                (js_or ops (Listing.city listing) JsNull)
                (js_or ops (Listing.state listing) JsNull)
                (js_or ops (Listing.zip listing) JsNull)
                address
                (js_or ops (Listing.latitude listing) JsNull)
                (js_or ops (Listing.longitude listing) JsNull)
                (js_or ops (Listing.beds listing) JsNull)
                (js_or ops (Listing.baths listing) JsNull)
                (js_or ops (Listing.sqft listing) JsNull)
                listing])
            (user_saved_properties db) id (seq_user_saved_properties db) in
        match property_by_mls mls db' with
        | Some created =>
          (if Property.id created =? 0 then None else Some (Property.id created), db')
        | None => (None, db')
        end
      end
  end.

(** [INSERT OR IGNORE INTO user_saved_properties]: the unique index on
    (user_id, property_id) drops a second row for the same pair. *)
Definition insert_or_ignore_saved (userId : string) (propertyId now : Z)
  (db : FavDb num) : FavDb num :=
  if existsb (fun s => String.eqb (Saved.user_id s) userId
                       && (Saved.property_id s =? propertyId))%bool
             (user_saved_properties db)
  then db
  else
    let id := seq_user_saved_properties db + 1 in
    mkFavDb (properties db)
            (user_saved_properties db ++ [Saved.mk id userId propertyId now])
            (seq_properties db) id.

(** Link a user to a saved property. *)
Definition addFavorite (userId : string) (listing : option (Listing.t num))
  (now : Z) (db : FavDb num) : option Z * FavDb num :=
  let (propertyId, db1) := upsertPropertyFromListing listing db in
  match propertyId with
  | None => (None, db1)
  | Some propertyId =>
    if propertyId =? 0 then (None, db1)
    else
      (* Use INSERT OR IGNORE so double clicks do not break *)
      (Some propertyId, insert_or_ignore_saved userId propertyId now db1)
  end.

(** Remove a favorite row. *)
Definition removeFavorite (userId : string) (propertyId : Z) (db : FavDb num)
  : FavDb num :=
  mkFavDb (properties db)
          (filter (fun s => negb (String.eqb (Saved.user_id s) userId
                                  && (Saved.property_id s =? propertyId)))%bool
                  (user_saved_properties db))
          (seq_properties db) (seq_user_saved_properties db).

(** The object built from a joined row. *)
Definition favorite_of_row (row : Property.t num) : Favorite.t num :=
  let listing := Property.raw_json row in
  Favorite.mk
    (js_or ops (Listing.id listing) (JsStr (Property.mls_number row)))
    (js_or ops (Listing.address listing)
       (js_or ops (Property.address_street_name row) (JsStr "Saved Property")))
    (js_or ops (Listing.price listing)
       (js_or ops (Property.list_price row) (JsNum (zero ops))))
    (js_or ops (Listing.beds listing)
       (js_or ops (Property.bedrooms row) (JsStr "--")))
    (js_or ops (Listing.baths listing)
       (js_or ops (Property.bathrooms_total row) (JsStr "--")))
    (js_or ops (Listing.sqft listing)
       (js_or ops (Property.sqft row) (JsStr "--")))
    (js_or ops (Listing.latitude listing) (Property.latitude row))
    (js_or ops (Listing.longitude listing) (Property.longitude row))
    (js_or ops (Listing.description listing) (JsStr "Saved from map/listings."))
    (js_or ops (Listing.images listing)
       (js_or ops (Listing.photos listing) (JsArr []))).

(** The saved rows of a user joined with their property rows. *)
Definition saved_rows (userId : string) (db : FavDb num)
  : list (Saved.t * Property.t num) :=
  flat_map
    (fun s =>
       if String.eqb (Saved.user_id s) userId
       then map (fun p => (s, p))
                (filter (fun p => Property.id p =? Saved.property_id s) (properties db))
       else [])
    (user_saved_properties db).

(** Get a user's favorites with basic listing info. *)
Definition getFavoritesForUser (userId : string) (db : FavDb num)
  : list (Favorite.t num) :=
  map (fun r => favorite_of_row (snd r))
      (order_by_desc (fun r => Saved.created_at (fst r)) (saved_rows userId db)).

(** The answer of a favorites route. *)
Inductive FavReply : Type :=
| FavList (status : Z) (favorites : list (Favorite.t num))
| FavError (status : Z) (error : string).

Definition fav_requireAuth (authorization : Authorization)
  (next : string -> FavDb num -> FavReply * FavDb num) (db : FavDb num)
  : FavReply * FavDb num :=
  match authorization with
  | NoToken => (FavError 401 "Auth required", db)
  | InvalidToken => (FavError 401 "Invalid token", db)
  | Bearer sub => next sub db
  end.

(** Get all favorites for the logged-in user.  [GET /api/favorites] *)
Definition get_favorites (authorization : Authorization) (db : FavDb num)
  : FavReply * FavDb num :=
  fav_requireAuth authorization
    (fun sub db => (FavList 200 (getFavoritesForUser sub db), db)) db.

(** Save a property as a favorite.  [POST /api/favorites] *)
Definition post_favorites (authorization : Authorization)
  (listing : option (Listing.t num)) (now : Z) (db : FavDb num)
  : FavReply * FavDb num :=
  fav_requireAuth authorization
    (fun sub db =>
       match listing with
       | None => (FavError 400 "Missing listing id", db)
       | Some l =>
         if negb (truthy ops (Listing.id l))
         then (FavError 400 "Missing listing id", db)
         else
           let db' := snd (addFavorite sub listing now db) in
           (FavList 201 (getFavoritesForUser sub db'), db')
       end) db.

(** Remove a favorite by listing id.  [DELETE /api/favorites/:listingId] *)
Definition delete_favorites (authorization : Authorization) (listingId : string)
  (db : FavDb num) : FavReply * FavDb num :=
  fav_requireAuth authorization
    (fun sub db =>
       if String.eqb listingId "" then (FavError 400 "Missing listing id", db)
       else
         (* Find the property id for this mls/listing id *)
         let db' := match property_by_mls listingId db with
                    | Some property => removeFavorite sub (Property.id property) db
                    | None => db
                    end in
         (FavList 200 (getFavoritesForUser sub db'), db')) db.

(** A listing field as the favorites list shows it: the field itself when
    it is truthy, else the default. *)
Definition shown (field default : JsValue num) : JsValue num :=
  if truthy ops field then field else default.

(** A saved listing as the favorites list shows it, read off the listing
    alone. *)
Definition favorite_of_listing (listing : Listing.t num) : Favorite.t num :=
  Favorite.mk
    (Listing.id listing)
    (shown (Listing.address listing) (JsStr "Saved Property"))
    (shown (Listing.price listing) (JsNum (zero ops)))
    (shown (Listing.beds listing) (JsStr "--"))
    (shown (Listing.baths listing) (JsStr "--"))
    (shown (Listing.sqft listing) (JsStr "--"))
    (shown (Listing.latitude listing) JsNull)
    (shown (Listing.longitude listing) JsNull)
    (shown (Listing.description listing) (JsStr "Saved from map/listings."))
    (if truthy ops (Listing.images listing) then Listing.images listing
     else shown (Listing.photos listing) (JsArr [])).

(** Ids of the properties are above 0 and below the counter, and no
    saved row names an id beyond the counter. *)
Definition fav_wf (db : FavDb num) : Prop :=
  0 <= seq_properties db /\
  Forall (fun p => 0 < Property.id p <= seq_properties db) (properties db) /\
  Forall (fun s => Saved.property_id s <= seq_properties db)
         (user_saved_properties db).

End FavoritesCode.

Arguments FavList {num} status favorites.
Arguments FavError {num} status error.

(** Whole numbers as JSON numbers, for the examples. *)
Definition whole_numbers : NumberOps Z :=
  mkNumberOps Z (fun n => n =? 0) 0 decimal.

(** A listing of the examples. *)
Definition demo_listing : Listing.t Z :=
  Listing.mk (JsStr "X100") (JsStr "12 Bay St") (JsNum 450000) JsUndefined JsUndefined
             JsUndefined (JsNum 0) JsUndefined (JsNum 3) (JsStr "--") JsUndefined
             JsUndefined JsUndefined (JsArr ["a.png"]).

(** The favorites tables of a new database. *)
Definition empty_favdb : FavDb Z := mkFavDb [] [] 0 0.

(** The row [upsertPropertyFromListing] inserts for a listing. *)
Definition new_property_row {num : Type} (ops : NumberOps num)
  (listing : Listing.t num) (id : Z) : Property.t num :=
  Property.mk id (js_String ops (Listing.id listing))
    (js_or ops (Listing.price listing) JsNull)
    (js_or ops (Listing.city listing) JsNull)
    (js_or ops (Listing.state listing) JsNull)
    (js_or ops (Listing.zip listing) JsNull)
    (js_or ops (Listing.address listing) (JsStr ""))
    (js_or ops (Listing.latitude listing) JsNull)
    (js_or ops (Listing.longitude listing) JsNull)
    (js_or ops (Listing.beds listing) JsNull)
    (js_or ops (Listing.baths listing) JsNull)
    (js_or ops (Listing.sqft listing) JsNull)
    listing.

(** The favorites tables after a new property row. *)
Definition with_new_property {num : Type} (ops : NumberOps num)
  (listing : Listing.t num) (db : FavDb num) : FavDb num :=
  mkFavDb (properties db ++ [new_property_row ops listing (seq_properties db + 1)])
          (user_saved_properties db) (seq_properties db + 1)
          (seq_user_saved_properties db).

(** The saved row links this user to this property. *)
Definition links (userId : string) (propertyId : Z) (s : Saved.t) : bool :=
  (String.eqb (Saved.user_id s) userId && (Saved.property_id s =? propertyId))%bool.

(** The favorites tables after user "ann" saved the demo listing. *)
Definition saved_favdb : FavDb Z :=
  snd (post_favorites whole_numbers (Bearer "ann") (Some demo_listing) 100 empty_favdb).

(** The demo listing as a later request carries it, with another price. *)
Definition repriced_listing : Listing.t Z :=
  Listing.mk (JsStr "X100") (JsStr "12 Bay St") (JsNum 399000) JsUndefined JsUndefined
             JsUndefined (JsNum 0) JsUndefined (JsNum 3) (JsStr "--") JsUndefined
             JsUndefined JsUndefined (JsArr ["a.png"]).

(** * Properties *)

(** ** [ORDER BY ... DESC] sorts and keeps the rows *)

Section OrderByFacts.
Context {A : Type} (key : A -> Z).

Lemma insert_desc_perm (x : A) (l : list A) :
  Permutation (x :: l) (insert_desc key x l).
Proof.
  induction l as [| y l IH]; simpl.
  - apply Permutation_refl.
  - destruct (key y <=? key x).
    + apply Permutation_refl.
    + eapply perm_trans; [apply perm_swap |].
      apply perm_skip. exact IH.
Qed.

Lemma order_by_desc_perm (l : list A) :
  Permutation l (order_by_desc key l).
Proof.
  induction l as [| x l IH]; simpl.
  - apply perm_nil.
  - eapply perm_trans; [apply perm_skip; exact IH |].
    apply insert_desc_perm.
Qed.

Lemma insert_desc_sorted (x : A) (l : list A) :
  StronglySorted (newer_first key) l ->
  StronglySorted (newer_first key) (insert_desc key x l).
Proof.
  induction 1 as [| y l Hs IH Hall]; simpl.
  - constructor; constructor.
  - destruct (key y <=? key x) eqn:E.
    + apply Z.leb_le in E.
      constructor.
      * constructor; assumption.
      * constructor; [exact E |].
        eapply Forall_impl; [| exact Hall].
        unfold newer_first; intros; lia.
    + apply Z.leb_gt in E.
      constructor; [exact IH |].
      eapply Permutation_Forall; [apply insert_desc_perm |].
      constructor; [unfold newer_first; lia | exact Hall].
Qed.

Lemma order_by_desc_sorted (l : list A) :
  StronglySorted (newer_first key) (order_by_desc key l).
Proof.
  induction l as [| x l IH]; simpl.
  - constructor.
  - apply insert_desc_sorted. exact IH.
Qed.

(** The first row by descending key is in the list and has the largest key. *)
Lemma first_by_desc_max (l : list A) (x : A) :
  first_by_desc key l = Some x ->
  In x l /\ Forall (fun y => key y <= key x) l.
Proof.
  unfold first_by_desc. intros H.
  pose proof (order_by_desc_perm l) as HP.
  pose proof (order_by_desc_sorted l) as HS.
  destruct (order_by_desc key l) as [| h t]; [discriminate |].
  simpl in H. injection H as ->.
  split.
  - eapply Permutation_in; [apply Permutation_sym; exact HP | left; reflexivity].
  - eapply Permutation_Forall; [apply Permutation_sym; exact HP |].
    inversion HS; subst.
    constructor; [lia | assumption].
Qed.

Lemma first_by_desc_nil_iff (l : list A) :
  first_by_desc key l = None <-> l = [].
Proof.
  unfold first_by_desc. split.
  - intros H. pose proof (order_by_desc_perm l) as HP.
    destruct (order_by_desc key l); [| discriminate].
    apply Permutation_sym, Permutation_nil in HP. exact HP.
  - intros ->. reflexivity.
Qed.

(** A new row whose key is above every key of the table comes first. *)
Lemma first_by_desc_app_max (l : list A) (x : A) :
  Forall (fun y => key y < key x) l ->
  first_by_desc key (l ++ [x]) = Some x.
Proof.
  intros Hall.
  destruct (first_by_desc key (l ++ [x])) as [y |] eqn:E.
  - apply first_by_desc_max in E. destruct E as [Hin Hmax].
    apply in_app_or in Hin. destruct Hin as [Hin | [-> | []]]; [| reflexivity].
    exfalso.
    rewrite Forall_forall in Hall. specialize (Hall y Hin).
    rewrite Forall_forall in Hmax.
    assert (Hx : In x (l ++ [x])) by (apply in_or_app; right; left; reflexivity).
    specialize (Hmax x Hx).
    lia.
  - apply first_by_desc_nil_iff in E. destruct l; discriminate.
Qed.

End OrderByFacts.

(** ** Reading a table after a write *)

Lemma find_lease_after_update (f : Lease.t -> Lease.t) (leaseId id : Z)
  (ls : list Lease.t) :
  (forall l, Lease.id (f l) = Lease.id l) ->
  find (fun l => Lease.id l =? id)
       (map (fun l => if Lease.id l =? leaseId then f l else l) ls) =
  if id =? leaseId
  then option_map f (find (fun l => Lease.id l =? id) ls)
  else find (fun l => Lease.id l =? id) ls.
Proof.
  intros Hf. induction ls as [| a ls IH]; simpl.
  - destruct (id =? leaseId); reflexivity.
  - destruct (Lease.id a =? leaseId) eqn:Ea; simpl.
    + rewrite Hf.
      destruct (Lease.id a =? id) eqn:Eb.
      * apply Z.eqb_eq in Ea, Eb.
        replace (id =? leaseId) with true by (symmetry; apply Z.eqb_eq; lia).
        reflexivity.
      * exact IH.
    + destruct (Lease.id a =? id) eqn:Eb.
      * apply Z.eqb_neq in Ea. apply Z.eqb_eq in Eb.
        replace (id =? leaseId) with false by (symmetry; apply Z.eqb_neq; lia).
        reflexivity.
      * exact IH.
Qed.

Lemma lease_of_add_to_balance (leaseId delta id : Z) (db : Db) :
  lease_of id (add_to_balance leaseId delta db) =
  if id =? leaseId
  then option_map
         (fun l => Lease.set_current_balance (Lease.current_balance l + delta) l)
         (lease_of id db)
  else lease_of id db.
Proof.
  unfold lease_of, add_to_balance; simpl.
  apply (find_lease_after_update
           (fun l => Lease.set_current_balance (Lease.current_balance l + delta) l)).
  intros l. reflexivity.
Qed.

Lemma lease_of_id (id : Z) (db : Db) (l : Lease.t) :
  lease_of id db = Some l -> Lease.id l = id /\ In l (leases db).
Proof.
  unfold lease_of. intros H. apply find_some in H. destruct H as [Hin He].
  apply Z.eqb_eq in He. split; assumption.
Qed.

Lemma find_app_some {A : Type} (f : A -> bool) (l1 l2 : list A) (x : A) :
  find f l1 = Some x -> find f (l1 ++ l2) = Some x.
Proof.
  induction l1 as [| a l1 IH]; simpl; [discriminate |].
  destruct (f a); [trivial | exact IH].
Qed.

Lemma find_app_none {A : Type} (f : A -> bool) (l1 l2 : list A) :
  find f l1 = None -> find f (l1 ++ l2) = find f l2.
Proof.
  induction l1 as [| a l1 IH]; simpl; [reflexivity |].
  destruct (f a); [discriminate | exact IH].
Qed.

Lemma entries_of_insert_payment (row : Z -> Payment.t) (id : Z) (db : Db) :
  entries_of id (insert_payment row db) =
  entries_of id db ++
  (if Payment.lease_id (row (seq_payments db + 1)) =? id
   then [row (seq_payments db + 1)] else []).
Proof.
  unfold entries_of, insert_payment; simpl.
  rewrite filter_app. simpl.
  destruct (Payment.lease_id (row (seq_payments db + 1)) =? id); reflexivity.
Qed.

Lemma fold_effects_app (l1 l2 : list Payment.t) :
  fold_right (fun p acc => entry_effect p + acc) 0 (l1 ++ l2) =
  fold_right (fun p acc => entry_effect p + acc) 0 l1 +
  fold_right (fun p acc => entry_effect p + acc) 0 l2.
Proof.
  induction l1 as [| a l1 IH]; simpl; [reflexivity | rewrite IH; lia].
Qed.

Lemma ledger_sum_insert_payment (row : Z -> Payment.t) (id : Z) (db : Db) :
  ledger_sum id (insert_payment row db) =
  ledger_sum id db +
  (if Payment.lease_id (row (seq_payments db + 1)) =? id
   then entry_effect (row (seq_payments db + 1)) else 0).
Proof.
  unfold ledger_sum. rewrite entries_of_insert_payment, fold_effects_app.
  destruct (Payment.lease_id (row (seq_payments db + 1)) =? id); simpl; lia.
Qed.

(** ** The routes, case by case *)

Lemma requireRole_eq (neededRole sub : string) (next : Promise Response) (db : Db) :
  requireRole neededRole sub next db =
  if has_role neededRole sub db
  then try_catch next (fun _ => error_response 500 "Unable to verify role.") db
  else (Resolved (role_refused neededRole), db).
Proof.
  unfold requireRole, has_role, try_catch, await, getUserById, query, rowToUser.
  simpl.
  destruct (find (fun u => String.eqb (User.id u) sub) (users db)) as [u |]; simpl.
  - destruct (String.eqb (or_else (User.role u) "renter") neededRole); reflexivity.
  - reflexivity.
Qed.

Lemma post_rentals_payments_eq (sub : string) (body : PaymentBody.t) (now : Z)
  (db : Db) :
  post_rentals_payments (Bearer sub) body now db =
  let leaseId := PaymentBody.leaseId body in
  if has_role "renter" sub db then
    match PaymentBody.amount body with
    | Finite z =>
      if z <=? 0
      then (Resolved (mkResponse 400 (JError "Payment amount must be positive.")), db)
      else
        match lease_of leaseId db with
        | Some lease =>
          if String.eqb (Lease.renter_id lease) sub
          then
            let db' := db_after_payment leaseId z now db in
            (Resolved (mkResponse 201
               (JPayment (first_by_desc Payment.id (entries_of leaseId db'))
                         (lease_of leaseId db')
                         (order_by_desc Payment.paid_at (entries_of leaseId db')))),
             db')
          else (Resolved (mkResponse 403 (JError "You can only pay your own lease.")), db)
        | None =>
          (Resolved (mkResponse 403 (JError "You can only pay your own lease.")), db)
        end
    | _ => (Resolved (mkResponse 400 (JError "Payment amount must be positive.")), db)
    end
  else (Resolved (role_refused "renter"), db).
Proof.
  unfold post_rentals_payments, requireAuth. rewrite requireRole_eq.
  destruct (has_role "renter" sub db); [| reflexivity].
  cbv zeta.
  destruct (PaymentBody.amount body) as [z | | |]; try reflexivity.
  unfold try_catch, await, error_response, resolve, getLeaseById, query.
  simpl.
  destruct (z <=? 0); [reflexivity |].
  fold (lease_of (PaymentBody.leaseId body) db).
  destruct (lease_of (PaymentBody.leaseId body) db) as [lease |]; [| reflexivity].
  destruct (String.eqb (Lease.renter_id lease) sub); reflexivity.
Qed.

Lemma patch_rentals_leases_balance_eq (sub : string) (leaseId : Z)
  (body : BalanceBody.t) (now : Z) (db : Db) :
  patch_rentals_leases_balance (Bearer sub) leaseId body now db =
  if has_role "landlord" sub db then
    match BalanceBody.balance body with
    | Finite z =>
      match lease_of leaseId db with
      | None => (Resolved (mkResponse 404 (JError "Lease not found.")), db)
      | Some lease =>
        if owns_unit_of sub lease db
        then (Resolved (mkResponse 200
                          (JLease (lease_of leaseId (add_to_balance leaseId z db)))),
              db_after_adjustment leaseId z now db)
        else (Resolved (mkResponse 403
                          (JError "You can only update your own leases.")), db)
      end
    | _ => (Resolved (mkResponse 400 (JError "Balance must be a number.")), db)
    end
  else (Resolved (role_refused "landlord"), db).
Proof.
  unfold patch_rentals_leases_balance, requireAuth. rewrite requireRole_eq.
  destruct (has_role "landlord" sub db); [| reflexivity].
  cbv zeta.
  destruct (BalanceBody.balance body) as [z | | |]; try reflexivity.
  unfold try_catch, await, error_response, resolve, getLeaseById,
    getRentalPropertyById, query.
  simpl.
  fold (lease_of leaseId db).
  destruct (lease_of leaseId db) as [lease |]; [| reflexivity].
  unfold owns_unit_of, property_of.
  destruct (find (fun rp => RentalProperty.id rp =? Lease.property_id lease)
                 (rental_properties db)) as [property |]; [| reflexivity].
  destruct (String.eqb (RentalProperty.landlord_id property) sub); [| reflexivity].
  simpl. unfold db_after_adjustment, insert_payment, add_to_balance; simpl.
  destruct (0 <? z); reflexivity.
Qed.

Lemma post_rentals_leases_eq (sub : string) (body : LeaseBody.t) (now : Z) (db : Db) :
  post_rentals_leases (Bearer sub) body now db =
  if has_role "landlord" sub db then
    match truthy_id (LeaseBody.propertyId body),
          truthy_string (LeaseBody.renterId body) with
    | Some propertyId, Some renterId =>
      match LeaseBody.monthlyRent body with
      | Finite rent =>
        if rent <=? 0
        then (Resolved (mkResponse 400
                (JError "Monthly rent must be a positive number.")), db)
        else
          match LeaseBody.dueDay body with
          | Finite due =>
            if ((due <? 1) || (31 <? due))%bool
            then (Resolved (mkResponse 400
                    (JError "Due day should be a day of the month (1-31).")), db)
            else
              match property_of propertyId db with
              | Some property =>
                if String.eqb (RentalProperty.landlord_id property) sub
                then
                  let db' := insert_lease
                               (new_lease_row propertyId renterId rent due body now) db in
                  (Resolved (mkResponse 201
                     (JLease (first_by_desc Lease.id
                                (filter (fun l => Lease.property_id l =? propertyId)
                                        (leases db'))))),
                   db')
                else (Resolved (mkResponse 403
                        (JError "You can only lease your own properties.")), db)
              | None => (Resolved (mkResponse 403
                           (JError "You can only lease your own properties.")), db)
              end
          | _ => (Resolved (mkResponse 400
                    (JError "Due day should be a day of the month (1-31).")), db)
          end
      | _ => (Resolved (mkResponse 400
                (JError "Monthly rent must be a positive number.")), db)
      end
    | _, _ => (Resolved (mkResponse 400 (JError "Property and renter are required.")), db)
    end
  else (Resolved (role_refused "landlord"), db).
Proof.
  unfold post_rentals_leases, requireAuth. rewrite requireRole_eq.
  destruct (has_role "landlord" sub db); [| reflexivity].
  cbv zeta.
  destruct (truthy_id (LeaseBody.propertyId body)) as [propertyId |];
    [| reflexivity].
  destruct (truthy_string (LeaseBody.renterId body)) as [renterId |];
    [| reflexivity].
  destruct (LeaseBody.monthlyRent body) as [rent | | |]; try reflexivity.
  unfold try_catch, await, error_response, resolve, getRentalPropertyById, query.
  simpl.
  destruct (rent <=? 0); [reflexivity |].
  destruct (LeaseBody.dueDay body) as [due | | |]; try reflexivity.
  simpl.
  destruct ((due <? 1) || (31 <? due))%bool; [reflexivity |].
  unfold property_of.
  destruct (find (fun rp => RentalProperty.id rp =? propertyId)
                 (rental_properties db)) as [property |]; [| reflexivity].
  destruct (String.eqb (RentalProperty.landlord_id property) sub); reflexivity.
Qed.

(** ** Relations that every step of a promise keeps *)

Section Preservation.
Variable R : Db -> Db -> Prop.
Hypothesis R_refl : forall db, R db db.
Hypothesis R_trans : forall a b c, R a b -> R b c -> R a c.

Lemma preserves_resolve {A : Type} (a : A) : preserves R (resolve a).
Proof. intros db. apply R_refl. Qed.

Lemma preserves_reject {A : Type} (err : string) : preserves R (@reject A err).
Proof. intros db. apply R_refl. Qed.

Lemma preserves_query {A : Type} (f : Db -> A) : preserves R (query f).
Proof. intros db. apply R_refl. Qed.

Lemma preserves_exec (f : Db -> Db) :
  (forall db, R db (f db)) -> preserves R (exec f).
Proof. intros H db. apply H. Qed.

Lemma preserves_await {A B : Type} (m : Promise A) (k : A -> Promise B) :
  preserves R m -> (forall a, preserves R (k a)) -> preserves R (await m k).
Proof.
  intros Hm Hk db. unfold await.
  specialize (Hm db).
  destruct (m db) as [[a | err] db']; simpl in *.
  - eapply R_trans; [exact Hm | apply Hk].
  - exact Hm.
Qed.

Lemma preserves_try_catch {A : Type} (body : Promise A)
  (handler : string -> Promise A) :
  preserves R body -> (forall err, preserves R (handler err)) ->
  preserves R (try_catch body handler).
Proof.
  intros Hb Hh db. unfold try_catch.
  specialize (Hb db).
  destruct (body db) as [[a | err] db']; simpl in *.
  - exact Hb.
  - eapply R_trans; [exact Hb | apply Hh].
Qed.

Lemma preserves_requireAuth (authorization : Authorization)
  (next : string -> Promise Response) :
  (forall sub, preserves R (next sub)) -> preserves R (requireAuth authorization next).
Proof.
  intros H. destruct authorization; simpl.
  - apply preserves_resolve.
  - apply preserves_resolve.
  - apply H.
Qed.

Lemma preserves_requireRole (neededRole sub : string) (next : Promise Response) :
  preserves R next -> preserves R (requireRole neededRole sub next).
Proof.
  intros H. unfold requireRole.
  apply preserves_try_catch.
  - apply preserves_await; [apply preserves_query |].
    intros [u |].
    + destruct (String.eqb (User.role u) neededRole);
        [exact H | apply preserves_resolve].
    + apply preserves_resolve.
  - intros err. apply preserves_resolve.
Qed.

End Preservation.

Lemma grows_refl (db : Db) : grows db db.
Proof.
  split; [reflexivity |]. split; [lia |].
  exists []. split; [symmetry; apply app_nil_r | constructor].
Qed.

Lemma grows_trans (a b c : Db) : grows a b -> grows b c -> grows a c.
Proof.
  intros (Hp1 & Hs1 & e1 & Hl1 & Hf1) (Hp2 & Hs2 & e2 & Hl2 & Hf2).
  split; [congruence |]. split; [lia |].
  exists (e1 ++ e2). split.
  - rewrite Hl2, Hl1. symmetry. apply app_assoc.
  - apply Forall_app. split.
    + eapply Forall_impl; [| exact Hf1]. simpl. intros; lia.
    + eapply Forall_impl; [| exact Hf2]. simpl. intros; lia.
Qed.

Lemma grows_same_leases (db db' : Db) :
  payments db' = payments db -> leases db' = leases db ->
  seq_leases db' = seq_leases db -> grows db db'.
Proof.
  intros Hp Hl Hs. split; [exact Hp |]. split; [lia |].
  exists []. split; [rewrite Hl; symmetry; apply app_nil_r | constructor].
Qed.

Lemma grows_insert_lease (row : Z -> Lease.t) (db : Db) :
  (forall id, Lease.id (row id) = id) -> grows db (insert_lease row db).
Proof.
  intros Hid. split; [reflexivity |]. simpl. split; [lia |].
  exists [row (seq_leases db + 1)]. split; [reflexivity |].
  constructor; [rewrite Hid; lia | constructor].
Qed.

Create HintDb rental.

Lemma grows_resolve {A : Type} (a : A) : preserves grows (resolve a).
Proof. apply preserves_resolve, grows_refl. Qed.

Lemma grows_reject {A : Type} (err : string) : preserves grows (@reject A err).
Proof. apply preserves_reject, grows_refl. Qed.

Lemma grows_query {A : Type} (f : Db -> A) : preserves grows (query f).
Proof. apply preserves_query, grows_refl. Qed.

Lemma grows_await {A B : Type} (m : Promise A) (k : A -> Promise B) :
  preserves grows m -> (forall a, preserves grows (k a)) ->
  preserves grows (await m k).
Proof. apply preserves_await, grows_trans. Qed.

Lemma grows_try_catch {A : Type} (body : Promise A) (handler : string -> Promise A) :
  preserves grows body -> (forall err, preserves grows (handler err)) ->
  preserves grows (try_catch body handler).
Proof. apply preserves_try_catch, grows_trans. Qed.

#[local] Hint Resolve grows_refl grows_resolve grows_reject grows_query : rental.

(** Split a promise along its [await]s and its branches, and settle the
    steps that are known to keep [grows]. *)
Ltac grows_steps :=
  repeat first
    [ solve [auto with rental]
    | apply grows_await; [| intros ?]
    | apply grows_try_catch; [| intros ?]
    | match goal with
      | |- preserves grows (match ?x with _ => _ end) => destruct x
      | |- preserves grows (if ?c then _ else _) => destruct c
      end ].

Lemma createUser_grows (user : User.t) : preserves grows (createUser user).
Proof.
  intros db. unfold createUser.
  destruct (existsb _ (users db)); simpl.
  - apply grows_refl.
  - apply grows_same_leases; reflexivity.
Qed.

#[local] Hint Resolve createUser_grows : rental.

Lemma ensureDemoUsers_grows (ul ur : string) : preserves grows (ensureDemoUsers ul ur).
Proof. unfold ensureDemoUsers, getUserByEmail. cbv zeta. grows_steps. Qed.

Lemma createRentalProperty_grows (landlordId title address : string)
  (imageUrl : option string) (stage : string) (monthlyRent now : Z) :
  preserves grows
    (createRentalProperty landlordId title address imageUrl stage monthlyRent now).
Proof.
  unfold createRentalProperty. grows_steps.
  apply preserves_exec. intros db. apply grows_same_leases; reflexivity.
Qed.

Lemma createLease_grows (propertyId : Z) (renterId : string) (startDate : option Z)
  (occupantsCount monthlyRent dueDay currentBalance now : Z) :
  preserves grows
    (createLease propertyId renterId startDate occupantsCount monthlyRent dueDay
                 currentBalance now).
Proof.
  unfold createLease. grows_steps.
  apply preserves_exec. intros db. apply grows_insert_lease. reflexivity.
Qed.

#[local] Hint Resolve ensureDemoUsers_grows createRentalProperty_grows
  createLease_grows : rental.

Lemma ensureDemoRentalData_grows (ul ur : string) (t1 t2 t3 : Z) :
  preserves grows (ensureDemoRentalData ul ur t1 t2 t3).
Proof.
  unfold ensureDemoRentalData, getUserByEmail, listRentalPropertiesForLandlord,
    getActiveLeaseForProperty.
  grows_steps.
Qed.

Lemma post_rentals_properties_grows (authorization : Authorization)
  (body : PropertyBody.t) (now : Z) :
  preserves grows (post_rentals_properties authorization body now).
Proof.
  unfold post_rentals_properties.
  apply preserves_requireAuth; [apply grows_refl |]. intros sub.
  apply preserves_requireRole; [apply grows_refl | apply grows_trans |].
  unfold error_response. cbv zeta. grows_steps.
Qed.

(** Branch on every test that decides the database a route leaves. *)
Ltac route_cases :=
  repeat match goal with
         | |- context [snd (if ?c then _ else _)] => destruct c
         | |- context [snd (match ?x with _ => _ end)] => destruct x
         end.

Lemma post_rentals_leases_grows (authorization : Authorization)
  (body : LeaseBody.t) (now : Z) :
  preserves grows (post_rentals_leases authorization body now).
Proof.
  intros db. destruct authorization as [| | sub]; try apply grows_refl.
  rewrite post_rentals_leases_eq.
  route_cases; simpl; try apply grows_refl.
  apply grows_insert_lease. reflexivity.
Qed.

(** ** The balance and the log move together *)

Lemma grows_keeps_offset (id : Z) (db db' : Db) :
  grows db db' -> keeps_offset id db db'.
Proof.
  intros (Hp & _ & extra & Hl & _) l Hfind.
  exists l. split.
  - unfold lease_of in *. rewrite Hl. apply find_app_some. exact Hfind.
  - unfold ledger_sum, entries_of. rewrite Hp. reflexivity.
Qed.

Lemma ledger_sum_add_to_balance (leaseId delta id : Z) (db : Db) :
  ledger_sum id (add_to_balance leaseId delta db) = ledger_sum id db.
Proof. reflexivity. Qed.

Lemma lease_of_insert_payment (row : Z -> Payment.t) (id : Z) (db : Db) :
  lease_of id (insert_payment row db) = lease_of id db.
Proof. reflexivity. Qed.

Lemma payment_keeps_offset (id leaseId z now : Z) (db : Db) :
  keeps_offset id db (db_after_payment leaseId z now db).
Proof.
  intros l Hfind. unfold db_after_payment.
  rewrite lease_of_add_to_balance, lease_of_insert_payment, Hfind.
  rewrite ledger_sum_add_to_balance, ledger_sum_insert_payment. simpl.
  rewrite (Z.eqb_sym leaseId id).
  destruct (id =? leaseId); simpl.
  - eexists. split; [reflexivity |]. simpl. unfold entry_effect; simpl. lia.
  - exists l. split; [reflexivity | lia].
Qed.

Lemma adjustment_keeps_offset (id leaseId z now : Z) (db : Db) :
  keeps_offset id db (db_after_adjustment leaseId z now db).
Proof.
  intros l Hfind. unfold db_after_adjustment.
  rewrite lease_of_insert_payment, lease_of_add_to_balance, Hfind.
  rewrite ledger_sum_insert_payment, ledger_sum_add_to_balance. simpl.
  rewrite (Z.eqb_sym leaseId id).
  destruct (id =? leaseId); simpl.
  - eexists. split; [reflexivity |]. simpl.
    unfold entry_effect; simpl. destruct (0 <? z); simpl; lia.
  - exists l. split; [reflexivity | lia].
Qed.

Lemma keeps_offset_refl (id : Z) (db : Db) : keeps_offset id db db.
Proof. intros l H. exists l. split; [exact H | reflexivity]. Qed.

Lemma keeps_offset_trans (id : Z) (a b c : Db) :
  keeps_offset id a b -> keeps_offset id b c -> keeps_offset id a c.
Proof.
  intros H1 H2 l Hl.
  destruct (H1 l Hl) as (l1 & Hl1 & E1).
  destruct (H2 l1 Hl1) as (l2 & Hl2 & E2).
  exists l2. split; [exact Hl2 | lia].
Qed.

Lemma post_rentals_payments_keeps_offset (id : Z) (authorization : Authorization)
  (body : PaymentBody.t) (now : Z) (db : Db) :
  keeps_offset id db (snd (post_rentals_payments authorization body now db)).
Proof.
  destruct authorization as [| | sub]; try apply keeps_offset_refl.
  rewrite post_rentals_payments_eq. cbv zeta.
  route_cases; simpl; try apply keeps_offset_refl.
  apply payment_keeps_offset.
Qed.

Lemma patch_rentals_leases_balance_keeps_offset (id : Z)
  (authorization : Authorization) (leaseId : Z) (body : BalanceBody.t) (now : Z)
  (db : Db) :
  keeps_offset id db
    (snd (patch_rentals_leases_balance authorization leaseId body now db)).
Proof.
  destruct authorization as [| | sub]; try apply keeps_offset_refl.
  rewrite patch_rentals_leases_balance_eq.
  route_cases; simpl; try apply keeps_offset_refl.
  apply adjustment_keeps_offset.
Qed.

Lemma handle_keeps_offset (id : Z) (e : Event) (db : Db) :
  keeps_offset id db (handle e db).
Proof.
  destruct e; simpl.
  - apply grows_keeps_offset, ensureDemoRentalData_grows.
  - apply grows_keeps_offset, post_rentals_properties_grows.
  - apply grows_keeps_offset, post_rentals_leases_grows.
  - apply post_rentals_payments_keeps_offset.
  - apply patch_rentals_leases_balance_keeps_offset.
Qed.

Lemma run_keeps_offset (id : Z) (es : list Event) (db : Db) :
  keeps_offset id db (run es db).
Proof.
  revert db. induction es as [| e es IH]; intros db; simpl.
  - apply keeps_offset_refl.
  - eapply keeps_offset_trans; [apply handle_keeps_offset | apply IH].
Qed.

(** ** Identifiers stay below the counters *)

Lemma grows_wf (db db' : Db) : grows db db' -> db_wf db -> db_wf db'.
Proof.
  intros (Hp & Hs & extra & Hl & Hf) [Wl Wp]. split.
  - rewrite Hl. apply Forall_app. split.
    + eapply Forall_impl; [| exact Wl]. simpl. intros; lia.
    + eapply Forall_impl; [| exact Hf]. simpl. intros; lia.
  - rewrite Hp. eapply Forall_impl; [| exact Wp]. simpl. intros; lia.
Qed.

Lemma add_to_balance_wf (leaseId delta : Z) (db : Db) :
  db_wf db -> db_wf (add_to_balance leaseId delta db).
Proof.
  intros [Wl Wp]. split; simpl; [| exact Wp].
  apply Forall_map. eapply Forall_impl; [| exact Wl].
  intros l Hl. simpl. destruct (Lease.id l =? leaseId); exact Hl.
Qed.

Lemma insert_payment_wf (row : Z -> Payment.t) (db : Db) :
  Payment.lease_id (row (seq_payments db + 1)) <= seq_leases db ->
  db_wf db -> db_wf (insert_payment row db).
Proof.
  intros Hrow [Wl Wp]. split; simpl; [exact Wl |].
  apply Forall_app. split; [exact Wp |].
  constructor; [exact Hrow | constructor].
Qed.

Lemma lease_of_below_counter (id : Z) (db : Db) (l : Lease.t) :
  db_wf db -> lease_of id db = Some l -> id <= seq_leases db.
Proof.
  intros [Wl _] H. apply lease_of_id in H. destruct H as [<- Hin].
  rewrite Forall_forall in Wl. apply Wl. exact Hin.
Qed.

Lemma post_rentals_payments_wf (authorization : Authorization)
  (body : PaymentBody.t) (now : Z) (db : Db) :
  db_wf db -> db_wf (snd (post_rentals_payments authorization body now db)).
Proof.
  intros W. destruct authorization as [| | sub]; try exact W.
  rewrite post_rentals_payments_eq. cbv zeta.
  destruct (has_role "renter" sub db); [| exact W].
  destruct (PaymentBody.amount body) as [z | | |]; try exact W.
  destruct (z <=? 0); [exact W |].
  destruct (lease_of (PaymentBody.leaseId body) db) as [lease |] eqn:E; [| exact W].
  destruct (String.eqb (Lease.renter_id lease) sub); [| exact W].
  simpl. unfold db_after_payment.
  apply add_to_balance_wf, insert_payment_wf; [| exact W].
  simpl. eapply lease_of_below_counter; eassumption.
Qed.

Lemma patch_rentals_leases_balance_wf (authorization : Authorization)
  (leaseId : Z) (body : BalanceBody.t) (now : Z) (db : Db) :
  db_wf db ->
  db_wf (snd (patch_rentals_leases_balance authorization leaseId body now db)).
Proof.
  intros W. destruct authorization as [| | sub]; try exact W.
  rewrite patch_rentals_leases_balance_eq.
  destruct (has_role "landlord" sub db); [| exact W].
  destruct (BalanceBody.balance body) as [z | | |]; try exact W.
  destruct (lease_of leaseId db) as [lease |] eqn:E; [| exact W].
  destruct (owns_unit_of sub lease db); [| exact W].
  simpl. unfold db_after_adjustment.
  apply insert_payment_wf; [| apply add_to_balance_wf; exact W].
  simpl. eapply lease_of_below_counter; eassumption.
Qed.

Lemma handle_wf (e : Event) (db : Db) : db_wf db -> db_wf (handle e db).
Proof.
  destruct e; simpl.
  - apply grows_wf, ensureDemoRentalData_grows.
  - apply grows_wf, post_rentals_properties_grows.
  - apply grows_wf, post_rentals_leases_grows.
  - apply post_rentals_payments_wf.
  - apply patch_rentals_leases_balance_wf.
Qed.

Lemma empty_db_wf : db_wf empty_db.
Proof. split; constructor. Qed.

(** Every database the server reaches from a new file is well formed. *)
Lemma run_wf (es : list Event) (db : Db) : db_wf db -> db_wf (run es db).
Proof.
  revert db. induction es as [| e es IH]; intros db W; simpl.
  - exact W.
  - apply IH, handle_wf, W.
Qed.

(** ** A lease right after its creation *)

Lemma filter_none_when_all_fail {A : Type} (f : A -> bool) (l : list A) :
  Forall (fun x => f x = false) l -> filter f l = [].
Proof.
  induction 1 as [| x l Hx _ IH]; simpl; [reflexivity |].
  rewrite Hx. exact IH.
Qed.

Lemma find_none_when_all_fail {A : Type} (f : A -> bool) (l : list A) :
  Forall (fun x => f x = false) l -> find f l = None.
Proof.
  induction 1 as [| x l Hx _ IH]; simpl; [reflexivity |].
  rewrite Hx. exact IH.
Qed.

Section FreshLease.
Variables (row : Z -> Lease.t) (db : Db).
Hypothesis row_id : forall id, Lease.id (row id) = id.
Hypothesis W : db_wf db.

Lemma lease_of_insert_lease :
  lease_of (seq_leases db + 1) (insert_lease row db) = Some (row (seq_leases db + 1)).
Proof.
  unfold lease_of, insert_lease; simpl.
  rewrite find_app_none.
  - simpl. rewrite row_id. rewrite Z.eqb_refl. reflexivity.
  - apply find_none_when_all_fail.
    destruct W as [Wl _]. eapply Forall_impl; [| exact Wl].
    simpl. intros l Hl. apply Z.eqb_neq. lia.
Qed.

Lemma entries_of_insert_lease :
  entries_of (seq_leases db + 1) (insert_lease row db) = [].
Proof.
  unfold entries_of, insert_lease; simpl.
  apply filter_none_when_all_fail.
  destruct W as [_ Wp]. eapply Forall_impl; [| exact Wp].
  simpl. intros p Hp. apply Z.eqb_neq. lia.
Qed.

Lemma newest_lease_of_property (propertyId : Z) :
  Lease.property_id (row (seq_leases db + 1)) = propertyId ->
  first_by_desc Lease.id
    (filter (fun l => Lease.property_id l =? propertyId)
            (leases (insert_lease row db))) = Some (row (seq_leases db + 1)).
Proof.
  intros Hp. simpl. rewrite filter_app. simpl.
  rewrite Hp, Z.eqb_refl.
  apply first_by_desc_app_max.
  rewrite Forall_forall. intros l Hin.
  apply filter_In in Hin. destruct Hin as [Hin _].
  destruct W as [Wl _]. rewrite Forall_forall in Wl.
  specialize (Wl l Hin). rewrite row_id. lia.
Qed.

Lemma newest_active_lease_of_property (propertyId : Z) :
  Lease.property_id (row (seq_leases db + 1)) = propertyId ->
  Lease.is_active (row (seq_leases db + 1)) = 1 ->
  first_by_desc Lease.id (active_leases propertyId (insert_lease row db)) =
  Some (row (seq_leases db + 1)).
Proof.
  intros Hp Ha. unfold active_leases. simpl. rewrite filter_app. simpl.
  rewrite Hp, Ha, Z.eqb_refl. simpl.
  apply first_by_desc_app_max.
  rewrite Forall_forall. intros l Hin.
  apply filter_In in Hin. destruct Hin as [Hin _].
  destruct W as [Wl _]. rewrite Forall_forall in Wl.
  specialize (Wl l Hin). rewrite row_id. lia.
Qed.

End FreshLease.

(** What an accepted lease request went through. *)
Lemma post_rentals_leases_accepted (authorization : Authorization)
  (body : LeaseBody.t) (now : Z) (db db' : Db) (resp : Response) :
  post_rentals_leases authorization body now db = (Resolved resp, db') ->
  status resp = 201 ->
  exists sub propertyId renterId rent due property,
    authorization = Bearer sub /\
    has_role "landlord" sub db = true /\
    truthy_id (LeaseBody.propertyId body) = Some propertyId /\
    truthy_string (LeaseBody.renterId body) = Some renterId /\
    LeaseBody.monthlyRent body = Finite rent /\ 0 < rent /\
    LeaseBody.dueDay body = Finite due /\ 1 <= due <= 31 /\
    property_of propertyId db = Some property /\
    RentalProperty.landlord_id property = sub /\
    db' = insert_lease (new_lease_row propertyId renterId rent due body now) db /\
    json resp =
      JLease (first_by_desc Lease.id
                (filter (fun l => Lease.property_id l =? propertyId) (leases db'))).
Proof.
  intros H Hs.
  destruct authorization as [| | sub];
    try (simpl in H; injection H as <- <-; discriminate).
  rewrite post_rentals_leases_eq in H.
  destruct (has_role "landlord" sub db) eqn:Hrole;
    [| injection H as <- <-; discriminate].
  destruct (truthy_id (LeaseBody.propertyId body)) as [propertyId |] eqn:Hp;
    [| injection H as <- <-; discriminate].
  destruct (truthy_string (LeaseBody.renterId body)) as [renterId |] eqn:Hr;
    [| injection H as <- <-; discriminate].
  destruct (LeaseBody.monthlyRent body) as [rent | | |] eqn:Hrent;
    try (injection H as <- <-; discriminate).
  destruct (rent <=? 0) eqn:Hpos; [injection H as <- <-; discriminate |].
  destruct (LeaseBody.dueDay body) as [due | | |] eqn:Hdue;
    try (injection H as <- <-; discriminate).
  destruct ((due <? 1) || (31 <? due))%bool eqn:Hday;
    [injection H as <- <-; discriminate |].
  destruct (property_of propertyId db) as [property |] eqn:Hprop;
    [| injection H as <- <-; discriminate].
  destruct (String.eqb (RentalProperty.landlord_id property) sub) eqn:Hown;
    [| injection H as <- <-; discriminate].
  cbv zeta in H. injection H as <- <-.
  apply Z.leb_gt in Hpos.
  apply orb_false_iff in Hday. destruct Hday as [Hd1 Hd2].
  apply Z.ltb_ge in Hd1, Hd2.
  apply String.eqb_eq in Hown.
  exists sub, propertyId, renterId, rent, due, property.
  repeat split; try assumption; try reflexivity; lia.
Qed.

(** The lease an accepted request creates: it is the lease returned, it
    carries the initial balance of the request, and it has no entry. *)
Lemma created_lease_state (authorization : Authorization) (body : LeaseBody.t)
  (now : Z) (db db' : Db) (resp : Response) :
  db_wf db ->
  post_rentals_leases authorization body now db = (Resolved resp, db') ->
  status resp = 201 ->
  exists lease,
    json resp = JLease (Some lease) /\
    Lease.id lease = seq_leases db + 1 /\
    Lease.current_balance lease = initial_balance body /\
    Lease.is_active lease = 1 /\
    leases db' = leases db ++ [lease] /\
    lease_of (Lease.id lease) db' = Some lease /\
    entries_of (Lease.id lease) db' = [] /\
    payments db' = payments db.
Proof.
  intros W H Hs.
  destruct (post_rentals_leases_accepted _ _ _ _ _ _ H Hs)
    as (sub & propertyId & renterId & rent & due & property & _ & _ & _ & _ & _
        & _ & _ & _ & _ & _ & Hdb & Hjson).
  set (row := new_lease_row propertyId renterId rent due body now) in *.
  assert (Hid : forall id, Lease.id (row id) = id) by reflexivity.
  exists (row (seq_leases db + 1)). subst db'.
  split.
  { rewrite Hjson. f_equal.
    apply (newest_lease_of_property row db Hid W). reflexivity. }
  split; [reflexivity |]. split; [reflexivity |]. split; [reflexivity |].
  split; [reflexivity |].
  split; [rewrite Hid; apply (lease_of_insert_lease row db Hid W) |].
  split; [rewrite Hid; apply (entries_of_insert_lease row db W) | reflexivity].
Qed.

(** ** The bootstrap on a new file *)

Lemma ensureDemoRentalData_on_new_file (ul ur : string) (t1 t2 t3 : Z) :
  ul <> ur ->
  ensureDemoRentalData ul ur t1 t2 t3 empty_db =
  (Resolved tt, seeded_db ul ur t1 t2 t3).
Proof.
  intros Hne. apply String.eqb_neq in Hne.
  assert (E1 : String.eqb (lower "landlord@demo.com") (lower "renter@demo.com") = false)
    by reflexivity.
  assert (E2 : String.eqb (lower "landlord@demo.com") (lower "landlord@demo.com") = true)
    by reflexivity.
  assert (E3 : String.eqb (lower "renter@demo.com") (lower "renter@demo.com") = true)
    by reflexivity.
  assert (E4 : String.eqb "landlord@demo.com" "renter@demo.com" = false)
    by reflexivity.
  assert (E5 : or_else "landlord" "renter" = "landlord") by reflexivity.
  assert (E6 : or_else "renter" "renter" = "renter") by reflexivity.
  unfold ensureDemoRentalData, ensureDemoUsers, await, getUserByEmail, query,
    createUser, resolve, listRentalPropertiesForLandlord, createRentalProperty,
    getActiveLeaseForProperty, createLease, exec.
  cbn -[lower String.eqb or_else].
  repeat (progress (rewrite ?E1, ?E2, ?E3, ?E4, ?E5, ?E6, ?Hne, ?String.eqb_refl);
          cbn -[lower String.eqb or_else]).
  reflexivity.
Qed.

Lemma seeded_db_wf (ul ur : string) (t1 t2 t3 : Z) : db_wf (seeded_db ul ur t1 t2 t3).
Proof. split; repeat constructor; simpl; lia. Qed.

(** ** Balance and entry log (C1) *)




(** The lease of the bootstrap starts at 1200 with no entry: after any
    sequence of server events its balance is 1200 plus the sum of the
    effects of its entries. *)
Lemma demo_lease_balance (ul ur : string) (t1 t2 t3 : Z) (commands : list Event) :
  balance_of 1 (run commands (seeded_db ul ur t1 t2 t3)) =
  Some (1200 + ledger_sum 1 (run commands (seeded_db ul ur t1 t2 t3))).
Proof.
  destruct (run_keeps_offset 1 commands (seeded_db ul ur t1 t2 t3)
              (Lease.mk 1 1 ur (Some t2) 1 1200 1 1200 1 t3) eq_refl)
    as (l' & Hl' & Hoff).
  unfold balance_of. rewrite Hl'. cbn [option_map]. f_equal.
  change (ledger_sum 1 (seeded_db ul ur t1 t2 t3)) with 0 in Hoff.
  cbn [Lease.current_balance] in Hoff. lia.
Qed.

(** The scenario of the demo: pay the month, post the next month, overpay. *)
Example demo_scenario :
  let db1 := run [demo_pay 1 (Finite 1200) 2000] demo_db in
  let db2 := run [demo_adjust 1 (Finite 1200) 3000] db1 in
  let db3 := run [demo_pay 1 (Finite 1300) 4000] db2 in
  balance_of 1 db1 = Some 0 /\
  balance_of 1 db2 = Some 1200 /\
  map (fun p => (Payment.type p, Payment.amount p))
      (order_by_desc Payment.paid_at (entries_of 1 db2)) =
    [("charge", 1200); ("payment", 1200)] /\
  balance_of 1 db3 = Some (-100).
Proof. cbv zeta. repeat split; reflexivity. Qed.

(** ** One active lease per unit (C5) *)

(** C5, as stated, fails: after the bootstrap, an accepted lease request
    of the demo landlord for the demo unit leaves the unit with two leases
    that are active at the same time. *)
Lemma second_lease_leaves_two_active_leases :
  let db := run [Bootstrap "uuid-landlord" "uuid-renter" 1000 1000 1000;
                 PostLease (Bearer "uuid-landlord") second_lease_body 3000]
                empty_db in
  map Lease.id (active_leases 1 db) = [1; 2] /\
  ~ (List.length (active_leases 1 db) <= 1)%nat.
Proof.
  cbv zeta. split; [reflexivity |].
  vm_compute. intros H. inversion H as [| n H1]. inversion H1.
Qed.

(** C5, amended: lease creation does not look for an active lease of the
    unit.  Every accepted lease request adds one more active lease to the
    unit, next to those it already has, and the active lease reported for
    the unit by [getActiveLeaseForProperty] is then the lease just
    created. *)
Theorem accepted_lease_becomes_the_reported_active_lease
  (authorization : Authorization) (body : LeaseBody.t) (now : Z)
  (db db' : Db) (resp : Response) :
  db_wf db ->
  post_rentals_leases authorization body now db = (Resolved resp, db') ->
  status resp = 201 ->
  exists lease,
    json resp = JLease (Some lease) /\
    active_leases (Lease.property_id lease) db' =
      active_leases (Lease.property_id lease) db ++ [lease] /\
    exists renter,
      getActiveLeaseForProperty (Lease.property_id lease) db' =
      (Resolved (Some (lease, renter)), db').
Proof.
  intros W H Hs.
  destruct (post_rentals_leases_accepted _ _ _ _ _ _ H Hs)
    as (sub & propertyId & renterId & rent & due & property & _ & _ & _ & _ & _
        & _ & _ & _ & _ & _ & Hdb & Hjson).
  set (row := new_lease_row propertyId renterId rent due body now) in *.
  assert (Hid : forall id, Lease.id (row id) = id) by reflexivity.
  exists (row (seq_leases db + 1)). subst db'.
  split.
  { rewrite Hjson. f_equal.
    apply (newest_lease_of_property row db Hid W). reflexivity. }
  split.
  { unfold active_leases. simpl. rewrite filter_app. simpl.
    rewrite Z.eqb_refl. reflexivity. }
  eexists. unfold getActiveLeaseForProperty, query.
  fold (active_leases (Lease.property_id (row (seq_leases db + 1)))
                      (insert_lease row db)).
  rewrite (newest_active_lease_of_property row db Hid W); reflexivity.
Qed.

Lemma accepted_lease_becomes_the_reported_active_lease_witness :
  db_wf demo_db /\
  exists lease,
    json (mkResponse 201 (JLease (Some
      (Lease.mk 2 1 "uuid-renter" None 1 900 5 300 1 3000)))) = JLease (Some lease) /\
    active_leases (Lease.property_id lease)
      (insert_lease (new_lease_row 1 "uuid-renter" 900 5 second_lease_body 3000)
                    demo_db) =
      active_leases (Lease.property_id lease) demo_db ++ [lease] /\
    exists renter,
      getActiveLeaseForProperty (Lease.property_id lease)
        (insert_lease (new_lease_row 1 "uuid-renter" 900 5 second_lease_body 3000)
                      demo_db) =
      (Resolved (Some (lease, renter)),
       insert_lease (new_lease_row 1 "uuid-renter" 900 5 second_lease_body 3000)
                    demo_db).
Proof.
  assert (W : db_wf demo_db) by (split; repeat constructor; simpl; lia).
  split.
  - exact W.
  - apply (accepted_lease_becomes_the_reported_active_lease
             (Bearer "uuid-landlord") second_lease_body 3000 demo_db).
    + exact W.
    + reflexivity.
    + reflexivity.
Defined.

(** ** The initial balance of a lease (C10) *)

(** C10: an accepted lease request stores the initial balance it asks for
    as the running balance of the new lease and writes no entry; a finite
    number is stored as it is, also when it is negative, a number that
    is not finite counts as 0; and the bootstrap on a new file leaves one
    lease with balance 1200 and an empty entry table. *)
Theorem lease_creation_stores_initial_balance
  (authorization : Authorization) (body : LeaseBody.t) (now : Z)
  (db db' : Db) (resp : Response) :
  db_wf db ->
  post_rentals_leases authorization body now db = (Resolved resp, db') ->
  status resp = 201 ->
  (exists lease,
     json resp = JLease (Some lease) /\
     lease_of (Lease.id lease) db' = Some lease /\
     Lease.current_balance lease = initial_balance body /\
     entries_of (Lease.id lease) db' = [] /\
     payments db' = payments db) /\
  (forall z, LeaseBody.currentBalance body = Some (Finite z) ->
             initial_balance body = z) /\
  (forall b, LeaseBody.currentBalance body = Some b ->
             Number.isFinite b = false -> initial_balance body = 0) /\
  (forall ul ur t1 t2 t3, ul <> ur ->
     let demo := snd (ensureDemoRentalData ul ur t1 t2 t3 empty_db) in
     exists lease,
       leases demo = [lease] /\
       Lease.current_balance lease = 1200 /\
       Lease.monthly_rent lease = 1200 /\
       payments demo = []).
Proof.
  intros W H Hs.
  split.
  { destruct (created_lease_state _ _ _ _ _ _ W H Hs)
      as (lease & Hj & _ & Hb & _ & _ & Hl & He & Hp).
    exists lease. repeat split; assumption. }
  split.
  { intros z Hz. unfold initial_balance. rewrite Hz. reflexivity. }
  split.
  { intros b Hb Hfin. unfold initial_balance. rewrite Hb, Hfin. reflexivity. }
  intros ul ur t1 t2 t3 Hne.
  rewrite (ensureDemoRentalData_on_new_file ul ur t1 t2 t3 Hne).
  cbv zeta. simpl. eexists. repeat split; reflexivity.
Qed.

Lemma lease_creation_stores_initial_balance_witness :
  db_wf demo_db /\
  (exists lease,
     JLease (Some (Lease.mk 2 1 "uuid-renter" None 1 900 5 300 1 3000)) =
       JLease (Some lease) /\
     lease_of (Lease.id lease)
       (insert_lease (new_lease_row 1 "uuid-renter" 900 5 second_lease_body 3000)
                     demo_db) = Some lease /\
     Lease.current_balance lease = 300).
Proof.
  assert (W : db_wf demo_db) by (split; repeat constructor; simpl; lia).
  split; [exact W |].
  destruct (lease_creation_stores_initial_balance
              (Bearer "uuid-landlord") second_lease_body 3000 demo_db
              (insert_lease (new_lease_row 1 "uuid-renter" 900 5 second_lease_body 3000)
                            demo_db)
              (mkResponse 201 (JLease (Some
                 (Lease.mk 2 1 "uuid-renter" None 1 900 5 300 1 3000))))
              W eq_refl eq_refl) as [(lease & Hj & Hl & Hb & _) _].
  exists lease. split; [exact Hj |]. split; [exact Hl | exact Hb].
Defined.

(** ** Charges and credits (C3) *)



(** ** Payments (C4) *)



(** ** Refused commands change nothing *)

Lemma refused_payment_changes_nothing (authorization : Authorization)
  (body : PaymentBody.t) (now : Z) (db db' : Db) (resp : Response) :
  post_rentals_payments authorization body now db = (Resolved resp, db') ->
  status resp <> 201 -> db' = db.
Proof.
  intros H Hs.
  destruct authorization as [| | sub];
    try (simpl in H; injection H as _ <-; reflexivity).
  rewrite post_rentals_payments_eq in H. cbv zeta in H.
  repeat match type of H with
         | (if ?c then _ else _) = _ => destruct c
         | match ?x with _ => _ end = _ => destruct x
         end;
    injection H as Hr Hd; subst; try reflexivity.
  exfalso. apply Hs. reflexivity.
Qed.

Lemma refused_adjustment_changes_nothing (authorization : Authorization)
  (leaseId : Z) (body : BalanceBody.t) (now : Z) (db db' : Db) (resp : Response) :
  patch_rentals_leases_balance authorization leaseId body now db =
    (Resolved resp, db') ->
  status resp <> 200 -> db' = db.
Proof.
  intros H Hs.
  destruct authorization as [| | sub];
    try (simpl in H; injection H as _ <-; reflexivity).
  rewrite patch_rentals_leases_balance_eq in H.
  repeat match type of H with
         | (if ?c then _ else _) = _ => destruct c
         | match ?x with _ => _ end = _ => destruct x
         end;
    injection H as Hr Hd; subst; try reflexivity.
  exfalso. apply Hs. reflexivity.
Qed.

(** ** Ownership (C6) *)

(** C6: a payment on a lease whose renter is not the requester changes
    nothing, and when its amount passes validation it is answered 403; an
    adjustment on a lease whose unit the requester does not own changes
    nothing, and when its delta is finite it is answered 403. *)
Theorem mutation_of_a_foreign_lease_is_forbidden
  (payer adjuster : string) (leaseId : Z) (now : Z) (db : Db) (lease : Lease.t) :
  lease_of leaseId db = Some lease ->
  Lease.renter_id lease <> payer ->
  owns_unit_of adjuster lease db = false ->
  (forall amount,
     snd (post_rentals_payments (Bearer payer) (PaymentBody.mk leaseId amount) now db)
       = db /\
     (invalid_amount amount = false ->
      exists error,
        post_rentals_payments (Bearer payer) (PaymentBody.mk leaseId amount) now db =
        (Resolved (mkResponse 403 (JError error)), db))) /\
  (forall balance,
     snd (patch_rentals_leases_balance (Bearer adjuster) leaseId
            (BalanceBody.mk balance) now db) = db /\
     (Number.isFinite balance = true ->
      exists error,
        patch_rentals_leases_balance (Bearer adjuster) leaseId
          (BalanceBody.mk balance) now db =
        (Resolved (mkResponse 403 (JError error)), db))).
Proof.
  intros Hlease Hrenter Hown.
  apply String.eqb_neq in Hrenter.
  split.
  - intros amount. rewrite post_rentals_payments_eq. cbv zeta. simpl.
    destruct (has_role "renter" payer db).
    + destruct amount as [z | | |]; simpl; try (split; [reflexivity | discriminate]).
      unfold invalid_amount; simpl.
      destruct (z <=? 0); simpl; [split; [reflexivity | discriminate] |].
      rewrite Hlease, Hrenter. simpl.
      split; [reflexivity |]. intros _. eexists. reflexivity.
    + simpl. split; [reflexivity |]. intros _. eexists. reflexivity.
  - intros balance. rewrite patch_rentals_leases_balance_eq. simpl.
    destruct (has_role "landlord" adjuster db).
    + destruct balance as [z | | |]; simpl; try (split; [reflexivity | discriminate]).
      rewrite Hlease, Hown. simpl.
      split; [reflexivity |]. intros _. eexists. reflexivity.
    + simpl. split; [reflexivity |]. intros _. eexists. reflexivity.
Qed.

Lemma mutation_of_a_foreign_lease_is_forbidden_witness :
  lease_of 1 crowded_db =
    Some (Lease.mk 1 1 "uuid-renter" (Some 1000) 1 1200 1 1200 1 1000) /\
  "uuid-renter" <> "uuid-other-renter" /\
  (exists error,
     post_rentals_payments (Bearer "uuid-other-renter")
       (PaymentBody.mk 1 (Finite 100)) 2000 crowded_db =
     (Resolved (mkResponse 403 (JError error)), crowded_db)) /\
  (exists error,
     patch_rentals_leases_balance (Bearer "uuid-other-landlord") 1
       (BalanceBody.mk (Finite 100)) 2000 crowded_db =
     (Resolved (mkResponse 403 (JError error)), crowded_db)).
Proof.
  assert (Hne : "uuid-renter" <> "uuid-other-renter") by discriminate.
  split; [reflexivity |]. split; [exact Hne |].
  destruct (mutation_of_a_foreign_lease_is_forbidden
              "uuid-other-renter" "uuid-other-landlord" 1 2000 crowded_db
              (Lease.mk 1 1 "uuid-renter" (Some 1000) 1 1200 1 1200 1 1000)
              eq_refl Hne eq_refl) as [Hpay Hadj].
  split.
  - destruct (Hpay (Finite 100)) as [_ H]. apply H. reflexivity.
  - destruct (Hadj (Finite 100)) as [_ H]. apply H. reflexivity.
Defined.

(** ** Unknown lease (C7) *)

(** C7, as stated, fails for payments: the demo renter paying a valid
    amount on lease 99, which does not exist, is answered 403 with
    "You can only pay your own lease.", not with a not-found error. *)
Lemma payment_on_unknown_lease_is_answered_403 :
  lease_of 99 demo_db = None /\
  post_rentals_payments (Bearer "uuid-renter") (PaymentBody.mk 99 (Finite 50)) 2000
                        demo_db =
  (Resolved (mkResponse 403 (JError "You can only pay your own lease.")), demo_db) /\
  status (mkResponse 403 (JError "You can only pay your own lease.")) <> 404.
Proof.
  split; [reflexivity |]. split; [reflexivity |]. discriminate.
Qed.

(** C7, amended: a payment or an adjustment that names a lease id for
    which no lease exists changes nothing.  The adjustment, when its delta
    is finite and the requester has the landlord role, is answered 404
    "Lease not found."; the payment, when its amount passes validation and
    the requester has the renter role, is answered 403
    "You can only pay your own lease.". *)
Theorem unknown_lease_is_refused_without_change
  (payer adjuster : string) (leaseId : Z) (now : Z) (db : Db) :
  lease_of leaseId db = None ->
  (forall amount,
     snd (post_rentals_payments (Bearer payer) (PaymentBody.mk leaseId amount) now db)
       = db /\
     (has_role "renter" payer db = true -> invalid_amount amount = false ->
      post_rentals_payments (Bearer payer) (PaymentBody.mk leaseId amount) now db =
      (Resolved (mkResponse 403 (JError "You can only pay your own lease.")), db))) /\
  (forall balance,
     snd (patch_rentals_leases_balance (Bearer adjuster) leaseId
            (BalanceBody.mk balance) now db) = db /\
     (has_role "landlord" adjuster db = true -> Number.isFinite balance = true ->
      patch_rentals_leases_balance (Bearer adjuster) leaseId
        (BalanceBody.mk balance) now db =
      (Resolved (mkResponse 404 (JError "Lease not found.")), db))).
Proof.
  intros Hlease. split.
  - intros amount. rewrite post_rentals_payments_eq. cbv zeta. simpl.
    destruct (has_role "renter" payer db).
    + destruct amount as [z | | |]; simpl;
        try (split; [reflexivity | intros _; discriminate]).
      unfold invalid_amount; simpl.
      destruct (z <=? 0); simpl; [split; [reflexivity | intros _; discriminate] |].
      rewrite Hlease. split; reflexivity.
    + split; [reflexivity | discriminate].
  - intros balance. rewrite patch_rentals_leases_balance_eq. simpl.
    destruct (has_role "landlord" adjuster db).
    + destruct balance as [z | | |]; simpl;
        try (split; [reflexivity | intros _; discriminate]).
      rewrite Hlease. split; reflexivity.
    + split; [reflexivity | discriminate].
Qed.

Lemma unknown_lease_is_refused_without_change_witness :
  lease_of 99 demo_db = None /\
  post_rentals_payments (Bearer "uuid-renter") (PaymentBody.mk 99 (Finite 50)) 2000
                        demo_db =
  (Resolved (mkResponse 403 (JError "You can only pay your own lease.")), demo_db) /\
  patch_rentals_leases_balance (Bearer "uuid-landlord") 99
    (BalanceBody.mk (Finite 50)) 2000 demo_db =
  (Resolved (mkResponse 404 (JError "Lease not found.")), demo_db).
Proof.
  split; [reflexivity |].
  destruct (unknown_lease_is_refused_without_change
              "uuid-renter" "uuid-landlord" 99 2000 demo_db eq_refl) as [Hpay Hadj].
  split.
  - destruct (Hpay (Finite 50)) as [_ H]. apply H; reflexivity.
  - destruct (Hadj (Finite 50)) as [_ H]. apply H; reflexivity.
Defined.

(** ** Signs of the entries (C8) *)

Lemma handle_keeps_signs (e : Event) (db : Db) :
  Forall sign_kept (payments db) -> Forall sign_kept (payments (handle e db)).
Proof.
  intros Hall. destruct e as [ul ur t1 t2 t3 | a b now | a b now | a b now | a id b now];
    simpl.
  - destruct (ensureDemoRentalData_grows ul ur t1 t2 t3 db) as [-> _]. exact Hall.
  - destruct (post_rentals_properties_grows a b now db) as [-> _]. exact Hall.
  - destruct (post_rentals_leases_grows a b now db) as [-> _]. exact Hall.
  - destruct a as [| | sub]; try exact Hall.
    rewrite post_rentals_payments_eq. cbv zeta.
    destruct (has_role "renter" sub db); [| exact Hall].
    destruct (PaymentBody.amount b) as [z | | |]; try exact Hall.
    destruct (z <=? 0) eqn:Hz; [exact Hall |].
    destruct (lease_of (PaymentBody.leaseId b) db); [| exact Hall].
    destruct (String.eqb (Lease.renter_id t) sub); [| exact Hall].
    simpl. apply Forall_app. split; [exact Hall |].
    constructor; [| constructor].
    apply Z.leb_gt in Hz.
    unfold sign_kept; simpl.
    split; [intros _; lia |]. split; intros; discriminate.
  - destruct a as [| | sub]; try exact Hall.
    rewrite patch_rentals_leases_balance_eq.
    destruct (has_role "landlord" sub db); [| exact Hall].
    destruct (BalanceBody.balance b) as [z | | |]; try exact Hall.
    destruct (lease_of id db) as [lease |]; [| exact Hall].
    destruct (owns_unit_of sub lease db); [| exact Hall].
    simpl. apply Forall_app. split; [exact Hall |].
    constructor; [| constructor].
    unfold sign_kept; simpl.
    destruct (0 <? z) eqn:Hz.
    + apply Z.ltb_lt in Hz.
      split; [intros; discriminate |]. split; [intros _; lia | intros; discriminate].
    + apply Z.ltb_ge in Hz.
      split; [intros; discriminate |]. split; [intros; discriminate | intros _; lia].
Qed.

(** Every entry the server writes, starting from a new file, keeps the
    sign rule [sign_kept]. *)
Lemma run_keeps_signs (es : list Event) (db : Db) :
  Forall sign_kept (payments db) -> Forall sign_kept (payments (run es db)).
Proof.
  revert db. induction es as [| e es IH]; intros db H; simpl.
  - exact H.
  - apply IH, handle_keeps_signs, H.
Qed.

(** C8 fails on the code at delta 0: the owning landlord adjusting the
    demo lease by 0 is answered 200, and the one entry written is of type
    "credit" with amount 0, which is not below 0. *)
Theorem zero_adjustment_is_logged_as_credit :
  let db := run [demo_adjust 1 (Finite 0) 2000] demo_db in
  payments db = [Payment.mk 1 1 0 2000 "credit"] /\
  balance_of 1 db = balance_of 1 demo_db /\
  ~ (forall p, In p (payments db) ->
               Payment.type p = "credit" -> Payment.amount p < 0).
Proof.
  cbv zeta. split; [reflexivity |]. split; [reflexivity |].
  intros H.
  specialize (H (Payment.mk 1 1 0 2000 "credit") (or_introl eq_refl) eq_refl).
  simpl in H. lia.
Qed.

(** ** Paid status in the two portals (C2) *)

(** Where the rent of the lease is above 0, the unit card of the landlord
    portal and the three places of the renter portal use one threshold:
    paid when the balance is at most the monthly rent, overdue when it is
    above. *)
Lemma card_and_renter_portal_agree (prev : RenterPortal.Profile) (lease : Lease.t) :
  0 < Lease.monthly_rent lease ->
  let paid := Lease.current_balance lease <=? Lease.monthly_rent lease in
  LandlordPortal.paidThisMonth (Some lease) = paid /\
  RenterPortal.profile_paidThisMonth (RenterPortal.load_profile prev lease) = paid /\
  RenterPortal.profile_paidThisMonth (RenterPortal.paid_profile prev lease) = paid /\
  RenterPortal.paidThisMonth (RenterPortal.load_profile prev lease) = paid /\
  RenterPortal.balanceOverdue (RenterPortal.load_profile prev lease) = negb paid.
Proof.
  intros Hrent. cbv zeta.
  unfold LandlordPortal.paidThisMonth, RenterPortal.paidThisMonth,
    RenterPortal.balanceOverdue, RenterPortal.load_profile, RenterPortal.paid_profile.
  simpl.
  destruct (Lease.monthly_rent lease =? 0) eqn:E;
    [apply Z.eqb_eq in E; lia |].
  simpl. rewrite ?E.
  repeat split; try reflexivity.
  apply Z.ltb_antisym.
Qed.

(** C2 fails on the code in the landlord portal: for the demo lease, with
    rent 1200 and balance 1200, the unit card and the renter portal show
    the lease as paid, while the tile "Paid this month" of the same
    landlord page, which compares the balance with 0, counts no paid
    lease. *)
Theorem paid_tile_disagrees_with_unit_card :
  let lease := Lease.mk 1 1 "uuid-renter" (Some 1000) 1 1200 1 1200 1 1000 in
  LandlordPortal.card_lease [] demo_property = Some lease /\
  LandlordPortal.paidThisMonth (LandlordPortal.card_lease [] demo_property) = true /\
  RenterPortal.paidThisMonth
    (RenterPortal.load_profile RenterPortal.demoRenterProfile lease) = true /\
  RenterPortal.balanceOverdue
    (RenterPortal.load_profile RenterPortal.demoRenterProfile lease) = false /\
  LandlordPortal.stats_paid [demo_property] = 0%nat.
Proof.
  cbv zeta. repeat split; reflexivity.
Qed.

(** ** Rendering of the ledger (C9) *)

Section LedgerRendering.
Variable toLocaleString : Z -> string.

(** C9: in both mappings of the renter portal, a charge is titled
    "Rent issued", shown with "+" before the absolute amount and noted
    "Posted by landlord"; a credit is titled "Credited on", shown with "-"
    and noted "Posted by landlord"; a payment is titled "Paid on", shown
    with "-" and noted "Paid by you". *)
Theorem ledger_entry_rendering (methodLabel : string) (id leaseId amount paidAt : Z) :
  let money := String.append "$" (toLocaleString (Z.abs amount)) in
  let row := Payment.mk id leaseId amount paidAt in
  RenterPortal.rendered toLocaleString (RenterPortal.loaded_entry (row "charge")) =
    ("Rent issued", String.append "+" money, "Posted by landlord") /\
  RenterPortal.rendered toLocaleString (RenterPortal.paid_entry methodLabel (row "charge")) =
    ("Rent issued", String.append "+" money, "Posted by landlord") /\
  RenterPortal.rendered toLocaleString (RenterPortal.loaded_entry (row "credit")) =
    ("Credited on", String.append "-" money, "Posted by landlord") /\
  RenterPortal.rendered toLocaleString (RenterPortal.paid_entry methodLabel (row "credit")) =
    ("Credited on", String.append "-" money, "Posted by landlord") /\
  RenterPortal.rendered toLocaleString (RenterPortal.loaded_entry (row "payment")) =
    ("Paid on", String.append "-" money, "Paid by you") /\
  RenterPortal.rendered toLocaleString (RenterPortal.paid_entry methodLabel (row "payment")) =
    ("Paid on", String.append "-" money, "Paid by you").
Proof.
  cbv zeta. repeat split; reflexivity.
Qed.

End LedgerRendering.

(** * The server as a sequence of writes *)

Lemma writes_one (a b : Db) : write a b -> writes a b.
Proof. intros H. eapply writes_more; [apply writes_none | exact H]. Qed.

Lemma writes_trans (a b c : Db) : writes a b -> writes b c -> writes a c.
Proof.
  intros Hab Hbc. induction Hbc as [| b c d _ IH Hw].
  - exact Hab.
  - eapply writes_more; [apply IH; exact Hab | exact Hw].
Qed.

Section Triples.
Context {A : Type}.

Lemma triple_resolve (P : Db -> Prop) (a : A) :
  triple P (resolve a) (fun a' db => a' = a /\ P db).
Proof.
  intros db HP. split; [apply writes_none |].
  simpl. intros a' E. injection E as <-. split; [reflexivity | exact HP].
Qed.

Lemma triple_reject (P : Db -> Prop) (err : string) (Q : A -> Db -> Prop) :
  triple P (reject err) Q.
Proof.
  intros db HP. split; [apply writes_none |].
  simpl. intros a E. discriminate E.
Qed.

Lemma triple_query (P : Db -> Prop) (f : Db -> A) :
  triple P (query f) (fun a db => a = f db /\ P db).
Proof.
  intros db HP. split; [apply writes_none |].
  simpl. intros a E. injection E as <-. split; [reflexivity | exact HP].
Qed.

Lemma triple_weaken (P P' : Db -> Prop) (m : Promise A) (Q Q' : A -> Db -> Prop) :
  (forall db, P' db -> P db) ->
  (forall a db, Q a db -> Q' a db) ->
  triple P m Q -> triple P' m Q'.
Proof.
  intros HP HQ H db HP'. destruct (H db (HP db HP')) as [Hw Hq].
  split; [exact Hw |]. intros a E. apply HQ, Hq, E.
Qed.

Lemma triple_await {B : Type} (P : Db -> Prop) (m : Promise A)
  (Q : A -> Db -> Prop) (k : A -> Promise B) (Q' : B -> Db -> Prop) :
  triple P m Q -> (forall a, triple (Q a) (k a) Q') -> triple P (await m k) Q'.
Proof.
  intros Hm Hk db HP. unfold await.
  destruct (Hm db HP) as [Hw Hq].
  destruct (m db) as [[a | err] db1]; simpl in *.
  - destruct (Hk a db1 (Hq a eq_refl)) as [Hw' Hq'].
    split; [eapply writes_trans; eassumption | exact Hq'].
  - split; [exact Hw |]. intros b E. discriminate E.
Qed.

End Triples.

(** Steps whose value is not needed afterwards. *)
Lemma triple_resolve_any {A : Type} (P : Db -> Prop) (a : A) :
  triple P (resolve a) (fun _ _ => True).
Proof. intros db _. split; [apply writes_none | trivial]. Qed.

Lemma triple_query_any {A : Type} (P : Db -> Prop) (f : Db -> A) :
  triple P (query f) (fun _ _ => True).
Proof. intros db _. split; [apply writes_none | trivial]. Qed.

Lemma property_of_in (rp : RentalProperty.t) (db : Db) :
  In rp (rental_properties db) -> property_of (RentalProperty.id rp) db <> None.
Proof.
  intros Hin Hnone. unfold property_of in Hnone.
  pose proof (find_none _ _ Hnone rp Hin) as H. simpl in H.
  rewrite Z.eqb_refl in H. discriminate H.
Qed.

Lemma lease_of_in (l : Lease.t) (db : Db) :
  In l (leases db) -> lease_of (Lease.id l) db <> None.
Proof.
  intros Hin Hnone. unfold lease_of in Hnone.
  pose proof (find_none _ _ Hnone l Hin) as H. simpl in H.
  rewrite Z.eqb_refl in H. discriminate H.
Qed.

Lemma createUser_triple (user : User.t) :
  triple (fun _ => True) (createUser user) (fun _ _ => True).
Proof.
  intros db _. unfold createUser.
  destruct (existsb _ (users db)); simpl.
  - split; [apply writes_none | trivial].
  - split; [apply writes_one, write_users | trivial].
Qed.

Lemma ensureDemoUsers_triple (ul ur : string) :
  triple (fun _ => True) (ensureDemoUsers ul ur) (fun _ _ => True).
Proof.
  unfold ensureDemoUsers. cbv zeta.
  eapply triple_await; [apply triple_query_any |].
  intros landlord. eapply triple_await with (Q := fun _ _ => True).
  { destruct landlord.
    - apply triple_resolve_any.
    - eapply triple_await; [apply createUser_triple |].
      intros ?. apply triple_resolve_any. }
  intros ?. eapply triple_await; [apply triple_query_any |].
  intros [renter |].
  - apply triple_resolve_any.
  - eapply triple_await; [apply createUser_triple |].
    intros ?. apply triple_resolve_any.
Qed.

(** The unit [createRentalProperty] resolves to is in the table. *)
Lemma createRentalProperty_triple (landlordId title address : string)
  (imageUrl : option string) (stage : string) (monthlyRent now : Z) :
  triple (fun _ => True)
    (createRentalProperty landlordId title address imageUrl stage monthlyRent now)
    (fun created db =>
       match created with
       | Some rp => property_of (RentalProperty.id rp) db <> None
       | None => True
       end).
Proof.
  intros db _. unfold createRentalProperty, await, exec, query. simpl.
  split.
  - apply writes_one, write_unit. reflexivity.
  - intros created E. injection E as <-.
    match goal with
    | |- match ?x with _ => _ end => destruct x as [rp |] eqn:Hrp; [| trivial]
    end.
    apply first_by_desc_max in Hrp. destruct Hrp as [Hin _].
    apply filter_In in Hin. destruct Hin as [Hin _].
    apply property_of_in. exact Hin.
Qed.

(** A lease with checked terms on an existing unit is one write. *)
Lemma createLease_triple (propertyId : Z) (renterId : string) (startDate : option Z)
  (occupantsCount monthlyRent dueDay currentBalance now : Z) :
  0 < monthlyRent -> 1 <= dueDay <= 31 ->
  triple (fun db => property_of propertyId db <> None)
    (createLease propertyId renterId startDate occupantsCount monthlyRent dueDay
                 currentBalance now)
    (fun _ _ => True).
Proof.
  intros Hrent Hdue db Hprop. unfold createLease, await, exec, query. simpl.
  split; [| trivial].
  apply writes_one, write_lease.
  - reflexivity.
  - unfold lease_valid. simpl. repeat split; lia.
  - exact Hprop.
Qed.

Lemma ensureDemoRentalData_triple (ul ur : string) (t1 t2 t3 : Z) :
  triple (fun _ => True) (ensureDemoRentalData ul ur t1 t2 t3) (fun _ _ => True).
Proof.
  unfold ensureDemoRentalData.
  eapply triple_await; [apply ensureDemoUsers_triple |].
  intros ?. eapply triple_await; [apply triple_query_any |].
  intros landlord.
  eapply triple_await; [apply triple_query_any |].
  intros renter.
  destruct landlord as [landlord |];
    [| apply triple_resolve_any].
  destruct renter as [renter |];
    [| apply triple_resolve_any].
  eapply triple_await.
  { unfold listRentalPropertiesForLandlord. apply triple_query. }
  intros existingProps. simpl.
  eapply triple_await
    with (Q := fun prop db =>
                 match prop with
                 | Some rp => property_of (RentalProperty.id rp) db <> None
                 | None => True
                 end).
  { destruct (hd_error existingProps) as [rp |] eqn:Hhd.
    - eapply triple_weaken; [| | apply triple_resolve].
      + intros db H. exact H.
      + simpl. intros prop db [-> [Hps _]]. subst existingProps.
        destruct (order_by_desc _ _) as [| h t] eqn:Hl; [discriminate |].
        simpl in Hhd. injection Hhd as ->.
        apply property_of_in.
        assert (Hin : In rp (rp :: t)) by (left; reflexivity).
        rewrite <- Hl in Hin.
        eapply Permutation_in in Hin;
          [| apply Permutation_sym, order_by_desc_perm].
        apply filter_In in Hin. apply Hin.
    - eapply triple_weaken; [| | apply createRentalProperty_triple];
        simpl; auto. }
  intros [prop |]; [| apply triple_reject].
  eapply triple_await.
  { unfold getActiveLeaseForProperty. apply triple_query. }
  intros [activeLease |]; simpl.
  - apply triple_resolve_any.
  - eapply triple_await with (Q := fun _ _ => True).
    + eapply triple_weaken; [| | apply createLease_triple]; try lia; auto.
      simpl. intros db [_ H]. exact H.
    + intros ?. apply triple_resolve_any.
Qed.

Lemma post_rentals_properties_eq (sub : string) (body : PropertyBody.t) (now : Z)
  (db : Db) :
  post_rentals_properties (Bearer sub) body now db =
  if has_role "landlord" sub db then
    match truthy_string (PropertyBody.title body),
          truthy_string (PropertyBody.address body) with
    | Some title, Some address =>
      let db' := insert_rental_property (new_unit_row sub title address body now) db in
      (Resolved (mkResponse 201
         (JProperty (first_by_desc RentalProperty.id
                       (units_like sub (trim title) (trim address) db')))),
       db')
    | _, _ =>
      (Resolved (mkResponse 400 (JError "Title and address are required.")), db)
    end
  else (Resolved (role_refused "landlord"), db).
Proof.
  unfold post_rentals_properties, requireAuth. rewrite requireRole_eq.
  destruct (has_role "landlord" sub db); [| reflexivity].
  destruct (truthy_string (PropertyBody.title body)) as [title |];
    [| reflexivity].
  destruct (truthy_string (PropertyBody.address body)) as [address |];
    reflexivity.
Qed.

Lemma handle_writes (e : Event) (db : Db) : writes db (handle e db).
Proof.
  destruct e as [ul ur t1 t2 t3 | a b now | a b now | a b now | a id b now]; simpl.
  - apply (ensureDemoRentalData_triple ul ur t1 t2 t3 db I).
  - destruct a as [| | sub]; try apply writes_none.
    rewrite post_rentals_properties_eq.
    destruct (has_role "landlord" sub db); [| apply writes_none].
    destruct (truthy_string (PropertyBody.title b)); [| apply writes_none].
    destruct (truthy_string (PropertyBody.address b)); [| apply writes_none].
    apply writes_one, write_unit. reflexivity.
  - destruct a as [| | sub]; try apply writes_none.
    destruct (post_rentals_leases (Bearer sub) b now db) as [[resp | err] db'] eqn:E.
    + destruct (Z.eq_dec (status resp) 201) as [Hs | Hs].
      * destruct (post_rentals_leases_accepted _ _ _ _ _ _ E Hs)
          as (sub' & propertyId & renterId & rent & due & property & _ & _ & _ & _
              & _ & Hrent & _ & Hdue & Hprop & _ & Hdb & _).
        simpl. subst db'. apply writes_one, write_lease.
        -- reflexivity.
        -- unfold lease_valid. simpl. repeat split; lia.
        -- simpl. rewrite Hprop. discriminate.
      * simpl.
        rewrite post_rentals_leases_eq in E.
        repeat match type of E with
               | (if ?c then _ else _) = _ => destruct c
               | match ?x with _ => _ end = _ => destruct x
               end;
          injection E as Hr Hd; subst; try apply writes_none.
        exfalso. apply Hs. reflexivity.
    + rewrite post_rentals_leases_eq in E.
      repeat match type of E with
             | (if ?c then _ else _) = _ => destruct c
             | match ?x with _ => _ end = _ => destruct x
             end; discriminate E.
  - destruct a as [| | sub]; try apply writes_none.
    rewrite post_rentals_payments_eq. cbv zeta.
    destruct (has_role "renter" sub db); [| apply writes_none].
    destruct (PaymentBody.amount b) as [z | | |]; try apply writes_none.
    destruct (z <=? 0) eqn:Hz; [apply writes_none |].
    destruct (lease_of (PaymentBody.leaseId b) db) as [lease |] eqn:Hl;
      [| apply writes_none].
    destruct (String.eqb (Lease.renter_id lease) sub); [| apply writes_none].
    simpl. apply writes_one, write_payment.
    + apply Z.leb_gt in Hz. lia.
    + rewrite Hl. discriminate.
  - destruct a as [| | sub]; try apply writes_none.
    rewrite patch_rentals_leases_balance_eq.
    destruct (has_role "landlord" sub db); [| apply writes_none].
    destruct (BalanceBody.balance b) as [z | | |]; try apply writes_none.
    destruct (lease_of id db) as [lease |] eqn:Hl; [| apply writes_none].
    destruct (owns_unit_of sub lease db); [| apply writes_none].
    simpl. apply writes_one, write_adjustment.
    rewrite Hl. discriminate.
Qed.

Lemma run_writes (es : list Event) (db : Db) : writes db (run es db).
Proof.
  revert db. induction es as [| e es IH]; intros db; simpl.
  - apply writes_none.
  - eapply writes_trans; [apply handle_writes | apply IH].
Qed.

(** An invariant of every write is an invariant of the server. *)
Lemma writes_keep (Inv : Db -> Prop) :
  (forall db db', write db db' -> Inv db -> Inv db') ->
  forall db db', writes db db' -> Inv db -> Inv db'.
Proof.
  intros Hstep db db' Hw. induction Hw as [| db1 db2 db3 _ IH Hw]; intros H.
  - exact H.
  - eapply Hstep; [exact Hw | apply IH; exact H].
Qed.

(** ** Invariants of the writes *)

Lemma add_to_balance_keeps_valid (leaseId delta : Z) (db : Db) :
  Forall lease_valid (leases db) ->
  Forall lease_valid (leases (add_to_balance leaseId delta db)).
Proof.
  intros H. simpl. apply Forall_map.
  eapply Forall_impl; [| exact H].
  intros l Hl. destruct (Lease.id l =? leaseId); exact Hl.
Qed.

Lemma write_keeps_valid_leases (db db' : Db) :
  write db db' -> Forall lease_valid (leases db) -> Forall lease_valid (leases db').
Proof.
  intros Hw H. destruct Hw as [us db | row db Hid | row db Hid Hv Hp
                               | leaseId z now db Hz Hl | leaseId z now db Hl].
  - exact H.
  - exact H.
  - simpl. apply Forall_app. split; [exact H | constructor; [exact Hv | constructor]].
  - unfold db_after_payment. apply add_to_balance_keeps_valid. exact H.
  - unfold db_after_adjustment. simpl leases.
    apply (add_to_balance_keeps_valid leaseId z db H).
Qed.

Lemma property_of_add_to_balance (leaseId delta id : Z) (db : Db) :
  property_of id (add_to_balance leaseId delta db) = property_of id db.
Proof. reflexivity. Qed.

Lemma lease_of_kept_by_add_to_balance (leaseId delta id : Z) (db : Db) :
  lease_of id db <> None -> lease_of id (add_to_balance leaseId delta db) <> None.
Proof.
  intros H. rewrite lease_of_add_to_balance.
  destruct (id =? leaseId); [| exact H].
  destruct (lease_of id db); [discriminate | exact H].
Qed.

Lemma add_to_balance_keeps_property_ids (leaseId delta : Z) (db : Db)
  (P : Z -> Prop) :
  Forall (fun l => P (Lease.property_id l)) (leases db) ->
  Forall (fun l => P (Lease.property_id l)) (leases (add_to_balance leaseId delta db)).
Proof.
  intros H. simpl. apply Forall_map.
  eapply Forall_impl; [| exact H].
  intros l Hl. simpl. destruct (Lease.id l =? leaseId); exact Hl.
Qed.

Lemma write_keeps_references (db db' : Db) :
  write db db' -> references_kept db -> references_kept db'.
Proof.
  intros Hw [HL HP]. destruct Hw as [us db | row db Hid | row db Hid Hv Hp
                                     | leaseId z now db Hz Hl | leaseId z now db Hl].
  - split; assumption.
  - split; [| exact HP].
    eapply Forall_impl; [| exact HL]. intros l Hl.
    unfold property_of in *. simpl.
    destruct (find _ (rental_properties db)) as [rp |] eqn:E; [| contradiction].
    rewrite (find_app_some _ _ _ _ E). discriminate.
  - split.
    + simpl. apply Forall_app. split; [exact HL | constructor; [exact Hp | constructor]].
    + eapply Forall_impl; [| exact HP]. intros p Hpay.
      unfold lease_of in *. simpl.
      destruct (find _ (leases db)) as [l |] eqn:E; [| contradiction].
      rewrite (find_app_some _ _ _ _ E). discriminate.
  - unfold db_after_payment. split.
    + apply (add_to_balance_keeps_property_ids leaseId (- z) _
               (fun pid => property_of pid db <> None)). exact HL.
    + simpl payments. apply Forall_app. split.
      * eapply Forall_impl; [| exact HP]. intros p Hpay.
        apply lease_of_kept_by_add_to_balance.
        rewrite lease_of_insert_payment. exact Hpay.
      * constructor; [| constructor]. simpl.
        apply lease_of_kept_by_add_to_balance.
        rewrite lease_of_insert_payment. exact Hl.
  - unfold db_after_adjustment. split.
    + apply (add_to_balance_keeps_property_ids leaseId z _
               (fun pid => property_of pid db <> None)). exact HL.
    + simpl payments. apply Forall_app. split.
      * eapply Forall_impl; [| exact HP]. intros p Hpay.
        rewrite lease_of_insert_payment.
        apply lease_of_kept_by_add_to_balance. exact Hpay.
      * constructor; [| constructor]. simpl.
        rewrite lease_of_insert_payment.
        apply lease_of_kept_by_add_to_balance. exact Hl.
Qed.

Lemma write_keeps_signs (db db' : Db) :
  write db db' -> Forall sign_kept (payments db) -> Forall sign_kept (payments db').
Proof.
  intros Hw H. destruct Hw as [us db | row db Hid | row db Hid Hv Hp
                               | leaseId z now db Hz Hl | leaseId z now db Hl];
    try exact H.
  - simpl. apply Forall_app. split; [exact H |].
    constructor; [| constructor]. unfold sign_kept; simpl.
    split; [intros _; lia |]. split; intros; discriminate.
  - simpl. apply Forall_app. split; [exact H |].
    constructor; [| constructor]. unfold sign_kept; simpl.
    destruct (0 <? z) eqn:Hz.
    + apply Z.ltb_lt in Hz.
      split; [intros; discriminate |]. split; [intros _; lia | intros; discriminate].
    + apply Z.ltb_ge in Hz.
      split; [intros; discriminate |]. split; [intros; discriminate | intros _; lia].
Qed.

Lemma write_appends_entries (db db' : Db) :
  write db db' -> exists extra, payments db' = payments db ++ extra.
Proof.
  intros Hw. destruct Hw.
  - exists []. symmetry. apply app_nil_r.
  - exists []. symmetry. apply app_nil_r.
  - exists []. symmetry. apply app_nil_r.
  - eexists. reflexivity.
  - eexists. reflexivity.
Qed.

Lemma writes_append_entries (db db' : Db) :
  writes db db' -> exists extra, payments db' = payments db ++ extra.
Proof.
  induction 1 as [| db1 db2 db3 _ [e1 IH] Hw].
  - exists []. symmetry. apply app_nil_r.
  - destruct (write_appends_entries _ _ Hw) as [e2 H2].
    exists (e1 ++ e2). rewrite H2, IH. symmetry. apply app_assoc.
Qed.

Lemma same_terms_refl (l : Lease.t) : same_terms l l.
Proof. reflexivity. Qed.

Lemma same_terms_trans (a b c : Lease.t) :
  same_terms a b -> same_terms b c -> same_terms a c.
Proof. unfold same_terms. intros H1 H2. congruence. Qed.

Lemma write_keeps_terms (db db' : Db) (id : Z) (l : Lease.t) :
  write db db' -> lease_of id db = Some l ->
  exists l', lease_of id db' = Some l' /\ same_terms l l'.
Proof.
  intros Hw Hl. destruct Hw as [us db | row db Hid | row db Hid Hv Hp
                               | leaseId z now db Hz Hx | leaseId z now db Hx].
  - exists l. split; [exact Hl | reflexivity].
  - exists l. split; [exact Hl | reflexivity].
  - exists l. split; [| reflexivity].
    unfold lease_of in *. simpl. apply find_app_some. exact Hl.
  - unfold db_after_payment.
    rewrite lease_of_add_to_balance, lease_of_insert_payment, Hl.
    destruct (id =? leaseId); simpl; eexists; split; reflexivity.
  - unfold db_after_adjustment.
    rewrite lease_of_insert_payment, lease_of_add_to_balance, Hl.
    destruct (id =? leaseId); simpl; eexists; split; reflexivity.
Qed.

Lemma writes_keep_terms (db db' : Db) (id : Z) (l : Lease.t) :
  writes db db' -> lease_of id db = Some l ->
  exists l', lease_of id db' = Some l' /\ same_terms l l'.
Proof.
  intros Hw. revert l. induction Hw as [| db1 db2 db3 _ IH Hw]; intros l Hl.
  - exists l. split; [exact Hl | reflexivity].
  - destruct (IH l Hl) as (l2 & Hl2 & H2).
    destruct (write_keeps_terms _ _ id l2 Hw Hl2) as (l3 & Hl3 & H3).
    exists l3. split; [exact Hl3 | eapply same_terms_trans; eassumption].
Qed.

Lemma write_keeps_units_keyed (db db' : Db) :
  write db db' -> units_keyed db -> units_keyed db'.
Proof.
  intros Hw [Hnd Hb]. destruct Hw as [us db | row db Hid | row db Hid Hv Hp
                                     | leaseId z now db Hz Hx | leaseId z now db Hx];
    try (split; assumption).
  split; simpl.
  - rewrite map_app. simpl. rewrite Hid.
    assert (Hfresh : ~ In (seq_rental_properties db + 1)
                          (map RentalProperty.id (rental_properties db))).
    { intros Hin. apply in_map_iff in Hin. destruct Hin as (rp & E & Hin).
      rewrite Forall_forall in Hb. specialize (Hb rp Hin). lia. }
    clear Hb. induction (map RentalProperty.id (rental_properties db)) as [| x xs IH];
      simpl.
    + constructor; [intros Hin; exact Hin | constructor].
    + inversion Hnd as [| ? ? Hx Hxs]; subst.
      constructor.
      * intros Hin. apply in_app_or in Hin. destruct Hin as [Hin | [E | []]].
        -- contradiction.
        -- apply Hfresh. left. symmetry. exact E.
      * apply IH; [exact Hxs |]. intros Hin. apply Hfresh. right. exact Hin.
  - apply Forall_app. split.
    + eapply Forall_impl; [| exact Hb]. simpl. intros; lia.
    + constructor; [rewrite Hid; lia | constructor].
Qed.

(** * Further properties of the rental backend *)

(** ** Requests that are not accepted *)

Lemma refused_unit_request_changes_nothing (authorization : Authorization)
  (body : PropertyBody.t) (now : Z) (db db' : Db) (resp : Response) :
  post_rentals_properties authorization body now db = (Resolved resp, db') ->
  status resp <> 201 -> db' = db.
Proof.
  intros H Hs.
  destruct authorization as [| | sub];
    try (simpl in H; injection H as _ <-; reflexivity).
  rewrite post_rentals_properties_eq in H.
  repeat match type of H with
         | (if ?c then _ else _) = _ => destruct c
         | match ?x with _ => _ end = _ => destruct x
         end;
    injection H as Hr Hd; subst; try reflexivity.
  exfalso. apply Hs. reflexivity.
Qed.

Lemma refused_lease_request_changes_nothing (authorization : Authorization)
  (body : LeaseBody.t) (now : Z) (db db' : Db) (resp : Response) :
  post_rentals_leases authorization body now db = (Resolved resp, db') ->
  status resp <> 201 -> db' = db.
Proof.
  intros H Hs.
  destruct authorization as [| | sub];
    try (simpl in H; injection H as _ <-; reflexivity).
  rewrite post_rentals_leases_eq in H.
  repeat match type of H with
         | (if ?c then _ else _) = _ => destruct c
         | match ?x with _ => _ end = _ => destruct x
         end;
    injection H as Hr Hd; subst; try reflexivity.
  exfalso. apply Hs. reflexivity.
Qed.

(** X1: a request to one of the four writing routes that is answered with
    a status other than 200 and 201 leaves every table as it was. *)
Theorem unaccepted_request_changes_nothing (e : Event) (db : Db) (resp : Response) :
  respond e db = Some resp ->
  status resp <> 200 -> status resp <> 201 ->
  handle e db = db.
Proof.
  intros H H200 H201.
  destruct e as [ul ur t1 t2 t3 | a b now | a b now | a b now | a id b now];
    simpl in H; [discriminate | | | |]; simpl.
  - destruct (post_rentals_properties a b now db) as [[r | err] db'] eqn:E;
      simpl in H; [| discriminate]. injection H as ->.
    eapply refused_unit_request_changes_nothing; eassumption.
  - destruct (post_rentals_leases a b now db) as [[r | err] db'] eqn:E;
      simpl in H; [| discriminate]. injection H as ->.
    eapply refused_lease_request_changes_nothing; eassumption.
  - destruct (post_rentals_payments a b now db) as [[r | err] db'] eqn:E;
      simpl in H; [| discriminate]. injection H as ->.
    eapply refused_payment_changes_nothing; eassumption.
  - destruct (patch_rentals_leases_balance a id b now db) as [[r | err] db'] eqn:E;
      simpl in H; [| discriminate]. injection H as ->.
    eapply refused_adjustment_changes_nothing; eassumption.
Qed.

Lemma unaccepted_request_changes_nothing_witness :
  respond (demo_pay 1 (Finite 0) 2000) demo_db =
    Some (mkResponse 400 (JError "Payment amount must be positive.")) /\
  handle (demo_pay 1 (Finite 0) 2000) demo_db = demo_db.
Proof.
  split; [reflexivity |].
  apply (unaccepted_request_changes_nothing (demo_pay 1 (Finite 0) 2000) demo_db
           (mkResponse 400 (JError "Payment amount must be positive."))).
  - reflexivity.
  - discriminate.
  - discriminate.
Defined.

(** ** One role per user *)

Lemma has_role_unique (role1 role2 sub : string) (db : Db) :
  has_role role1 sub db = true -> role1 <> role2 -> has_role role2 sub db = false.
Proof.
  unfold has_role. intros H Hne.
  destruct (find _ (users db)) as [u |]; [| reflexivity].
  apply String.eqb_eq in H. apply String.eqb_neq. congruence.
Qed.

(** X2: a user has one role.  A requester whose role is not "landlord" is
    answered 403 by the unit, lease and balance routes, a requester whose
    role is not "renter" is answered 403 by the payment route, and the
    database stays as it was: a renter cannot adjust a balance and a
    landlord cannot record a payment. *)
Theorem routes_are_closed_to_the_other_role (role sub : string) (db : Db) :
  has_role role sub db = true ->
  (role <> "landlord" ->
   (forall body now,
      post_rentals_properties (Bearer sub) body now db =
      (Resolved (role_refused "landlord"), db)) /\
   (forall body now,
      post_rentals_leases (Bearer sub) body now db =
      (Resolved (role_refused "landlord"), db)) /\
   (forall leaseId body now,
      patch_rentals_leases_balance (Bearer sub) leaseId body now db =
      (Resolved (role_refused "landlord"), db))) /\
  (role <> "renter" ->
   forall body now,
     post_rentals_payments (Bearer sub) body now db =
     (Resolved (role_refused "renter"), db)).
Proof.
  intros Hrole. split.
  - intros Hne. pose proof (has_role_unique _ _ _ _ Hrole Hne) as Hno.
    split; [| split]; intros.
    + rewrite post_rentals_properties_eq, Hno. reflexivity.
    + rewrite post_rentals_leases_eq, Hno. reflexivity.
    + rewrite patch_rentals_leases_balance_eq, Hno. reflexivity.
  - intros Hne. pose proof (has_role_unique _ _ _ _ Hrole Hne) as Hno.
    intros. rewrite post_rentals_payments_eq, Hno. reflexivity.
Qed.

Lemma routes_are_closed_to_the_other_role_witness :
  has_role "renter" "uuid-renter" demo_db = true /\
  patch_rentals_leases_balance (Bearer "uuid-renter") 1
    (BalanceBody.mk (Finite (-1200))) 2000 demo_db =
  (Resolved (role_refused "landlord"), demo_db).
Proof.
  split; [reflexivity |].
  destruct (routes_are_closed_to_the_other_role "renter" "uuid-renter" demo_db
              eq_refl) as [Hlandlord _].
  assert (Hne : "renter" <> "landlord") by discriminate.
  destruct (Hlandlord Hne) as (_ & _ & Hpatch).
  apply Hpatch.
Defined.

(** ** Double submission *)



(** ** What holds in every state the server reaches *)

(** X4: starting from a new database, whatever requests the server
    handles, every entry in the table has the sign of its type up to the
    zero credit: a payment and a charge have an amount above 0 and a
    credit has an amount that is not above 0. *)
Theorem entries_keep_their_signs (es : list Event) :
  Forall sign_kept (payments (run es empty_db)).
Proof.
  apply (writes_keep (fun db => Forall sign_kept (payments db))
           write_keeps_signs empty_db).
  - apply run_writes.
  - constructor.
Qed.

(** X5: starting from a new database, whatever requests the server
    handles, every lease in the table has a monthly rent above 0, a due
    day from 1 to 31 and is flagged active: no request creates a lease
    with other terms and none deactivates a lease. *)
Theorem leases_keep_checked_terms (es : list Event) :
  Forall lease_valid (leases (run es empty_db)).
Proof.
  apply (writes_keep (fun db => Forall lease_valid (leases db))
           write_keeps_valid_leases empty_db).
  - apply run_writes.
  - constructor.
Qed.

(** X6: foreign keys are not enforced by the database, yet starting from
    a new database every lease names a unit that exists and every entry
    names a lease that exists. *)
Theorem no_lease_or_entry_is_orphaned (es : list Event) :
  references_kept (run es empty_db).
Proof.
  apply (writes_keep references_kept write_keeps_references empty_db).
  - apply run_writes.
  - split; constructor.
Qed.

(** X7: the entry table only grows at its end.  From any database,
    whatever requests the server handles, the entries that were there are
    still there, unchanged and in the same order, followed by the new
    ones. *)
Theorem entries_are_only_appended (es : list Event) (db : Db) :
  exists extra, payments (run es db) = payments db ++ extra.
Proof. apply writes_append_entries, run_writes. Qed.

(** X8: a lease is never removed and nothing but its running balance ever
    changes: whatever requests the server handles, the lease with a given
    id keeps its unit, renter, start date, occupants, monthly rent, due
    day, active flag and creation time. *)
Theorem lease_terms_never_change (es : list Event) (db : Db) (id : Z) (l : Lease.t) :
  lease_of id db = Some l ->
  exists l',
    lease_of id (run es db) = Some l' /\
    Lease.property_id l' = Lease.property_id l /\
    Lease.renter_id l' = Lease.renter_id l /\
    Lease.start_date l' = Lease.start_date l /\
    Lease.occupants_count l' = Lease.occupants_count l /\
    Lease.monthly_rent l' = Lease.monthly_rent l /\
    Lease.due_day l' = Lease.due_day l /\
    Lease.is_active l' = Lease.is_active l /\
    Lease.created_at l' = Lease.created_at l.
Proof.
  intros Hl.
  destruct (writes_keep_terms db (run es db) id l (run_writes es db) Hl)
    as (l' & Hl' & Hsame).
  exists l'. split; [exact Hl' |].
  unfold same_terms in Hsame. destruct l, l'. simpl in *.
  injection Hsame as -> -> -> -> -> -> -> -> ->.
  repeat split; reflexivity.
Qed.

Lemma lease_terms_never_change_witness :
  lease_of 1 demo_db = Some (Lease.mk 1 1 "uuid-renter" (Some 1000) 1 1200 1 1200 1 1000) /\
  exists l',
    lease_of 1 (run [demo_pay 1 (Finite 700) 2000; demo_adjust 1 (Finite 50) 3000]
                    demo_db) = Some l' /\
    Lease.monthly_rent l' = 1200 /\
    Lease.renter_id l' = "uuid-renter".
Proof.
  split; [reflexivity |].
  destruct (lease_terms_never_change
              [demo_pay 1 (Finite 700) 2000; demo_adjust 1 (Finite 50) 3000]
              demo_db 1
              (Lease.mk 1 1 "uuid-renter" (Some 1000) 1 1200 1 1200 1 1000) eq_refl)
    as (l' & Hl' & _ & Hr & _ & _ & Hm & _).
  exists l'. split; [exact Hl' |]. split; [exact Hm | exact Hr].
Defined.

(** ** Creating a unit *)




Lemma demo_db_units_keyed : units_keyed demo_db.
Proof.
  split.
  - simpl. constructor; [intros H; exact H | constructor].
  - repeat constructor. simpl. lia.
Qed.


Lemma trim_start_all_space (s : string) : all_space s = true -> trim_start s = "".
Proof.
  induction s as [| c s IH]; simpl; [reflexivity |].
  intros H. apply andb_prop in H. destruct H as [Hc Hs].
  rewrite Hc. apply IH, Hs.
Qed.

Lemma trim_all_space (s : string) : all_space s = true -> trim s = "".
Proof. intros H. unfold trim. rewrite (trim_start_all_space s H). reflexivity. Qed.

(** X10: the unit route tests that the title is not empty before it trims
    it.  A title made of white space only passes the test, and the unit
    is stored with the empty title. *)
Theorem blank_title_is_stored_empty
  (sub : string) (body : PropertyBody.t) (now : Z) (db : Db)
  (title address : string) :
  has_role "landlord" sub db = true ->
  PropertyBody.title body = Some title ->
  title <> "" ->
  all_space title = true ->
  truthy_string (PropertyBody.address body) = Some address ->
  exists unit db' answer,
    post_rentals_properties (Bearer sub) body now db =
      (Resolved (mkResponse 201 answer), db') /\
    rental_properties db' = rental_properties db ++ [unit] /\
    RentalProperty.title unit = "".
Proof.
  intros Hrole Ht Hne Hsp Ha.
  assert (Htruthy : truthy_string (PropertyBody.title body) = Some title).
  { rewrite Ht. simpl. apply String.eqb_neq in Hne. rewrite Hne. reflexivity. }
  rewrite post_rentals_properties_eq, Hrole, Htruthy, Ha. cbv zeta.
  eexists. eexists. eexists.
  split; [reflexivity |]. split; [reflexivity |].
  simpl. apply trim_all_space, Hsp.
Qed.

Lemma blank_title_is_stored_empty_witness :
  has_role "landlord" "uuid-landlord" demo_db = true /\
  "   " <> "" /\
  exists unit db' answer,
    post_rentals_properties (Bearer "uuid-landlord")
      (PropertyBody.mk (Some "   ") (Some "1 Elm St") None None (Finite 900)) 5000
      demo_db =
      (Resolved (mkResponse 201 answer), db') /\
    rental_properties db' = rental_properties demo_db ++ [unit] /\
    RentalProperty.title unit = "".
Proof.
  assert (Hne : "   " <> "") by discriminate.
  split; [reflexivity |]. split; [exact Hne |].
  apply (blank_title_is_stored_empty "uuid-landlord"
           (PropertyBody.mk (Some "   ") (Some "1 Elm St") None None (Finite 900))
           5000 demo_db "   " "1 Elm St" eq_refl eq_refl Hne eq_refl eq_refl).
Defined.

(** ** The reading routes *)

Lemma requireRoleFor_eq {A : Type} (neededRole sub : string)
  (next : Promise (Reply A)) (db : Db) :
  requireRoleFor neededRole sub next db =
  if has_role neededRole sub db
  then try_catch next (fun _ => resolve (Refusal 500 "Unable to verify role.")) db
  else (Resolved (Refusal 403
          (String.append "Only " (String.append neededRole "s can do this action."))),
        db).
Proof.
  unfold requireRoleFor, has_role, try_catch, await, getUserById, query, rowToUser.
  simpl.
  destruct (find (fun u => String.eqb (User.id u) sub) (users db)) as [u |]; simpl.
  - destruct (String.eqb (or_else (User.role u) "renter") neededRole); reflexivity.
  - reflexivity.
Qed.

Lemma await_resolved {A B : Type} (m : Promise A) (k : A -> Promise B)
  (db db' : Db) (a : A) :
  m db = (Resolved a, db') -> await m k db = k a db'.
Proof. intros H. unfold await. rewrite H. reflexivity. Qed.

Lemma promise_all_reads {A B : Type} (f : A -> Promise B) (g : Db -> A -> B)
  (items : list A) (db : Db) :
  (forall x, f x db = (Resolved (g db x), db)) ->
  promise_all f items db = (Resolved (map (g db) items), db).
Proof.
  intros Hf. induction items as [| x rest IH]; simpl.
  - reflexivity.
  - unfold await. rewrite Hf, IH. reflexivity.
Qed.

Lemma get_rentals_properties_eq (sub : string) (db : Db) :
  get_rentals_properties (Bearer sub) db =
  if has_role "landlord" sub db
  then (Resolved (Answer 200
          (map (fun prop => (prop, active_lease_of (RentalProperty.id prop) db))
               (order_by_desc RentalProperty.created_at (units_of sub db)))),
        db)
  else (Resolved (Refusal 403 "Only landlords can do this action."), db).
Proof.
  unfold get_rentals_properties, requireAuthFor. rewrite requireRoleFor_eq.
  destruct (has_role "landlord" sub db); [| reflexivity].
  unfold try_catch.
  erewrite await_resolved; [| reflexivity].
  erewrite await_resolved;
    [| apply (promise_all_reads _
                (fun db prop => (prop, active_lease_of (RentalProperty.id prop) db)));
       intros prop; reflexivity].
  reflexivity.
Qed.

(** X11: the unit list of a landlord holds exactly the units the landlord
    owns, newest first, and nothing of another landlord.  The lease
    attached to a unit is a lease of that unit that is flagged active,
    the one with the highest id among them; no lease is attached exactly
    when the unit has no active lease.  Reading changes nothing. *)
Theorem unit_list_shows_own_units_with_their_active_lease (sub : string) (db : Db) :
  has_role "landlord" sub db = true ->
  exists units,
    get_rentals_properties (Bearer sub) db = (Resolved (Answer 200 units), db) /\
    Permutation (units_of sub db) (map fst units) /\
    StronglySorted (newer_first RentalProperty.created_at) (map fst units) /\
    forall rp attached, In (rp, attached) units ->
      RentalProperty.landlord_id rp = sub /\
      match attached with
      | Some (l, _) =>
        In l (leases db) /\
        Lease.property_id l = RentalProperty.id rp /\
        Lease.is_active l = 1 /\
        Forall (fun l' => Lease.id l' <= Lease.id l)
               (active_leases (RentalProperty.id rp) db)
      | None => active_leases (RentalProperty.id rp) db = []
      end.
Proof.
  intros Hrole. rewrite get_rentals_properties_eq, Hrole.
  eexists. split; [reflexivity |].
  rewrite map_map. simpl. rewrite map_id.
  split; [apply order_by_desc_perm |].
  split; [apply order_by_desc_sorted |].
  intros rp attached Hin.
  apply in_map_iff in Hin. destruct Hin as (prop & E & Hin).
  injection E as -> <-.
  eapply Permutation_in in Hin; [| apply Permutation_sym, order_by_desc_perm].
  apply filter_In in Hin. destruct Hin as [_ Hown].
  apply String.eqb_eq in Hown. split; [exact Hown |].
  unfold active_lease_of.
  destruct (first_by_desc Lease.id (active_leases (RentalProperty.id rp) db))
    as [l |] eqn:El; simpl.
  - apply first_by_desc_max in El. destruct El as [Hl Hmax].
    unfold active_leases in Hl. apply filter_In in Hl. destruct Hl as [Hl Hc].
    apply andb_prop in Hc. destruct Hc as [Hp Ha].
    apply Z.eqb_eq in Hp, Ha.
    repeat split; assumption.
  - apply first_by_desc_nil_iff in El. exact El.
Qed.

Lemma unit_list_shows_own_units_with_their_active_lease_witness :
  has_role "landlord" "uuid-landlord" demo_db = true /\
  exists units,
    get_rentals_properties (Bearer "uuid-landlord") demo_db =
      (Resolved (Answer 200 units), demo_db) /\
    Permutation (units_of "uuid-landlord" demo_db) (map fst units).
Proof.
  split; [reflexivity |].
  destruct (unit_list_shows_own_units_with_their_active_lease
              "uuid-landlord" demo_db eq_refl) as (units & H & Hp & _).
  exists units. split; [exact H | exact Hp].
Defined.

Lemma property_of_unique (rp : RentalProperty.t) (db : Db) :
  NoDup (map RentalProperty.id (rental_properties db)) ->
  In rp (rental_properties db) ->
  property_of (RentalProperty.id rp) db = Some rp.
Proof.
  unfold property_of.
  induction (rental_properties db) as [| a units IH]; intros Hnd Hin; [destruct Hin |].
  simpl in *. inversion Hnd as [| ? ? Hfresh Hrest]; subst.
  destruct Hin as [-> | Hin].
  - rewrite Z.eqb_refl. reflexivity.
  - destruct (RentalProperty.id a =? RentalProperty.id rp) eqn:E.
    + exfalso. apply Hfresh. apply Z.eqb_eq in E. rewrite E.
      apply in_map. exact Hin.
    + apply IH; assumption.
Qed.

Lemma left_join_users_not_empty (renterId : string) (db : Db) :
  left_join_users renterId db <> [].
Proof.
  unfold left_join_users.
  destruct (filter _ (users db)); simpl; discriminate.
Qed.

(** The leases in the rows of [listLeasesForLandlord]. *)
Lemma listLeasesForLandlord_leases (sub : string) (db : Db) (l : Lease.t) :
  (exists rows,
     listLeasesForLandlord sub db = (Resolved rows, db) /\
     In l (map LandlordLease.lease rows)) <->
  In l (leases db) /\
  exists rp, In rp (rental_properties db) /\
             RentalProperty.id rp = Lease.property_id l /\
             RentalProperty.landlord_id rp = sub.
Proof.
  unfold listLeasesForLandlord, query. split.
  - intros (rows & E & Hin). injection E as <-.
    apply in_map_iff in Hin. destruct Hin as (row & <- & Hin).
    eapply Permutation_in in Hin; [| apply Permutation_sym, order_by_desc_perm].
    apply in_flat_map in Hin. destruct Hin as (l0 & Hl0 & Hin).
    apply in_flat_map in Hin. destruct Hin as (rp & Hrp & Hin).
    destruct ((RentalProperty.id rp =? Lease.property_id l0)
              && String.eqb (RentalProperty.landlord_id rp) sub)%bool eqn:C;
      [| destruct Hin].
    apply in_map_iff in Hin. destruct Hin as (u & <- & _). simpl.
    apply andb_prop in C. destruct C as [C1 C2].
    apply Z.eqb_eq in C1. apply String.eqb_eq in C2.
    split; [exact Hl0 |]. exists rp. repeat split; assumption.
  - intros (Hl & rp & Hrp & Hid & Hown).
    eexists. split; [reflexivity |].
    destruct (left_join_users (Lease.renter_id l) db) as [| u us] eqn:Eu;
      [exfalso; eapply left_join_users_not_empty; exact Eu |].
    apply in_map_iff.
    eexists (LandlordLease.mk l (RentalProperty.title rp) (RentalProperty.address rp)
                              (option_map User.email u) _).
    split; [reflexivity |].
    eapply Permutation_in; [apply order_by_desc_perm |].
    apply in_flat_map. exists l. split; [exact Hl |].
    apply in_flat_map. exists rp. split; [exact Hrp |].
    rewrite Hid, Hown, Z.eqb_refl, String.eqb_refl. simpl.
    rewrite Eu. left. reflexivity.
Qed.

(** X12: with distinct unit ids, the lease list of a landlord holds
    exactly the leases whose balance the balance route lets this landlord
    adjust: the leases on units the landlord owns. *)
Theorem lease_list_is_what_the_landlord_may_adjust (sub : string) (db : Db) :
  has_role "landlord" sub db = true ->
  NoDup (map RentalProperty.id (rental_properties db)) ->
  exists rows,
    get_rentals_leases (Bearer sub) db = (Resolved (Answer 200 rows), db) /\
    forall l,
      In l (map LandlordLease.lease rows) <->
      In l (leases db) /\ owns_unit_of sub l db = true.
Proof.
  intros Hrole Hnd.
  destruct (listLeasesForLandlord sub db) as [[rows | err] db'] eqn:E;
    [| unfold listLeasesForLandlord, query in E; discriminate E].
  assert (db' = db) by (unfold listLeasesForLandlord, query in E; congruence).
  subst db'.
  exists rows. split.
  { unfold get_rentals_leases, requireAuthFor. rewrite requireRoleFor_eq, Hrole.
    unfold try_catch. erewrite await_resolved; [| exact E]. reflexivity. }
  intros l. split.
  - intros Hin.
    destruct (proj1 (listLeasesForLandlord_leases sub db l)) as (Hl & rp & Hrp & Hid & Hown).
    { exists rows. split; assumption. }
    split; [exact Hl |].
    unfold owns_unit_of. rewrite <- Hid, (property_of_unique rp db Hnd Hrp).
    apply String.eqb_eq. exact Hown.
  - intros [Hl Hown].
    unfold owns_unit_of in Hown.
    destruct (property_of (Lease.property_id l) db) as [rp |] eqn:Ep;
      [| discriminate].
    apply String.eqb_eq in Hown.
    unfold property_of in Ep. apply find_some in Ep. destruct Ep as [Hrp Hid].
    apply Z.eqb_eq in Hid.
    destruct (proj2 (listLeasesForLandlord_leases sub db l)) as (rows' & E' & Hin).
    { split; [exact Hl |]. exists rp. repeat split; assumption. }
    rewrite E in E'. injection E' as <-. exact Hin.
Qed.

Lemma lease_list_is_what_the_landlord_may_adjust_witness :
  has_role "landlord" "uuid-landlord" demo_db = true /\
  NoDup (map RentalProperty.id (rental_properties demo_db)) /\
  exists rows,
    get_rentals_leases (Bearer "uuid-landlord") demo_db =
      (Resolved (Answer 200 rows), demo_db) /\
    In (Lease.mk 1 1 "uuid-renter" (Some 1000) 1 1200 1 1200 1 1000)
       (map LandlordLease.lease rows).
Proof.
  split; [reflexivity |]. split; [apply demo_db_units_keyed |].
  destruct (lease_list_is_what_the_landlord_may_adjust
              "uuid-landlord" demo_db eq_refl (proj1 demo_db_units_keyed))
    as (rows & H & Hiff).
  exists rows. split; [exact H |].
  apply Hiff. split; [left; reflexivity | reflexivity].
Defined.

(** The leases in the rows of [listLeasesForRenter], where every lease
    names an existing unit. *)
Lemma listLeasesForRenter_leases (sub : string) (db : Db) (l : Lease.t) :
  references_kept db ->
  (exists rows,
     listLeasesForRenter sub db = (Resolved rows, db) /\
     In l (map RenterLease.lease rows)) <->
  In l (leases_of_renter sub db).
Proof.
  intros [Href _]. unfold listLeasesForRenter, query, leases_of_renter. split.
  - intros (rows & E & Hin). injection E as <-.
    apply in_map_iff in Hin. destruct Hin as (row & <- & Hin).
    eapply Permutation_in in Hin; [| apply Permutation_sym, order_by_desc_perm].
    apply in_flat_map in Hin. destruct Hin as (l0 & Hl0 & Hin).
    destruct (String.eqb (Lease.renter_id l0) sub) eqn:C; [| destruct Hin].
    apply in_map_iff in Hin. destruct Hin as (rp & <- & _). simpl.
    apply filter_In. split; assumption.
  - intros Hin. apply filter_In in Hin. destruct Hin as [Hl Hr].
    rewrite Forall_forall in Href. specialize (Href l Hl).
    destruct (property_of (Lease.property_id l) db) as [rp |] eqn:Ep;
      [| contradiction].
    unfold property_of in Ep. apply find_some in Ep. destruct Ep as [Hrp Hid].
    eexists. split; [reflexivity |].
    apply in_map_iff.
    exists (RenterLease.mk l (RentalProperty.title rp) (RentalProperty.address rp)).
    split; [reflexivity |].
    eapply Permutation_in; [apply order_by_desc_perm |].
    apply in_flat_map. exists l. split; [exact Hl |].
    rewrite Hr. apply in_map_iff. exists rp.
    split; [reflexivity | apply filter_In; split; assumption].
Qed.

(** X13: where every lease names an existing unit, a renter without a
    lease is answered 404; a renter with leases is answered 200 with one
    of their leases, the one created last, and with all entries of that
    lease and no other, newest first.  Reading changes nothing. *)
Theorem renter_sees_their_latest_lease (sub : string) (db : Db) :
  has_role "renter" sub db = true ->
  references_kept db ->
  (leases_of_renter sub db = [] /\
   get_rentals_my_lease (Bearer sub) db =
   (Resolved (Refusal 404 "No lease found for this renter."), db)) \/
  (exists row listed,
     get_rentals_my_lease (Bearer sub) db =
       (Resolved (Answer 200 (row, listed)), db) /\
     In (RenterLease.lease row) (leases_of_renter sub db) /\
     Forall (fun l => Lease.created_at l <= Lease.created_at (RenterLease.lease row))
            (leases_of_renter sub db) /\
     Permutation (entries_of (Lease.id (RenterLease.lease row)) db) listed /\
     StronglySorted (newer_first Payment.paid_at) listed).
Proof.
  intros Hrole Href.
  destruct (listLeasesForRenter sub db) as [[rows | err] db'] eqn:E;
    [| unfold listLeasesForRenter, query in E; discriminate E].
  assert (db' = db) by (unfold listLeasesForRenter, query in E; congruence).
  subst db'.
  assert (Hget : get_rentals_my_lease (Bearer sub) db =
                 match hd_error rows with
                 | None => (Resolved (Refusal 404 "No lease found for this renter."), db)
                 | Some row =>
                   (Resolved (Answer 200
                      (row, order_by_desc Payment.paid_at
                              (entries_of (Lease.id (RenterLease.lease row)) db))), db)
                 end).
  { unfold get_rentals_my_lease, requireAuthFor. rewrite requireRoleFor_eq, Hrole.
    unfold try_catch. erewrite await_resolved; [| exact E].
    destruct (hd_error rows); reflexivity. }
  rewrite Hget.
  destruct rows as [| row rest] eqn:Erows; simpl.
  - left. split; [| reflexivity].
    destruct (leases_of_renter sub db) as [| l ls] eqn:El; [reflexivity |].
    exfalso.
    destruct (proj2 (listLeasesForRenter_leases sub db l Href)) as (rows' & E' & Hin).
    { rewrite El. left. reflexivity. }
    rewrite E in E'. injection E' as <-. destruct Hin.
  - right. exists row. eexists. split; [reflexivity |].
    split.
    { apply (listLeasesForRenter_leases sub db _ Href).
      exists (row :: rest). split; [exact E | left; reflexivity]. }
    split.
    { rewrite Forall_forall. intros l Hl.
      destruct (proj2 (listLeasesForRenter_leases sub db l Href) Hl)
        as (rows' & E' & Hin).
      rewrite E in E'. injection E' as <-.
      apply in_map_iff in Hin. destruct Hin as (row' & <- & Hin).
      unfold listLeasesForRenter, query in E. injection E as E.
      pose proof (order_by_desc_sorted
                    (fun r => Lease.created_at (RenterLease.lease r))
                    (flat_map
                       (fun l =>
                          if String.eqb (Lease.renter_id l) sub
                          then map (fun rp => RenterLease.mk l (RentalProperty.title rp)
                                                (RentalProperty.address rp))
                                   (filter (fun rp => RentalProperty.id rp
                                                      =? Lease.property_id l)
                                           (rental_properties db))
                          else [])
                       (leases db))) as Hsorted.
      rewrite E in Hsorted. inversion Hsorted as [| ? ? _ Hall]; subst.
      destruct Hin as [<- | Hin]; [lia |].
      rewrite Forall_forall in Hall. apply (Hall row' Hin). }
    split; [apply order_by_desc_perm | apply order_by_desc_sorted].
Qed.

Lemma demo_db_references_kept : references_kept demo_db.
Proof.
  split.
  - constructor; [simpl; discriminate | constructor].
  - constructor.
Qed.

Lemma renter_sees_their_latest_lease_witness :
  has_role "renter" "uuid-renter" demo_db = true /\
  references_kept demo_db /\
  exists row listed,
    get_rentals_my_lease (Bearer "uuid-renter") demo_db =
      (Resolved (Answer 200 (row, listed)), demo_db) /\
    In (RenterLease.lease row) (leases_of_renter "uuid-renter" demo_db).
Proof.
  split; [reflexivity |]. split; [apply demo_db_references_kept |].
  destruct (renter_sees_their_latest_lease "uuid-renter" demo_db eq_refl
              demo_db_references_kept)
    as [[Hnone _] | (row & listed & H & Hin & _)].
  - discriminate Hnone.
  - exists row, listed. split; [exact H | exact Hin].
Defined.

(** X14: the unit card of the landlord portal falls back on the lease
    list when a unit comes without an active lease.  Where every lease is
    flagged active, as in every state the server reaches, the fallback
    finds nothing: the card shows the attached lease or none. *)
Theorem card_lease_is_the_attached_lease (sub : string) (db : Db) :
  has_role "landlord" sub db = true ->
  Forall (fun l => Lease.is_active l = 1) (leases db) ->
  exists units rows,
    get_rentals_properties (Bearer sub) db = (Resolved (Answer 200 units), db) /\
    get_rentals_leases (Bearer sub) db = (Resolved (Answer 200 rows), db) /\
    forall u, In u units ->
      LandlordPortal.card_lease (map LandlordLease.lease rows) (as_portal_property u) =
      LandlordPortal.activeLease (as_portal_property u).
Proof.
  intros Hrole Hactive.
  destruct (listLeasesForLandlord sub db) as [[rows | err] db'] eqn:E;
    [| unfold listLeasesForLandlord, query in E; discriminate E].
  assert (db' = db) by (unfold listLeasesForLandlord, query in E; congruence).
  subst db'.
  eexists. exists rows.
  split; [rewrite get_rentals_properties_eq, Hrole; reflexivity |].
  split.
  { unfold get_rentals_leases, requireAuthFor. rewrite requireRoleFor_eq, Hrole.
    unfold try_catch. erewrite await_resolved; [| exact E]. reflexivity. }
  intros u Hu. apply in_map_iff in Hu. destruct Hu as (prop & <- & _).
  unfold LandlordPortal.card_lease, as_portal_property. simpl.
  unfold active_lease_of.
  destruct (first_by_desc Lease.id (active_leases (RentalProperty.id prop) db))
    as [l |] eqn:El; simpl; [reflexivity |].
  apply first_by_desc_nil_iff in El.
  apply find_none_when_all_fail. rewrite Forall_forall. intros l Hl.
  destruct (proj1 (listLeasesForLandlord_leases sub db l)) as (Hin & _).
  { exists rows. split; [exact E | exact Hl]. }
  destruct (Lease.property_id l =? RentalProperty.id prop) eqn:C; [| reflexivity].
  exfalso.
  assert (Hact : In l (active_leases (RentalProperty.id prop) db)).
  { unfold active_leases. apply filter_In. split; [exact Hin |].
    rewrite C. rewrite Forall_forall in Hactive. rewrite (Hactive l Hin).
    reflexivity. }
  rewrite El in Hact. destruct Hact.
Qed.

Lemma card_lease_is_the_attached_lease_witness :
  has_role "landlord" "uuid-landlord" demo_db = true /\
  Forall (fun l => Lease.is_active l = 1) (leases demo_db) /\
  exists units rows,
    get_rentals_properties (Bearer "uuid-landlord") demo_db =
      (Resolved (Answer 200 units), demo_db) /\
    get_rentals_leases (Bearer "uuid-landlord") demo_db =
      (Resolved (Answer 200 rows), demo_db).
Proof.
  assert (Hact : Forall (fun l => Lease.is_active l = 1) (leases demo_db))
    by (repeat constructor).
  split; [reflexivity |]. split; [exact Hact |].
  destruct (card_lease_is_the_attached_lease "uuid-landlord" demo_db eq_refl Hact)
    as (units & rows & H1 & H2 & _).
  exists units, rows. split; [exact H1 | exact H2].
Defined.

(** * Further properties of the portals *)

(** ** Ordinals of the due day *)





(** ** Paid status and tiles *)

(** X16: in the renter portal the pill and the overdue nudge never
    contradict each other: for every balance and every monthly rent, also
    a rent of 0, the balance is overdue exactly when the month is not
    shown as paid. *)
Theorem overdue_is_the_opposite_of_paid (profile : RenterPortal.Profile) :
  RenterPortal.balanceOverdue profile = negb (RenterPortal.paidThisMonth profile).
Proof.
  unfold RenterPortal.balanceOverdue, RenterPortal.paidThisMonth. cbv zeta.
  destruct (RenterPortal.monthlyRent profile =? 0); apply Z.ltb_antisym.
Qed.

(** X17: the three tiles of the landlord portal are ordered: the count of
    paid units is at most the count of occupied units, which is at most
    the count of units. *)
Theorem tiles_are_ordered (properties : list LandlordPortal.Property) :
  (LandlordPortal.stats_paid properties <= LandlordStats.occupied properties)%nat /\
  (LandlordStats.occupied properties <= LandlordStats.total properties)%nat.
Proof.
  unfold LandlordPortal.stats_paid, LandlordStats.occupied, LandlordStats.total.
  induction properties as [| p ps [IH1 IH2]]; simpl; [split; apply Nat.le_refl |].
  destruct (LandlordPortal.activeLease p) as [lease |]; simpl.
  - destruct (Lease.current_balance lease <=? 0); simpl; split; lia.
  - split; lia.
Qed.

(** ** The suggested payment *)

(** X18: the payment form is filled with the balance when it is above 0.
    Sent by the renter of the lease, that amount is accepted, brings the
    balance to exactly 0, and the renter portal then shows the month as
    paid and not overdue.  With a balance of 0 or below the form is
    filled with 0, which the payment route refuses. *)
Theorem suggested_payment_settles_the_balance
  (sub : string) (now : Z) (db : Db) (lease : Lease.t)
  (prev : RenterPortal.Profile) :
  has_role "renter" sub db = true ->
  lease_of (Lease.id lease) db = Some lease ->
  Lease.renter_id lease = sub ->
  0 < Lease.monthly_rent lease ->
  let profile := RenterPortal.load_profile prev lease in
  let request := PaymentBody.mk (Lease.id lease) (Finite (suggestedPayment profile)) in
  (0 < Lease.current_balance lease ->
   exists payment updated listed db',
     post_rentals_payments (Bearer sub) request now db =
       (Resolved (mkResponse 201 (JPayment payment (Some updated) listed)), db') /\
     Lease.current_balance updated = 0 /\
     RenterPortal.paidThisMonth (RenterPortal.paid_profile profile updated) = true /\
     RenterPortal.balanceOverdue (RenterPortal.paid_profile profile updated) = false) /\
  (Lease.current_balance lease <= 0 ->
   post_rentals_payments (Bearer sub) request now db =
   (Resolved (mkResponse 400 (JError "Payment amount must be positive.")), db)).
Proof.
  intros Hrole Hlease Hrenter Hrent. cbv zeta.
  assert (Hnz : (Lease.monthly_rent lease =? 0) = false) by (apply Z.eqb_neq; lia).
  unfold suggestedPayment, RenterPortal.load_profile. cbv zeta.
  cbn [RenterPortal.balance]. rewrite Hnz.
  split.
  - intros Hpos.
    replace (0 <? Lease.current_balance lease) with true
      by (symmetry; apply Z.ltb_lt; lia).
    rewrite post_rentals_payments_eq, Hrole. cbv zeta.
    cbn [PaymentBody.amount PaymentBody.leaseId].
    replace (Lease.current_balance lease <=? 0) with false
      by (symmetry; apply Z.leb_gt; lia).
    rewrite Hlease, Hrenter, String.eqb_refl.
    unfold db_after_payment.
    rewrite lease_of_add_to_balance, Z.eqb_refl, lease_of_insert_payment, Hlease.
    cbn [option_map].
    eexists. eexists. eexists. eexists. split; [reflexivity |].
    unfold RenterPortal.paidThisMonth, RenterPortal.balanceOverdue,
      RenterPortal.paid_profile. cbv zeta.
    cbn [Lease.current_balance Lease.set_current_balance Lease.monthly_rent
         RenterPortal.balance RenterPortal.monthlyRent].
    rewrite Hnz.
    replace (Lease.current_balance lease + - Lease.current_balance lease) with 0
      by lia.
    split; [reflexivity |]. split.
    + apply Z.leb_le. lia.
    + apply Z.ltb_ge. lia.
  - intros Hneg.
    replace (0 <? Lease.current_balance lease) with false
      by (symmetry; apply Z.ltb_ge; lia).
    rewrite post_rentals_payments_eq, Hrole. reflexivity.
Qed.

Lemma suggested_payment_settles_the_balance_witness :
  has_role "renter" "uuid-renter" demo_db = true /\
  exists payment updated listed db',
    post_rentals_payments (Bearer "uuid-renter")
      (PaymentBody.mk 1 (Finite 1200)) 2000 demo_db =
      (Resolved (mkResponse 201 (JPayment payment (Some updated) listed)), db') /\
    Lease.current_balance updated = 0.
Proof.
  split; [reflexivity |].
  destruct (suggested_payment_settles_the_balance
              "uuid-renter" 2000 demo_db
              (Lease.mk 1 1 "uuid-renter" (Some 1000) 1 1200 1 1200 1 1000)
              RenterPortal.demoRenterProfile eq_refl eq_refl eq_refl eq_refl)
    as [Hpay _].
  destruct (Hpay eq_refl)
    as (payment & updated & listed & db' & H & Hb & _).
  exists payment, updated, listed, db'. split; [exact H | exact Hb].
Defined.

(** ** The monthly charge *)



(** * Properties of the favorites *)

Section FavoritesFacts.
Context {num : Type} (ops : NumberOps num).

Lemma shown_is_js_or (a b : JsValue num) : js_or ops a b = shown ops a b.
Proof. reflexivity. Qed.

(** A column that holds [field || null] is never what is shown. *)
Lemma column_is_never_shown (field default : JsValue num) :
  js_or ops field (js_or ops (js_or ops field JsNull) default) =
  shown ops field default.
Proof.
  unfold js_or, shown. destruct (truthy ops field) eqn:E; [reflexivity |].
  simpl. reflexivity.
Qed.

Lemma favorite_of_new_row (listing : Listing.t num) (id : Z) :
  truthy ops (Listing.id listing) = true ->
  favorite_of_row ops (new_property_row ops listing id) =
  favorite_of_listing ops listing.
Proof.
  intros Hid. unfold favorite_of_row, favorite_of_listing, new_property_row.
  cbv zeta. cbn [Property.raw_json Property.mls_number Property.list_price
                 Property.address_street_name Property.bedrooms
                 Property.bathrooms_total Property.sqft Property.latitude
                 Property.longitude].
  rewrite !column_is_never_shown.
  f_equal.
  - unfold js_or. rewrite Hid. reflexivity.
  - unfold js_or, shown.
    destruct (truthy ops (Listing.address listing)) eqn:E; [reflexivity |].
    simpl. reflexivity.
  - unfold js_or, shown.
    destruct (truthy ops (Listing.latitude listing)); reflexivity.
  - unfold js_or, shown.
    destruct (truthy ops (Listing.longitude listing)); reflexivity.
Qed.

Lemma upsert_existing (listing : Listing.t num) (db : FavDb num)
  (p : Property.t num) :
  truthy ops (Listing.id listing) = true ->
  property_by_mls (js_String ops (Listing.id listing)) db = Some p ->
  upsertPropertyFromListing ops (Some listing) db = (Some (Property.id p), db).
Proof.
  intros Hid Hp. unfold upsertPropertyFromListing. rewrite Hid. simpl.
  rewrite Hp. reflexivity.
Qed.

Lemma property_by_mls_new (listing : Listing.t num) (db : FavDb num) :
  property_by_mls (js_String ops (Listing.id listing)) db = None ->
  property_by_mls (js_String ops (Listing.id listing))
                  (with_new_property ops listing db) =
  Some (new_property_row ops listing (seq_properties db + 1)).
Proof.
  intros Hnone. unfold property_by_mls, with_new_property in *. simpl.
  rewrite find_app_none by exact Hnone.
  simpl. rewrite String.eqb_refl. reflexivity.
Qed.

Lemma upsert_new (listing : Listing.t num) (db : FavDb num) :
  truthy ops (Listing.id listing) = true ->
  property_by_mls (js_String ops (Listing.id listing)) db = None ->
  0 <= seq_properties db ->
  upsertPropertyFromListing ops (Some listing) db =
  (Some (seq_properties db + 1), with_new_property ops listing db).
Proof.
  intros Hid Hnone Hseq. unfold upsertPropertyFromListing. rewrite Hid. simpl.
  rewrite Hnone.
  change (mkFavDb _ _ _ _) with (with_new_property ops listing db).
  rewrite (property_by_mls_new listing db Hnone). simpl.
  replace (seq_properties db + 1 =? 0) with false
    by (symmetry; apply Z.eqb_neq; lia).
  reflexivity.
Qed.

(** The database after [addFavorite], by whether the listing is stored. *)
Lemma addFavorite_eq (userId : string) (listing : Listing.t num) (now : Z)
  (db : FavDb num) :
  fav_wf db ->
  truthy ops (Listing.id listing) = true ->
  snd (addFavorite ops userId (Some listing) now db) =
  match property_by_mls (js_String ops (Listing.id listing)) db with
  | Some p => insert_or_ignore_saved userId (Property.id p) now db
  | None => insert_or_ignore_saved userId (seq_properties db + 1) now
              (with_new_property ops listing db)
  end.
Proof.
  intros (Hseq & Hids & _) Hid. unfold addFavorite.
  destruct (property_by_mls (js_String ops (Listing.id listing)) db) as [p |] eqn:Hp.
  - rewrite (upsert_existing listing db p Hid Hp).
    assert (Hpos : 0 < Property.id p).
    { unfold property_by_mls in Hp. apply find_some in Hp. destruct Hp as [Hin _].
      rewrite Forall_forall in Hids. apply (Hids p Hin). }
    replace (Property.id p =? 0) with false by (symmetry; apply Z.eqb_neq; lia).
    reflexivity.
  - rewrite (upsert_new listing db Hid Hp Hseq).
    replace (seq_properties db + 1 =? 0) with false
      by (symmetry; apply Z.eqb_neq; lia).
    reflexivity.
Qed.

Lemma insert_or_ignore_links (userId : string) (propertyId now : Z) (db : FavDb num) :
  existsb (links userId propertyId)
          (user_saved_properties (insert_or_ignore_saved userId propertyId now db))
  = true.
Proof.
  unfold insert_or_ignore_saved.
  destruct (existsb _ (user_saved_properties db)) eqn:E.
  - exact E.
  - simpl. rewrite existsb_app. simpl. unfold links at 2. simpl.
    rewrite String.eqb_refl, Z.eqb_refl. simpl. apply orb_true_r.
Qed.


Lemma property_by_mls_insert_or_ignore (mls userId : string) (propertyId now : Z)
  (db : FavDb num) :
  property_by_mls mls (insert_or_ignore_saved userId propertyId now db) =
  property_by_mls mls db.
Proof.
  unfold insert_or_ignore_saved, property_by_mls.
  destruct (existsb _ (user_saved_properties db)); reflexivity.
Qed.

Lemma insert_or_ignore_wf (userId : string) (propertyId now : Z) (db : FavDb num) :
  propertyId <= seq_properties db ->
  fav_wf db -> fav_wf (insert_or_ignore_saved userId propertyId now db).
Proof.
  intros Hp (Hseq & Hids & Hsaved). unfold insert_or_ignore_saved.
  destruct (existsb _ (user_saved_properties db)); [repeat split; assumption |].
  repeat split; simpl; try assumption.
  apply Forall_app. split; [exact Hsaved |].
  constructor; [exact Hp | constructor].
Qed.

Lemma with_new_property_wf (listing : Listing.t num) (db : FavDb num) :
  fav_wf db -> fav_wf (with_new_property ops listing db).
Proof.
  intros (Hseq & Hids & Hsaved). unfold with_new_property.
  repeat split; simpl.
  - lia.
  - apply Forall_app. split.
    + eapply Forall_impl; [| exact Hids]. simpl. intros; lia.
    + constructor; [simpl; lia | constructor].
  - eapply Forall_impl; [| exact Hsaved]. simpl. intros; lia.
Qed.

Lemma addFavorite_wf (userId : string) (listing : Listing.t num) (now : Z)
  (db : FavDb num) :
  fav_wf db ->
  truthy ops (Listing.id listing) = true ->
  fav_wf (snd (addFavorite ops userId (Some listing) now db)).
Proof.
  intros W Hid. rewrite (addFavorite_eq userId listing now db W Hid).
  destruct (property_by_mls (js_String ops (Listing.id listing)) db) as [p |] eqn:Hp.
  - apply insert_or_ignore_wf; [| exact W].
    unfold property_by_mls in Hp. apply find_some in Hp. destruct Hp as [Hin _].
    destruct W as (_ & Hids & _). rewrite Forall_forall in Hids.
    apply (Hids p Hin).
  - apply insert_or_ignore_wf; [simpl; lia | apply with_new_property_wf, W].
Qed.

End FavoritesFacts.

Section FavoritesTheorems.
Context {num : Type} (ops : NumberOps num).

Lemma saved_row_is_listed (userId : string) (db : FavDb num) (s : Saved.t)
  (p : Property.t num) :
  In s (user_saved_properties db) -> Saved.user_id s = userId ->
  In p (properties db) -> Property.id p = Saved.property_id s ->
  In (favorite_of_row ops p) (getFavoritesForUser ops userId db).
Proof.
  intros Hs Hu Hp Hid. unfold getFavoritesForUser.
  apply in_map_iff. exists (s, p). split; [reflexivity |].
  eapply Permutation_in; [apply order_by_desc_perm |].
  unfold saved_rows. apply in_flat_map. exists s. split; [exact Hs |].
  rewrite Hu, String.eqb_refl. apply in_map.
  apply filter_In. split; [exact Hp |]. apply Z.eqb_eq. exact Hid.
Qed.

Lemma linked_row_exists (userId : string) (propertyId : Z) (rows : list Saved.t) :
  existsb (links userId propertyId) rows = true ->
  exists s, In s rows /\ Saved.user_id s = userId /\ Saved.property_id s = propertyId.
Proof.
  intros H. apply existsb_exists in H. destruct H as (s & Hin & Hl).
  unfold links in Hl. apply andb_prop in Hl. destruct Hl as [Hu Hp].
  apply String.eqb_eq in Hu. apply Z.eqb_eq in Hp.
  exists s. repeat split; assumption.
Qed.

(** X20: a listing that is not stored yet, once saved, is in the
    answer of the save, shown from the listing alone: each field as sent
    when it is truthy, else its default ("Saved Property", 0, "--", null
    for a coordinate, an empty image list).  A latitude or longitude of 0
    is shown as null. *)
Theorem saved_listing_is_listed_with_defaults
  (sub : string) (listing : Listing.t num) (now : Z) (db : FavDb num) :
  fav_wf db ->
  truthy ops (Listing.id listing) = true ->
  property_by_mls (js_String ops (Listing.id listing)) db = None ->
  exists favorites db',
    post_favorites ops (Bearer sub) (Some listing) now db =
      (FavList 201 favorites, db') /\
    In (favorite_of_listing ops listing) favorites.
Proof.
  intros W Hid Hnone.
  unfold post_favorites, fav_requireAuth. rewrite Hid. cbn [negb]. cbv zeta.
  eexists. eexists. split; [reflexivity |].
  rewrite (addFavorite_eq ops sub listing now db W Hid), Hnone.
  set (db1 := with_new_property ops listing db).
  destruct (linked_row_exists sub (seq_properties db + 1) _
              (insert_or_ignore_links sub (seq_properties db + 1) now db1))
    as (s & Hs & Hu & Hp).
  rewrite <- (favorite_of_new_row ops listing (seq_properties db + 1) Hid).
  apply (saved_row_is_listed sub _ s); try assumption.
  - unfold insert_or_ignore_saved.
    destruct (existsb _ (user_saved_properties db1)); simpl;
      apply in_or_app; right; left; reflexivity.
  - rewrite Hp. reflexivity.
Qed.


(** X22: once a listing is stored, saving a listing with the same id
    never changes the stored row.  The user who saves it gets the listing
    as it was stored first, whatever the later request carries. *)
Theorem stored_listing_is_never_updated
  (sub : string) (listing : Listing.t num) (now : Z) (db : FavDb num)
  (stored : Property.t num) :
  fav_wf db ->
  truthy ops (Listing.id listing) = true ->
  property_by_mls (js_String ops (Listing.id listing)) db = Some stored ->
  exists favorites db',
    post_favorites ops (Bearer sub) (Some listing) now db =
      (FavList 201 favorites, db') /\
    properties db' = properties db /\
    In (favorite_of_row ops stored) favorites.
Proof.
  intros W Hid Hstored.
  unfold post_favorites, fav_requireAuth. rewrite Hid. cbn [negb]. cbv zeta.
  eexists. eexists. split; [reflexivity |].
  rewrite (addFavorite_eq ops sub listing now db W Hid), Hstored.
  assert (Hprops : properties (insert_or_ignore_saved sub (Property.id stored) now db)
                   = properties db).
  { unfold insert_or_ignore_saved.
    destruct (existsb _ (user_saved_properties db)); reflexivity. }
  split; [exact Hprops |].
  destruct (linked_row_exists sub (Property.id stored) _
              (insert_or_ignore_links sub (Property.id stored) now db))
    as (s & Hs & Hu & Hp).
  apply (saved_row_is_listed sub _ s); try assumption.
  - rewrite Hprops. unfold property_by_mls in Hstored.
    apply find_some in Hstored. apply Hstored.
  - symmetry. exact Hp.
Qed.

(** X23: removing a listing right after saving it leaves the saved rows
    as they were before the save, without the row of this user for this
    listing: the rows of other users and of other listings are
    untouched. *)
Theorem delete_after_save_removes_the_favorite
  (sub : string) (listing : Listing.t num) (now : Z) (db : FavDb num) :
  fav_wf db ->
  truthy ops (Listing.id listing) = true ->
  js_String ops (Listing.id listing) <> "" ->
  let db1 := snd (post_favorites ops (Bearer sub) (Some listing) now db) in
  let db2 := snd (delete_favorites ops (Bearer sub)
                    (js_String ops (Listing.id listing)) db1) in
  exists stored,
    property_by_mls (js_String ops (Listing.id listing)) db1 = Some stored /\
    user_saved_properties db2 =
      filter (fun s => negb (links sub (Property.id stored) s))
             (user_saved_properties db) /\
    Forall (fun s => links sub (Property.id stored) s = false)
           (user_saved_properties db2).
Proof.
  intros W Hid Hmls. cbv zeta.
  apply String.eqb_neq in Hmls.
  unfold post_favorites, delete_favorites, fav_requireAuth.
  rewrite Hid, Hmls. cbn [negb snd]. cbv zeta.
  rewrite (addFavorite_eq ops sub listing now db W Hid).
  assert (Hfilter : forall pid rows,
             Forall (fun s => links sub pid s = false)
                    (filter (fun s => negb (links sub pid s)) rows)).
  { intros pid rows. rewrite Forall_forall. intros s Hin.
    apply filter_In in Hin. destruct Hin as [_ H].
    apply negb_true_iff in H. exact H. }
  destruct (property_by_mls (js_String ops (Listing.id listing)) db)
    as [p |] eqn:Hp.
  - exists p. rewrite property_by_mls_insert_or_ignore, Hp.
    split; [reflexivity |].
    unfold removeFavorite, insert_or_ignore_saved. cbn [user_saved_properties].
    fold (links sub (Property.id p)).
    destruct (existsb (links sub (Property.id p)) (user_saved_properties db)) eqn:E;
      cbn [user_saved_properties].
    + split; [reflexivity | apply Hfilter].
    + rewrite filter_app. cbn [filter]. unfold links at 2.
      cbn [Saved.user_id Saved.property_id].
      rewrite String.eqb_refl, Z.eqb_refl. cbn [andb negb].
      rewrite app_nil_r. split; [reflexivity | apply Hfilter].
  - exists (new_property_row ops listing (seq_properties db + 1)).
    rewrite property_by_mls_insert_or_ignore.
    rewrite (property_by_mls_new ops listing db Hp).
    split; [reflexivity |].
    unfold removeFavorite, insert_or_ignore_saved. cbn [user_saved_properties].
    cbn [Property.id new_property_row].
    fold (links sub (seq_properties db + 1)).
    destruct (existsb (links sub (seq_properties db + 1))
                      (user_saved_properties (with_new_property ops listing db))) eqn:E;
      cbn [user_saved_properties with_new_property].
    + split; [reflexivity | apply Hfilter].
    + rewrite filter_app. cbn [filter]. unfold links at 2.
      cbn [Saved.user_id Saved.property_id].
      rewrite String.eqb_refl, Z.eqb_refl. cbn [andb negb].
      rewrite app_nil_r. split; [reflexivity | apply Hfilter].
Qed.

End FavoritesTheorems.

Lemma empty_favdb_wf : fav_wf empty_favdb.
Proof. repeat split; try constructor. simpl. lia. Qed.

Lemma saved_favdb_wf : fav_wf saved_favdb.
Proof.
  apply (addFavorite_wf whole_numbers "ann" demo_listing 100 empty_favdb).
  - apply empty_favdb_wf.
  - reflexivity.
Qed.

Lemma saved_listing_is_listed_with_defaults_witness :
  fav_wf empty_favdb /\
  exists favorites db',
    post_favorites whole_numbers (Bearer "ann") (Some demo_listing) 100 empty_favdb =
      (FavList 201 favorites, db') /\
    In (Favorite.mk (JsStr "X100") (JsStr "12 Bay St") (JsNum 450000) (JsNum 3)
                    (JsStr "--") (JsStr "--") JsNull JsNull
                    (JsStr "Saved from map/listings.") (JsArr ["a.png"]))
       favorites.
Proof.
  split; [apply empty_favdb_wf |].
  apply (saved_listing_is_listed_with_defaults whole_numbers "ann" demo_listing 100
           empty_favdb empty_favdb_wf eq_refl eq_refl).
Defined.


Lemma stored_listing_is_never_updated_witness :
  fav_wf saved_favdb /\
  exists favorites db',
    post_favorites whole_numbers (Bearer "bob") (Some repriced_listing) 300 saved_favdb =
      (FavList 201 favorites, db') /\
    properties db' = properties saved_favdb /\
    In (favorite_of_listing whole_numbers demo_listing) favorites.
Proof.
  split; [apply saved_favdb_wf |].
  apply (stored_listing_is_never_updated whole_numbers "bob" repriced_listing 300
           saved_favdb (new_property_row whole_numbers demo_listing 1)
           saved_favdb_wf eq_refl eq_refl).
Defined.

Lemma delete_after_save_removes_the_favorite_witness :
  fav_wf saved_favdb /\
  "X100" <> "" /\
  user_saved_properties
    (snd (delete_favorites whole_numbers (Bearer "bob") "X100"
            (snd (post_favorites whole_numbers (Bearer "bob") (Some demo_listing) 300
                                 saved_favdb)))) =
  user_saved_properties saved_favdb.
Proof.
  assert (Hne : "X100" <> "") by discriminate.
  split; [apply saved_favdb_wf |]. split; [exact Hne |].
  destruct (delete_after_save_removes_the_favorite whole_numbers "bob" demo_listing 300
              saved_favdb saved_favdb_wf eq_refl Hne) as (stored & Hs & H & _).
  injection Hs as <-. exact H.
Defined.

Section FavoritesIsolation.
Context {num : Type} (ops : NumberOps num).

Lemma saved_rows_insert_or_ignore (other userId : string) (propertyId now : Z)
  (db : FavDb num) :
  other <> userId ->
  saved_rows other (insert_or_ignore_saved userId propertyId now db) =
  saved_rows other db.
Proof.
  intros Hne. unfold insert_or_ignore_saved.
  destruct (existsb _ (user_saved_properties db)); [reflexivity |].
  unfold saved_rows. simpl. rewrite flat_map_app. simpl.
  replace (String.eqb userId other) with false
    by (symmetry; apply String.eqb_neq; congruence).
  simpl. apply app_nil_r.
Qed.

Lemma saved_rows_with_new_property (other : string) (listing : Listing.t num)
  (db : FavDb num) :
  fav_wf db ->
  saved_rows other (with_new_property ops listing db) = saved_rows other db.
Proof.
  intros (_ & _ & Hsaved). unfold saved_rows, with_new_property. simpl.
  induction (user_saved_properties db) as [| s rows IH]; simpl; [reflexivity |].
  inversion Hsaved as [| ? ? Hs Hrows]; subst.
  rewrite (IH Hrows). f_equal.
  destruct (String.eqb (Saved.user_id s) other); [| reflexivity].
  rewrite filter_app. simpl.
  replace (seq_properties db + 1 =? Saved.property_id s) with false
    by (symmetry; apply Z.eqb_neq; lia).
  rewrite app_nil_r. reflexivity.
Qed.

Lemma saved_rows_removeFavorite (other userId : string) (propertyId : Z)
  (db : FavDb num) :
  other <> userId ->
  saved_rows other (removeFavorite userId propertyId db) = saved_rows other db.
Proof.
  intros Hne. unfold saved_rows, removeFavorite. simpl.
  induction (user_saved_properties db) as [| s rows IH]; simpl; [reflexivity |].
  destruct (String.eqb (Saved.user_id s) userId) eqn:Eu; simpl.
  - apply String.eqb_eq in Eu.
    replace (String.eqb (Saved.user_id s) other) with false
      by (symmetry; apply String.eqb_neq; congruence).
    destruct (Saved.property_id s =? propertyId); simpl.
    + exact IH.
    + replace (String.eqb (Saved.user_id s) other) with false
        by (symmetry; apply String.eqb_neq; congruence).
      simpl. exact IH.
  - rewrite IH. reflexivity.
Qed.

(** X24: the favorites of a user depend on that user's requests only.
    Whatever another user saves or removes, also a listing this user has
    saved, the list of this user stays the same. *)
Theorem favorites_of_other_users_are_untouched
  (sub other : string) (db : FavDb num) :
  fav_wf db ->
  other <> sub ->
  (forall listing now,
     getFavoritesForUser ops other
       (snd (post_favorites ops (Bearer sub) listing now db)) =
     getFavoritesForUser ops other db) /\
  (forall listingId,
     getFavoritesForUser ops other
       (snd (delete_favorites ops (Bearer sub) listingId db)) =
     getFavoritesForUser ops other db).
Proof.
  intros W Hne. split.
  - intros listing now. unfold post_favorites, fav_requireAuth.
    destruct listing as [l |]; [| reflexivity].
    destruct (truthy ops (Listing.id l)) eqn:Hid; [| reflexivity].
    cbn [negb snd]. cbv zeta.
    rewrite (addFavorite_eq ops sub l now db W Hid).
    unfold getFavoritesForUser.
    destruct (property_by_mls (js_String ops (Listing.id l)) db) as [p |].
    + rewrite (saved_rows_insert_or_ignore other sub _ _ _ Hne). reflexivity.
    + rewrite (saved_rows_insert_or_ignore other sub _ _ _ Hne).
      rewrite (saved_rows_with_new_property other l db W). reflexivity.
  - intros listingId. unfold delete_favorites, fav_requireAuth.
    destruct (String.eqb listingId ""); [reflexivity |].
    cbn [snd]. cbv zeta.
    destruct (property_by_mls listingId db) as [p |]; [| reflexivity].
    unfold getFavoritesForUser.
    rewrite (saved_rows_removeFavorite other sub _ _ Hne). reflexivity.
Qed.

End FavoritesIsolation.

Lemma favorites_of_other_users_are_untouched_witness :
  fav_wf saved_favdb /\
  "ann" <> "bob" /\
  getFavoritesForUser whole_numbers "ann"
    (snd (delete_favorites whole_numbers (Bearer "bob") "X100" saved_favdb)) =
  getFavoritesForUser whole_numbers "ann" saved_favdb.
Proof.
  assert (Hne : "ann" <> "bob") by discriminate.
  split; [apply saved_favdb_wf |]. split; [exact Hne |].
  destruct (favorites_of_other_users_are_untouched whole_numbers "bob" "ann"
              saved_favdb saved_favdb_wf Hne) as [_ Hdel].
  apply Hdel.
Defined.
